(* ===== verification/_CoqProject ===== *)
-Q . S2P
Prelude.v
PyString.v
PyValue.v
Dates.v
DateFormat.v
Credentials.v
Effects.v
Hoare.v
GoogleAuth.v
TokenManager.v
ChannelResolve.v
Probes.v
Main.v
