(* ===== verification/Prelude.v ===== *)
(** * A verification development of [youtube_outh]

    ** The program

    The repository holds two Python scripts that sign in to the YouTube
    APIs with OAuth2 and then probe them.
    - [src/yt_auth.py]: [get_credentials] loads [token.json], refreshes an
      expired token that has a refresh token, otherwise runs the browser
      flow ([InstalledAppFlow]), and saves the result; [main] then runs
      two smoke tests, [test_youtube_data_api] and
      [test_youtube_analytics_api], none of them inside a [try].
    - [src/test_api.py]: [load_credentials] loads and, if expired,
      refreshes the token, or ends the process with [sys.exit(1)];
      [get_channel_id_from_handle] finds the channel of the handle
      [Daepa_ai] (search, match by custom URL or title, first result,
      [forUsername]); [test_youtube_data_api] and
      [test_youtube_analytics_api] probe the two APIs and catch every
      exception; [main] combines their results into the exit code.
    The scripts share nothing but [token.json]; inside each, the
    credential manager runs first and hands its credential to the probes.

    ** The files

    - [Prelude] (this file): the scope [py_scope], the hint databases
      [yt] and [yt_rw], the tactic [zlia].
    - [PyString], [PyValue]: the Python values the scripts handle (JSON
      values, [pyval]), the exceptions ([exn], with the test of
      [except Exception]), the partial operations ([d[k]], [d.get],
      [len], [for], [str.lower], [" | ".join], slices, [f"{v:,}"],
      [str], [repr]) with the exception each raises, and the [str]
      methods on Latin-1 strings.
    - [Dates], [DateFormat]: CPython's proleptic Gregorian calendar
      ([_ymd2ord], [_ord2ymd], proved inverse on [1 .. 3652059]),
      [date.isoformat], [datetime.isoformat] and [_strptime] for
      ["%Y-%m-%dT%H:%M:%S"] (its regular expression, alternatives in
      CPython's order), with the round trip of the two.
    - [Credentials], [GoogleAuth]: the behaviour of google-auth 2.x that
      the scripts use: the credential record, [expired] and [valid] with
      the 225-second threshold, [to_json], [from_authorized_user_info],
      [refresh], the browser flow.
    - [Effects]: the outside world.  [world] is the token file and the
      trace of effects; [env] answers the clock, the token endpoint, the
      flow, [build], every API request and whether the file is writable,
      as functions of the number of effects before; [M] is the
      state-and-exception monad of a Python statement list, with
      [try_except], [try_clauses] (several [except] clauses in order),
      [for_until] (a loop with [return]) and [for_each].
    - [Hoare]: [spec P R c] (in every environment whose services raise
      ordinary exceptions, [c] returns [P] or raises [R]), [frame p c]
      ([c] adds no event [p]), [keeps_file c] ([c] does not change the
      token file), [runs E I c P] ([c] returns in the environment [E]),
      [at_most p n c] ([c] adds at most [n] events [p]), their rules and
      the tactics [spec_exn], [frame_comb], [keeps_comb].
    - [TokenManager]: [YtAuth.get_credentials] ([yt_auth.py] lines
      22-47) and [TestApi.load_credentials] ([test_api.py] lines 93-122).
    - [ChannelResolve]: [ChannelLookup.get_channel_id_from_handle]
      ([test_api.py] lines 26-90), one definition per block.
    - [Probes]: [TestApiProbes.test_youtube_data_api] (lines 125-209),
      [TestApiProbes.test_youtube_analytics_api] (lines 212-280) and the
      two probes of [yt_auth.py] (lines 50-90) in [YtAuthProbes].
    - [Main]: [YtAuthMain.main], [TestApiMain.main], [TestApiMain.script]
      ([sys.exit(main())]) and [exit_status].

    ** The theorems

    - Credential manager (C1-C7, C21, C22, [TokenManager]): a valid
      stored token is returned untouched; an expired one is refreshed by
      exactly one request and saved; without a file a failing flow is an
      error and creates no file; [get_credentials] refines the contract
      of the spec's [acquire] (C22: every run is the stored credential
      with nothing written, a persisted refreshed or new credential, or a
      failure that leaves the file as it was); and where the code departs
      from the spec: a failed refresh does not fall back to the flow, a
      saved token loses its sub-second expiry, and a token saved without
      a refresh token breaks every later run.  [load_credentials]
      returns a token or exits with status 1, and refreshes and saves an
      expired token (C21).
    - Channel lookup (C8-C11, C28, [ChannelResolve]): it never raises;
      the spec's example (["foo"] against the custom URL ["@foo_ai"])
      takes exactly two requests; no result leads to [forUsername] and
      [None]; a handle and its cleaned form are looked up alike; a search
      that answers [n] items costs at most [n + 3] requests (C28).
    - Probes (C12-C17, C24-C27, [Probes]): neither probe of
      [test_api.py] raises; two of the data probe's [except] clauses are
      dead; an empty search falls back to [mine=True] after
      [forUsername], with the exact order of the five requests; an empty
      analytics report is a success; in the first week of year 1 the
      window's [OverflowError] makes the analytics probe fail before any
      request (C17); a total sent as a string is caught as an unexpected
      error and the probe fails (C24); the daily table shows the first
      five rows and a count of the rest (C25); an [HttpError] in the data
      probe gives [None] and the hint of its status (C26); [yt_auth.py]'s
      analytics probe prints every row (C27).
    - Entry points (C18-C20, C23, [Main]): [test_api.py]'s exit code is
      [0] exactly when the data result is not [None] and analytics
      passed, so a data probe that returned [False] counts as passing;
      without a token file, or with one that is not JSON, the script
      exits with status 1 before building a client (C19); in
      [yt_auth.py] a failing data request aborts the script before the
      analytics probe (C20); the analytics probe of [test_api.py] runs
      exactly once whatever the data probe returned (C23).
    Each theorem with hypotheses has a witness ([..._witness]) at a
    concrete token file and server.

    ** Bounds and fuel

    Integers are [Z], as Python's are unbounded.  Times are microseconds
    since 1970-01-01 as [Z]; a [datetime] is in range when its date is in
    [1 .. 3652059] ([dt_in_range]).  [ord2ymd] needs no fuel; the digit
    counts ([ndigits], [dec_str]) take the number of bits plus one as
    fuel, which bounds the number of decimal digits.  The oracles of [env]
    are indexed by the length of the trace, so a stateful server or a
    moving clock is one [env]; the theorems that need a server that
    always answers the same ask for it ([Hapi]).

    ** Not modelled

    The text of the messages (the Korean strings; a print is an event
    with a tag and the interpolated values); characters beyond U+00FF in
    strings; JSON floats (the metrics the scripts request are integers);
    the HTTP layer of googleapiclient and the OAuth exchange itself (their
    answers come from [env]); the value of the credential passed to
    [build] (the answers of [env] are those for the credential in use);
    [client_secret.json]; in google-auth's [refresh], the check of a
    non-default universe domain and the reauthentication that replaces
    the RAPT token (see [GoogleAuth]). *)

From stdpp Require Import base list.
From Stdlib Require Import ZArith Lia.

Declare Scope py_scope.
Delimit Scope py_scope with py.

Create HintDb yt discriminated.
Create Rewrite HintDb yt_rw.

(** [zlia]: [lia] after turning [/] and [mod] by constants into equations. *)
Ltac zlia := Z.div_mod_to_equations; lia.
