(* ===== verification/PyString.v ===== *)
(** * Python [str] methods used by the scripts

    Python strings are sequences of code points; this file models the
    code points U+0000 to U+00FF (Latin-1), each as a Rocq [ascii], which
    covers every character the scripts write themselves ([@], the handle
    [Daepa_ai], the API literals).  The methods are written from CPython's
    behaviour on that range:
    - [str_lower]: [str.lower] (U+0041..U+005A and U+00C0..U+00DE except
      U+00D7 map to the code point 32 above);
    - [is_space], [str_strip]: [str.isspace] and [str.strip()] with no
      argument (9..13, 28..32, U+0085, U+00A0);
    - [str_replace_char]: [str.replace(old, new)] for a one-character [old];
    - [str_contains]: the [in] operator on two strings. *)

From S2P Require Import Prelude.
From stdpp Require Import base list.
From Stdlib Require Import Ascii String NArith Lia.

Local Open Scope string_scope.
Local Open Scope N_scope.

Definition code (c : ascii) : N := N_of_ascii c.

Definition is_upper (c : ascii) : bool :=
  let n := code c in
  ((65 <=? n) && (n <=? 90)) || ((192 <=? n) && (n <=? 222) && negb (n =? 215)).

Definition lower_char (c : ascii) : ascii :=
  if is_upper c then ascii_of_N (code c + 32) else c.

Fixpoint str_lower (s : string) : string :=
  match s with
  | EmptyString => EmptyString
  | String c r => String (lower_char c) (str_lower r)
  end.

Definition is_space (c : ascii) : bool :=
  let n := code c in
  ((9 <=? n) && (n <=? 13)) || ((28 <=? n) && (n <=? 32)) || (n =? 133) || (n =? 160).

Fixpoint str_lstrip (s : string) : string :=
  match s with
  | EmptyString => EmptyString
  | String c r => if is_space c then str_lstrip r else s
  end.

Fixpoint str_rstrip (s : string) : string :=
  match s with
  | EmptyString => EmptyString
  | String c r =>
      match str_rstrip r with
      | EmptyString => if is_space c then EmptyString else String c EmptyString
      | r' => String c r'
      end
  end.

Definition str_strip (s : string) : string := str_rstrip (str_lstrip s).

Fixpoint str_replace_char (old : ascii) (new s : string) : string :=
  match s with
  | EmptyString => EmptyString
  | String c r =>
      if Ascii.eqb c old then new ++ str_replace_char old new r
      else String c (str_replace_char old new r)
  end.

Fixpoint str_prefix (p s : string) : bool :=
  match p, s with
  | EmptyString, _ => true
  | String a p', String b s' => Ascii.eqb a b && str_prefix p' s'
  | String _ _, EmptyString => false
  end.

Fixpoint str_contains (needle hay : string) : bool :=
  str_prefix needle hay ||
  match hay with
  | EmptyString => false
  | String _ r => str_contains needle r
  end.

(** [s.rstrip(c)] for a one-character argument. *)
Fixpoint str_rstrip_char (a : ascii) (s : string) : string :=
  match s with
  | EmptyString => EmptyString
  | String c r =>
      match str_rstrip_char a r with
      | EmptyString => if Ascii.eqb c a then EmptyString else String c EmptyString
      | r' => String c r'
      end
  end.

(** [s.split(c)[0]]: the text before the first [c]. *)
Fixpoint str_split_first (a : ascii) (s : string) : string :=
  match s with
  | EmptyString => EmptyString
  | String c r => if Ascii.eqb c a then EmptyString else String c (str_split_first a r)
  end.

(** Characters of a string, as a predicate. *)
Fixpoint str_forall (P : ascii -> bool) (s : string) : bool :=
  match s with
  | EmptyString => true
  | String c r => P c && str_forall P r
  end.

(** [str(n)] of a natural number: its decimal digits ([N.size_nat n + 1]
    steps suffice, a number has no more decimal than binary digits). *)
Fixpoint dec_str_fuel (fuel : nat) (n : N) : string :=
  match fuel with
  | O => EmptyString
  | S f =>
      let d := String (ascii_of_N (48 + n mod 10)) EmptyString in
      if n <? 10 then d else dec_str_fuel f (n / 10) ++ d
  end.

Definition dec_str (n : N) : string := dec_str_fuel (S (N.size_nat n)) n.

(** The [","] option of the format mini-language: a comma between groups
    of three digits, counted from the right (on the reversed digits). *)
Fixpoint group3_rev (l : list ascii) : list ascii :=
  match l with
  | a :: b :: c :: ((_ :: _) as r) => a :: b :: c :: ","%char :: group3_rev r
  | _ => l
  end.

Definition group_thousands (s : string) : string :=
  string_of_list_ascii (rev (group3_rev (rev (list_ascii_of_string s)))).

(** [sep.join(parts)] on strings. *)
Fixpoint str_join (sep : string) (parts : list string) : string :=
  match parts with
  | [] => EmptyString
  | [p] => p
  | p :: r => p ++ sep ++ str_join sep r
  end.

(** ** Lemmas *)

Lemma str_prefix_spec p s : str_prefix p s = true <-> exists t, s = p ++ t.
Proof.
  revert s; induction p as [|a p IH]; intros [|b s]; simpl.
  - split; eauto.
  - split; eauto.
  - split; [discriminate | intros [t Ht]; discriminate].
  - rewrite andb_true_iff, Ascii.eqb_eq, IH. split.
    + intros [-> [t ->]]. eauto.
    + intros [t Ht]. injection Ht as -> ->. eauto.
Qed.

Lemma str_append_assoc (a b c : string) : (a ++ b) ++ c = a ++ (b ++ c).
Proof. induction a; simpl; congruence. Qed.

Lemma str_append_nil_r (a : string) : a ++ "" = a.
Proof. induction a; simpl; congruence. Qed.

#[export] Hint Rewrite str_append_assoc str_append_nil_r : yt_rw.

(** [in] on strings is substring containment. *)
Lemma str_contains_spec needle hay :
  str_contains needle hay = true <-> exists a b, hay = a ++ needle ++ b.
Proof.
  induction hay as [|c r IH]; simpl; rewrite orb_true_iff, str_prefix_spec.
  - split.
    + intros [[t Ht] | H]; [by exists "", t | discriminate].
    + intros [a [b Hb]]. destruct a; simpl in Hb; [left; by exists b | discriminate].
  - rewrite IH. split.
    + intros [[t Ht] | [a [b ->]]].
      * exists "", t. exact Ht.
      * exists (String c a), b. reflexivity.
    + intros [a [b Hb]]. destruct a as [|x a]; simpl in Hb.
      * left. by exists b.
      * right. injection Hb as -> ->. eauto.
Qed.

Lemma lower_char_not_upper c : is_upper (lower_char c) = false.
Proof. destruct c as [[] [] [] [] [] [] [] []]; reflexivity. Qed.

Lemma lower_char_idem c : lower_char (lower_char c) = lower_char c.
Proof. destruct c as [[] [] [] [] [] [] [] []]; reflexivity. Qed.

Lemma str_lower_idem s : str_lower (str_lower s) = str_lower s.
Proof. induction s; simpl; [done | by rewrite lower_char_idem, IHs]. Qed.

Lemma str_lower_length s : String.length (str_lower s) = String.length s.
Proof. induction s; simpl; auto. Qed.

Lemma str_lower_append a b : str_lower (a ++ b) = str_lower a ++ str_lower b.
Proof. induction a; simpl; congruence. Qed.

#[export] Hint Rewrite str_lower_idem str_lower_append : yt_rw.

Lemma str_replace_char_no_old old s :
  str_forall (fun c => negb (Ascii.eqb c old)) (str_replace_char old "" s) = true.
Proof.
  induction s as [|c r IH]; simpl; [done|].
  destruct (Ascii.eqb c old) eqn:E; simpl; [exact IH | by rewrite E, IH].
Qed.

Lemma str_replace_char_id old new s :
  str_forall (fun c => negb (Ascii.eqb c old)) s = true -> str_replace_char old new s = s.
Proof.
  induction s as [|c r IH]; simpl; [done|].
  rewrite andb_true_iff, negb_true_iff. intros [-> H]. by rewrite IH.
Qed.

Lemma str_lstrip_head s :
  match str_lstrip s with EmptyString => True | String c _ => is_space c = false end.
Proof.
  induction s as [|c r IH]; simpl; [done|].
  destruct (is_space c) eqn:E; [done | exact E].
Qed.

Lemma str_lstrip_idem s : str_lstrip (str_lstrip s) = str_lstrip s.
Proof.
  pose proof (str_lstrip_head s) as H.
  destruct (str_lstrip s) as [|c r]; simpl; [done|]. by rewrite H.
Qed.

Lemma str_lstrip_split s :
  exists a, s = a ++ str_lstrip s /\ str_forall is_space a = true.
Proof.
  induction s as [|c r [a [Ha Hs]]]; simpl.
  - by exists "".
  - destruct (is_space c) eqn:E.
    + exists (String c a). simpl. rewrite E, Hs. split; [congruence | done].
    + by exists "".
Qed.

(** [str_rstrip] removes exactly a trailing block of whitespace. *)
Lemma str_rstrip_split s :
  exists b, s = str_rstrip s ++ b /\ str_forall is_space b = true.
Proof.
  induction s as [|c r [b [Hb Hs]]]; simpl.
  - by exists "".
  - destruct (str_rstrip r) as [|x y] eqn:E.
    + destruct (is_space c) eqn:Ec.
      * exists (String c b). simpl. rewrite Ec, Hs. split; [simpl in *; congruence | done].
      * exists b. simpl. split; [simpl in *; congruence | done].
    + exists b. simpl. split; [simpl in *; congruence | done].
Qed.

Fixpoint str_last (s : string) : option ascii :=
  match s with
  | EmptyString => None
  | String c EmptyString => Some c
  | String _ r => str_last r
  end.

Lemma str_rstrip_last s :
  match str_last (str_rstrip s) with None => True | Some c => is_space c = false end.
Proof.
  induction s as [|c r IH]; simpl; [done|].
  destruct (str_rstrip r) as [|x y] eqn:E.
  - destruct (is_space c) eqn:Ec; simpl; [done | exact Ec].
  - exact IH.
Qed.

Lemma str_rstrip_empty_iff s : str_rstrip s = "" <-> str_forall is_space s = true.
Proof.
  induction s as [|c r IH]; simpl; [done|].
  rewrite andb_true_iff, <- IH.
  destruct (str_rstrip r); destruct (is_space c); intuition congruence.
Qed.

Lemma str_rstrip_keep_head c r :
  is_space c = false -> exists r', str_rstrip (String c r) = String c r'.
Proof.
  intros Hc. simpl. destruct (str_rstrip r) eqn:E; [rewrite Hc|]; eauto.
Qed.

Definition str_head (s : string) : option ascii :=
  match s with EmptyString => None | String c _ => Some c end.

Definition not_space_opt (o : option ascii) : Prop :=
  match o with None => True | Some c => is_space c = false end.

(** [str.strip()] removes exactly a leading and a trailing block of
    whitespace, and what it keeps neither starts nor ends with whitespace. *)
Lemma str_strip_spec s :
  exists a b, s = a ++ str_strip s ++ b /\
    str_forall is_space a = true /\ str_forall is_space b = true /\
    not_space_opt (str_head (str_strip s)) /\ not_space_opt (str_last (str_strip s)).
Proof.
  destruct (str_lstrip_split s) as [a [Ha Sa]].
  destruct (str_rstrip_split (str_lstrip s)) as [b [Hb Sb]].
  exists a, b. unfold str_strip. split; [|split; [done | split; [done | split]]].
  - rewrite <- Hb. exact Ha.
  - pose proof (str_lstrip_head s) as Hh.
    destruct (str_lstrip s) as [|c r]; [done|].
    destruct (str_rstrip_keep_head c r Hh) as [r' ->]. exact Hh.
  - apply str_rstrip_last.
Qed.

Lemma str_lstrip_id s :
  str_forall (fun c => negb (is_space c)) s = true -> str_lstrip s = s.
Proof. destruct s as [|c r]; simpl; [done|]. rewrite andb_true_iff, negb_true_iff. by intros [-> _]. Qed.

Lemma str_rstrip_id s :
  str_forall (fun c => negb (is_space c)) s = true -> str_rstrip s = s.
Proof.
  induction s as [|c r IH]; simpl; [done|]. rewrite andb_true_iff, negb_true_iff.
  intros [Hc Hr]. rewrite (IH Hr). destruct r; [by rewrite Hc | done].
Qed.

Lemma str_strip_id s :
  str_forall (fun c => negb (is_space c)) s = true -> str_strip s = s.
Proof. intros H. unfold str_strip. rewrite str_lstrip_id by done. by apply str_rstrip_id. Qed.

Lemma str_rstrip_last_id s : not_space_opt (str_last s) -> str_rstrip s = s.
Proof.
  induction s as [|c r IH]; [done|]. intros Hl. simpl.
  destruct r as [|x y]; [simpl in Hl; by rewrite Hl|].
  rewrite IH by exact Hl. done.
Qed.

Lemma str_lstrip_head_id s : not_space_opt (str_head s) -> str_lstrip s = s.
Proof. destruct s as [|c r]; simpl; [done|]. by intros ->. Qed.

(** [str.strip()] is idempotent. *)
Lemma str_strip_idem s : str_strip (str_strip s) = str_strip s.
Proof.
  destruct (str_strip_spec s) as (a & b & _ & _ & _ & Hh & Hl).
  unfold str_strip at 1. rewrite str_lstrip_head_id by exact Hh. by apply str_rstrip_last_id.
Qed.

Lemma str_length_append (a b : string) : String.length (a ++ b) = (String.length a + String.length b)%nat.
Proof. induction a; simpl; auto. Qed.

Lemma str_forall_app P a b : str_forall P (a ++ b) = str_forall P a && str_forall P b.
Proof. induction a; simpl; [done|]. rewrite IHa. apply andb_assoc. Qed.

Lemma str_rstrip_char_snoc a s : str_rstrip_char a (s ++ String a EmptyString) = str_rstrip_char a s.
Proof.
  induction s as [|x s IH]; simpl; [by rewrite Ascii.eqb_refl|]. by rewrite IH.
Qed.

Lemma str_rstrip_char_last a s c :
  str_last s = Some c -> Ascii.eqb c a = false -> str_rstrip_char a s = s.
Proof.
  induction s as [|x s IH]; simpl; [done|].
  destruct s as [|y s].
  - intros H. injection H as ->. simpl. intros ->. done.
  - intros Hl Hc. rewrite (IH Hl Hc). done.
Qed.

Lemma str_last_app_snoc s c : str_last (s ++ String c EmptyString) = Some c.
Proof. induction s as [|x [|y s] IH]; simpl in *; auto. Qed.

Lemma str_split_first_app a s r :
  str_forall (fun c => negb (Ascii.eqb c a)) s = true ->
  str_split_first a (s ++ r) = (s ++ str_split_first a r)%string.
Proof.
  induction s as [|x s IH]; simpl; [done|].
  rewrite andb_true_iff, negb_true_iff. intros [-> Hs]. by rewrite IH.
Qed.

Lemma str_split_first_id a s :
  str_forall (fun c => negb (Ascii.eqb c a)) s = true -> str_split_first a s = s.
Proof.
  induction s as [|x s IH]; simpl; [done|].
  rewrite andb_true_iff, negb_true_iff. intros [-> Hs]. by rewrite IH.
Qed.

(** What [strip] keeps is a part of the string. *)
Lemma str_forall_strip P s : str_forall P s = true -> str_forall P (str_strip s) = true.
Proof.
  destruct (str_strip_spec s) as (a & b & Hs & _). intros H.
  rewrite Hs, !str_forall_app, !andb_true_iff in H. tauto.
Qed.

