(* ===== verification/PyValue.v ===== *)
(** * Python values and exceptions as the scripts meet them

    The scripts only handle values that come out of [json.loads] (API
    responses, the token file) or that they build from literals: [None],
    booleans, integers, strings, lists and dicts.  [pyval] has one
    constructor per such Python type; a dict is an association list whose
    keys are distinct (the response dicts are built by [json.loads]).

    The exceptions that the scripts raise or catch are the constructors of
    [exn]; [is_Exception] is the test made by [except Exception:], which
    catches everything but [SystemExit] (a [BaseException]).

    The partial operations of Python on these values return [res]: the
    subscript [v[k]] ([py_getkey], [py_getidx]), [dict.get] ([py_get]),
    [len] ([py_len]), iteration by [for] ([py_iter]), [str.lower] called on
    a value ([py_lower]); each raises the exception CPython raises on a
    value of the wrong type or a missing key or index. *)

From S2P Require Import Prelude PyString.
From stdpp Require Import base list.
From Stdlib Require Import Ascii String ZArith Lia.

Local Set Warnings "-register-all".

Inductive pyval : Type :=
| PNone
| PBool (b : bool)
| PInt (z : Z)
| PStr (s : string)
| PList (l : list pyval)
| PDict (kvs : list (string * pyval)).

(** The exceptions of the scripts: [HttpError] of googleapiclient with its
    [e.resp.status], [RefreshError] of google-auth, the failures of the
    interactive flow, the built-in errors, and [SystemExit] raised by
    [sys.exit]. *)
Inductive exn : Type :=
| HttpError (status : Z)
| RefreshError
| FlowError
| KeyError
| IndexError
| TypeError
| AttributeError
| ValueError
| OSError
| OverflowError
| SystemExit (code : Z).

#[export] Instance exn_eq_dec : EqDecision exn.
Proof. solve_decision. Defined.

(** [except Exception] catches every exception except [SystemExit]. *)
Definition is_Exception (e : exn) : bool :=
  match e with SystemExit _ => false | _ => true end.

Definition is_HttpError (e : exn) : bool :=
  match e with HttpError _ => true | _ => false end.

(** A computation that returns a value or raises. *)
Inductive res (A : Type) : Type :=
| Ok (a : A)
| Raise (e : exn).
Arguments Ok {A} a.
Arguments Raise {A} e.

(** A result that, if it raises, raises an [Exception]. *)
Definition raises_exception {A} (r : res A) : Prop :=
  forall e, r = Raise e -> is_Exception e = true.

#[export] Instance res_ret : MRet res := fun _ a => Ok a.
#[export] Instance res_bind : MBind res := fun _ _ f r =>
  match r with Ok a => f a | Raise e => Raise e end.

Definition of_option {A} (e : exn) (o : option A) : res A :=
  match o with Some a => Ok a | None => Raise e end.

(** ** Truth value ([if v:], [not v]) *)

Definition truthy (v : pyval) : bool :=
  match v with
  | PNone => false
  | PBool b => b
  | PInt z => negb (Z.eqb z 0)
  | PStr s => negb (String.eqb s EmptyString)
  | PList l => negb (bool_decide (l = []))
  | PDict kvs => negb (bool_decide (kvs = []))
  end.

(** ** Dicts *)

Fixpoint dict_lookup (k : string) (kvs : list (string * pyval)) : option pyval :=
  match kvs with
  | [] => None
  | (k', v) :: r => if String.eqb k k' then Some v else dict_lookup k r
  end.

(** [d.get(k, default)]; a value that is not a dict has no [get]. *)
Definition py_get (d : pyval) (k : string) (dflt : pyval) : res pyval :=
  match d with
  | PDict kvs => Ok (default dflt (dict_lookup k kvs))
  | _ => Raise AttributeError
  end.

(** [d[k]] with a string key. *)
Definition py_getkey (d : pyval) (k : string) : res pyval :=
  match d with
  | PDict kvs => of_option KeyError (dict_lookup k kvs)
  | _ => Raise TypeError
  end.

(** ** Sequences *)

(** Python's index normalisation: a negative index counts from the end. *)
Definition norm_index (i : Z) (n : nat) : option nat :=
  let j := if (i <? 0)%Z then (i + Z.of_nat n)%Z else i in
  if (0 <=? j)%Z && (j <? Z.of_nat n)%Z then Some (Z.to_nat j) else None.

Definition str_chars (s : string) : list pyval :=
  map (fun c => PStr (String c EmptyString)) (list_ascii_of_string s).

(** [v[i]] with an integer index.  A dict from JSON has string keys only,
    so an integer key is missing. *)
Definition py_getidx (v : pyval) (i : Z) : res pyval :=
  match v with
  | PList l => of_option IndexError (norm_index i (List.length l) ≫= fun j => l !! j)
  | PStr s => of_option IndexError (norm_index i (List.length (str_chars s)) ≫= fun j => str_chars s !! j)
  | PDict _ => Raise KeyError
  | _ => Raise TypeError
  end.

Definition py_len (v : pyval) : res Z :=
  match v with
  | PList l => Ok (Z.of_nat (List.length l))
  | PStr s => Ok (Z.of_nat (String.length s))
  | PDict kvs => Ok (Z.of_nat (List.length kvs))
  | _ => Raise TypeError
  end.

(** The elements a [for] loop visits: a dict yields its keys, a string its
    characters. *)
Definition py_iter (v : pyval) : res (list pyval) :=
  match v with
  | PList l => Ok l
  | PDict kvs => Ok (map (fun kv => PStr kv.1) kvs)
  | PStr s => Ok (str_chars s)
  | _ => Raise TypeError
  end.

(** [v.lower()]: only strings have the method. *)
Definition py_lower (v : pyval) : res string :=
  match v with
  | PStr s => Ok (str_lower s)
  | _ => Raise AttributeError
  end.

(** [sep.join(parts)]: every part must be a [str]. *)
Fixpoint py_strs (parts : list pyval) : res (list string) :=
  match parts with
  | [] => Ok []
  | PStr s :: r => ss ← py_strs r; mret (s :: ss)
  | _ :: _ => Raise TypeError
  end.

Definition py_join (sep : string) (parts : list pyval) : res string :=
  ss ← py_strs parts; mret (str_join sep ss).

(** [v[:n]]: a prefix of a list or a string.  A dict has no slices: a
    [TypeError] on CPython up to 3.11 (3.12 raises [KeyError]; both are
    ordinary exceptions). *)
Definition py_take (n : nat) (v : pyval) : res pyval :=
  match v with
  | PList l => Ok (PList (take n l))
  | PStr s => Ok (PStr (substring 0 n s))
  | _ => Raise TypeError
  end.

(** [f"{v:,}"]: an [int] (or [bool]) with its digits grouped by three;
    a [str] rejects the [","] option with [ValueError], the other types
    have no such format ([TypeError]). *)
Definition py_format_comma (v : pyval) : res string :=
  let fmt z := ((if (z <? 0)%Z then "-" else "") ++ group_thousands (dec_str (Z.to_N (Z.abs z))))%string in
  match v with
  | PInt z => Ok (fmt z)
  | PBool b => Ok (fmt (if b then 1 else 0)%Z)
  | PStr _ => Raise ValueError
  | _ => Raise TypeError
  end.

(** An operand of [v / 60]: an [int] or a [bool]; anything else from
    JSON raises [TypeError]. *)
Definition py_number (v : pyval) : res Z :=
  match v with
  | PInt z => Ok z
  | PBool b => Ok (if b then 1 else 0)%Z
  | _ => Raise TypeError
  end.

(** ** [str] and [repr] *)

(** [str(z)] of an [int] (a JSON integer has fewer than the 4300 digits
    beyond which CPython refuses to convert). *)
Definition int_str (z : Z) : string :=
  ((if (z <? 0)%Z then "-" else "") ++ dec_str (Z.to_N (Z.abs z)))%string.

Definition hex_digit (n : N) : ascii := ascii_of_N (if (n <? 10)%N then 48 + n else 87 + n)%N.

Definition dquote : ascii := ascii_of_N 34.

(** One character of [repr(s)] inside the quote [q] ([unicode_repr]):
    the quote and the backslash escaped, [\t \n \r], the other
    characters that are not printable as [\xNN]. *)
Definition repr_char (q c : ascii) : string :=
  let n := N_of_ascii c in
  if Ascii.eqb c q || Ascii.eqb c "\"%char then String "\"%char (String c EmptyString)
  else if (n =? 9)%N then "\t"
  else if (n =? 10)%N then "\n"
  else if (n =? 13)%N then "\r"
  else if (n <? 32)%N || (n =? 127)%N || ((128 <=? n)%N && (n <=? 160)%N) || (n =? 173)%N then
    String "\"%char (String "x"%char (String (hex_digit (n / 16)) (String (hex_digit (n mod 16)) EmptyString)))
  else String c EmptyString.

Fixpoint str_concat_map (f : ascii -> string) (s : string) : string :=
  match s with
  | EmptyString => EmptyString
  | String c r => (f c ++ str_concat_map f r)%string
  end.

(** [repr(s)]: single quotes, unless [s] has a single quote and no double one. *)
Definition repr_str (s : string) : string :=
  let q := if str_contains "'" s && negb (str_contains (String dquote EmptyString) s) then dquote else "'"%char in
  String q (str_concat_map (repr_char q) s ++ String q EmptyString).

Fixpoint py_repr (v : pyval) : string :=
  match v with
  | PNone => "None"
  | PBool true => "True"
  | PBool false => "False"
  | PInt z => int_str z
  | PStr s => repr_str s
  | PList l => ("[" ++ str_join ", " (map py_repr l) ++ "]")%string
  | PDict kvs => ("{" ++ str_join ", " (map (fun kv => let '(k, x) := kv in repr_str k ++ ": " ++ py_repr x) kvs) ++ "}")%string
  end.

(** [str(v)], and [f"{v}"]. *)
Definition py_str (v : pyval) : string :=
  match v with
  | PStr s => s
  | _ => py_repr v
  end.

(** The keys of a dict are distinct (checked by computation). *)
Fixpoint keys_distinct (kvs : list (string * pyval)) : bool :=
  match kvs with
  | [] => true
  | (k, _) :: r => negb (existsb (fun kv => String.eqb k kv.1) r) && keys_distinct r
  end.

(** ** Lemmas *)

Lemma res_bind_ok {A B} (r : res A) (f : A -> res B) b :
  (r ≫= f) = Ok b -> exists a, r = Ok a /\ f a = Ok b.
Proof. destruct r; simpl; [eauto | discriminate]. Qed.


Lemma keys_distinct_NoDup kvs : keys_distinct kvs = true -> NoDup (map fst kvs).
Proof.
  induction kvs as [|[k v] r IH]; simpl; [constructor|].
  rewrite andb_true_iff, negb_true_iff. intros [Hn Hr]. constructor; [|auto].
  rewrite list_elem_of_In, in_map_iff. intros [[k' v'] [Hk Hin]]. simpl in Hk. subst k'.
  assert (existsb (fun kv => String.eqb k kv.1) r = true) as Hc
    by (apply existsb_exists; exists (k, v'); simpl; rewrite String.eqb_refl; auto).
  congruence.
Qed.


Lemma truthy_list_iff (l : list pyval) : truthy (PList l) = true <-> l <> [].
Proof. simpl. rewrite negb_true_iff, bool_decide_eq_false. done. Qed.

Lemma py_getidx_0_cons v l : py_getidx (PList (v :: l)) 0 = Ok v.
Proof. reflexivity. Qed.

Lemma py_getidx_0_nil : py_getidx (PList []) 0 = Raise IndexError.
Proof. reflexivity. Qed.

Lemma py_get_dict kvs k dflt :
  py_get (PDict kvs) k dflt = Ok (default dflt (dict_lookup k kvs)).
Proof. reflexivity. Qed.

Lemma dict_lookup_head k v r : dict_lookup k ((k, v) :: r) = Some v.
Proof. simpl. by rewrite String.eqb_refl. Qed.

#[export] Hint Rewrite py_getidx_0_cons py_getidx_0_nil py_get_dict dict_lookup_head : yt_rw.

(** The partial operations raise ordinary exceptions only. *)
Lemma of_option_exn {A} e (o : option A) : is_Exception e = true -> raises_exception (of_option e o).
Proof. intros He e'. destruct o; simpl; intros H; simplify_eq; done. Qed.

Lemma py_get_exn v k d : raises_exception (py_get v k d).
Proof. intros e. destruct v; simpl; intros H; simplify_eq; done. Qed.

Lemma py_getkey_exn v k : raises_exception (py_getkey v k).
Proof. destruct v; simpl; try (intros e H; simplify_eq; done). by apply of_option_exn. Qed.

Lemma py_getidx_exn v i : raises_exception (py_getidx v i).
Proof. destruct v; simpl; try (intros e H; simplify_eq; done); by apply of_option_exn. Qed.

Lemma py_len_exn v : raises_exception (py_len v).
Proof. intros e. destruct v; simpl; intros H; simplify_eq; done. Qed.

Lemma py_iter_exn v : raises_exception (py_iter v).
Proof. intros e. destruct v; simpl; intros H; simplify_eq; done. Qed.

Lemma py_lower_exn v : raises_exception (py_lower v).
Proof. intros e. destruct v; simpl; intros H; simplify_eq; done. Qed.

Lemma py_strs_exn l : raises_exception (py_strs l).
Proof.
  intros e. induction l as [|v r IH]; simpl; [discriminate|].
  destruct v; try (intros H; simplify_eq; done).
  destruct (py_strs r); simpl; [discriminate | intros H; simplify_eq; auto].
Qed.

Lemma py_join_exn sep l : raises_exception (py_join sep l).
Proof.
  intros e. unfold py_join. destruct (py_strs l) eqn:Hs; simpl; [discriminate|].
  intros H; simplify_eq. by apply (py_strs_exn l).
Qed.

(** Joining strings never fails. *)
Lemma py_join_strs sep ss : py_join sep (map PStr ss) = Ok (str_join sep ss).
Proof.
  unfold py_join. enough (H : py_strs (map PStr ss) = Ok ss) by (rewrite H; done).
  induction ss as [|s ss IH]; [done|]. simpl. by rewrite IH.
Qed.

Lemma py_take_exn n v : raises_exception (py_take n v).
Proof. intros e. destruct v; simpl; intros H; simplify_eq; done. Qed.

Lemma py_format_comma_exn v : raises_exception (py_format_comma v).
Proof. intros e. destruct v; simpl; intros H; simplify_eq; done. Qed.

Lemma py_number_exn v : raises_exception (py_number v).
Proof. intros e. destruct v; simpl; intros H; simplify_eq; done. Qed.

#[export] Hint Resolve py_get_exn py_getkey_exn py_getidx_exn py_len_exn py_iter_exn py_lower_exn
  py_join_exn py_take_exn py_format_comma_exn py_number_exn : yt.

