(* ===== verification/Dates.v ===== *)
(** * Python's [datetime] calendar, as the scripts and google-auth use it

    The analytics probes compute [datetime.utcnow().date()] and subtract
    [timedelta(days=7)]; google-auth writes a token expiry with
    [datetime.isoformat()] and reads it back with [datetime.strptime].
    This file models the proleptic Gregorian calendar of CPython's
    [datetime] module: [_is_leap], [_days_in_month], [_days_before_month],
    [_ymd2ord] and [_ord2ymd] are translated from CPython's pure-Python
    implementation (Lib/_pydatetime.py), with [MINYEAR = 1],
    [MAXYEAR = 9999] and [_MAXORDINAL = 3652059].

    The main results: [ord2ymd] and [ymd2ord] are inverse bijections
    between the ordinals [1 .. 3652059] and the valid dates of years
    [1 .. 9999] ([ord2ymd_correct]).  The proof names the quotients that
    [_ord2ymd] computes (400-, 100-, 4- and 1-year blocks), closes the year
    arithmetic with [lia], and checks the month table of [ord2md] for the
    365 days of a common and of a leap year by evaluation. *)

From S2P Require Import Prelude.
From stdpp Require Import base list.
From Stdlib Require Import ZArith Lia.

Local Open Scope Z_scope.

Definition MINYEAR : Z := 1.
Definition MAXYEAR : Z := 9999.
Definition MAXORDINAL : Z := 3652059.

(** Days in 1, 4, 100 and 400 years of the Gregorian calendar. *)
Definition DI4Y : Z := 1461.
Definition DI100Y : Z := 36524.
Definition DI400Y : Z := 146097.

Definition is_leap (y : Z) : bool :=
  (y mod 4 =? 0) && (negb (y mod 100 =? 0) || (y mod 400 =? 0)).

Definition days_in_month_common (m : Z) : Z :=
  match m with
  | 1 => 31 | 2 => 28 | 3 => 31 | 4 => 30 | 5 => 31 | 6 => 30
  | 7 => 31 | 8 => 31 | 9 => 30 | 10 => 31 | 11 => 30 | 12 => 31
  | _ => -1
  end.

(** [_DAYS_BEFORE_MONTH] *)
Definition days_before_month_common (m : Z) : Z :=
  match m with
  | 1 => 0 | 2 => 31 | 3 => 59 | 4 => 90 | 5 => 120 | 6 => 151
  | 7 => 181 | 8 => 212 | 9 => 243 | 10 => 273 | 11 => 304 | 12 => 334
  | _ => -1
  end.

Definition days_in_month (y m : Z) : Z :=
  if (m =? 2) && is_leap y then 29 else days_in_month_common m.

Definition days_before_year (y : Z) : Z :=
  let y' := y - 1 in y' * 365 + y' / 4 - y' / 100 + y' / 400.

Definition days_before_month (y m : Z) : Z :=
  days_before_month_common m + (if (m >? 2) && is_leap y then 1 else 0).

(** [_ymd2ord(year, month, day)] *)
Definition ymd2ord (y m d : Z) : Z :=
  days_before_year y + days_before_month y m + d.

(** The month lines of [_ord2ymd]: [n] is the day of the year, from 0. *)
Definition ord2md (n : Z) (leapyear : bool) : Z * Z :=
  let month := Z.shiftr (n + 50) 5 in
  let preceding := days_before_month_common month + (if (month >? 2) && leapyear then 1 else 0) in
  if preceding >? n then
    let month := month - 1 in
    let preceding := preceding - (days_in_month_common month + (if (month =? 2) && leapyear then 1 else 0)) in
    (month, n - preceding + 1)
  else (month, n - preceding + 1).

(** [_ord2ymd(n)] *)
Definition ord2ymd (n0 : Z) : Z * Z * Z :=
  let n := n0 - 1 in
  let n400 := n / DI400Y in let n := n mod DI400Y in
  let year := n400 * 400 + 1 in
  let n100 := n / DI100Y in let n := n mod DI100Y in
  let n4 := n / DI4Y in let n := n mod DI4Y in
  let n1 := n / 365 in let n := n mod 365 in
  let year := year + n100 * 100 + n4 * 4 + n1 in
  if (n1 =? 4) || (n100 =? 4) then (year - 1, 12, 31)
  else
    let leapyear := (n1 =? 3) && (negb (n4 =? 24) || (n100 =? 3)) in
    let '(month, day) := ord2md n leapyear in
    (year, month, day).

(** A valid date: the checks of [_check_date_fields]. *)
Definition valid_date (y m d : Z) : bool :=
  (MINYEAR <=? y) && (y <=? MAXYEAR) && (1 <=? m) && (m <=? 12) &&
  (1 <=? d) && (d <=? days_in_month y m).

Definition ymd_of (t : Z * Z * Z) : Z := let '(y, m, d) := t in ymd2ord y m d.
Definition valid_of (t : Z * Z * Z) : bool := let '(y, m, d) := t in valid_date y m d.

(** ** The month table, checked by evaluation *)

Definition md_ok (leap : bool) (n : Z) : bool :=
  let '(m, d) := ord2md n leap in
  (1 <=? m) && (m <=? 12) && (1 <=? d) &&
  (d <=? days_in_month_common m + (if (m =? 2) && leap then 1 else 0)) &&
  (days_before_month_common m + (if (m >? 2) && leap then 1 else 0) + d =? n + 1).

Fixpoint all_upto (fuel : nat) (n : Z) (P : Z -> bool) : bool :=
  match fuel with
  | O => true
  | S f => P n && all_upto f (n + 1) P
  end.

Lemma all_upto_spec fuel n P k :
  all_upto fuel n P = true -> n <= k < n + Z.of_nat fuel -> P k = true.
Proof.
  revert n; induction fuel as [|f IH]; intros n; simpl; [lia|].
  rewrite andb_true_iff. intros [Hn Hr] Hk.
  destruct (Z.eq_dec k n) as [->|]; [done|]. apply (IH (n + 1)); [done | lia].
Qed.

Lemma md_ok_table leap : all_upto 365 0 (md_ok leap) = true.
Proof. destruct leap; vm_compute; reflexivity. Qed.

Lemma md_ok_all leap n : 0 <= n < 365 -> md_ok leap n = true.
Proof. intros Hn. apply (all_upto_spec 365 0); [apply md_ok_table | simpl; lia]. Qed.

(** ** Year arithmetic of the cycles *)

Lemma is_leap_cycle a b c e :
  0 <= b <= 3 -> 0 <= c <= 24 -> 0 <= e <= 3 ->
  is_leap (400 * a + 100 * b + 4 * c + e + 1) = (e =? 3) && (negb (c =? 24) || (b =? 3)).
Proof.
  intros Hb Hc He. unfold is_leap.
  destruct (Z.eqb_spec e 3), (Z.eqb_spec c 24), (Z.eqb_spec b 3);
  destruct (Z.eqb_spec ((400 * a + 100 * b + 4 * c + e + 1) mod 4) 0),
           (Z.eqb_spec ((400 * a + 100 * b + 4 * c + e + 1) mod 100) 0),
           (Z.eqb_spec ((400 * a + 100 * b + 4 * c + e + 1) mod 400) 0);
  simpl; try reflexivity; exfalso; zlia.
Qed.

Lemma days_before_year_cycle a b c e :
  0 <= b <= 3 -> 0 <= c <= 24 -> 0 <= e <= 3 ->
  days_before_year (400 * a + 100 * b + 4 * c + e + 1) = 146097 * a + 36524 * b + 1461 * c + 365 * e.
Proof. intros. unfold days_before_year. zlia. Qed.

Lemma days_in_month_leap y m :
  days_in_month y m = days_in_month_common m + (if (m =? 2) && is_leap y then 1 else 0).
Proof.
  unfold days_in_month. destruct (Z.eqb_spec m 2) as [->|]; simpl; [by destruct (is_leap y) | lia].
Qed.

Lemma ymd2ord_cycle a b c e m d :
  0 <= b <= 3 -> 0 <= c <= 24 -> 0 <= e <= 3 ->
  ymd2ord (400 * a + 100 * b + 4 * c + e + 1) m d =
  146097 * a + 36524 * b + 1461 * c + 365 * e + days_before_month_common m +
  (if (m >? 2) && ((e =? 3) && (negb (c =? 24) || (b =? 3))) then 1 else 0) + d.
Proof.
  intros Hb Hc He. unfold ymd2ord, days_before_month.
  rewrite days_before_year_cycle, is_leap_cycle by done. lia.
Qed.

(** The quotients of [_ord2ymd]. *)
Lemma ord2ymd_unfold n :
  0 <= n - 1 ->
  exists a b c e f,
    n - 1 = 146097 * a + 36524 * b + 1461 * c + 365 * e + f /\
    0 <= a /\ 0 <= b <= 4 /\ 0 <= c <= 24 /\ 0 <= e <= 4 /\ 0 <= f < 365 /\
    (b = 4 -> c = 0 /\ e = 0 /\ f = 0) /\ (e = 4 -> f = 0 /\ c <= 23) /\
    ord2ymd n =
      let year := a * 400 + 1 + b * 100 + c * 4 + e in
      if (e =? 4) || (b =? 4) then (year - 1, 12, 31)
      else let '(month, day) := ord2md f ((e =? 3) && (negb (c =? 24) || (b =? 3))) in
           (year, month, day).
Proof.
  intros Hn. unfold ord2ymd, DI400Y, DI100Y, DI4Y.
  exists ((n - 1) / 146097), ((n - 1) mod 146097 / 36524),
    ((n - 1) mod 146097 mod 36524 / 1461), ((n - 1) mod 146097 mod 36524 mod 1461 / 365),
    ((n - 1) mod 146097 mod 36524 mod 1461 mod 365).
  split; [|split; [|split; [|split; [|split; [|split; [|split; [|split]]]]]]];
    [zlia .. | ].
  reflexivity.
Qed.

Lemma ord2ymd_correct n :
  1 <= n <= MAXORDINAL -> valid_of (ord2ymd n) = true /\ ymd_of (ord2ymd n) = n.
Proof.
  intros Hn. unfold MAXORDINAL in Hn.
  destruct (ord2ymd_unfold n) as (a & b & c & e & f & Hq & Ha & Hb & Hc & He & Hf & Hb4 & He4 & ->);
    [lia|].
  cbv zeta.
  replace (a * 400 + 1 + b * 100 + c * 4 + e) with (400 * a + 100 * b + 4 * c + e + 1) by lia.
  destruct (Z.eqb_spec e 4) as [E4|E4]; [|destruct (Z.eqb_spec b 4) as [B4|B4]]; simpl orb; cbv iota.
  - (* last day of a 4-year cycle *)
    destruct (He4 E4) as [-> Hc']. subst e.
    replace (400 * a + 100 * b + 4 * c + 4 + 1 - 1) with (400 * a + 100 * b + 4 * c + 3 + 1) by lia.
    unfold valid_of, ymd_of, valid_date. rewrite ymd2ord_cycle by lia.
    rewrite days_in_month_leap, is_leap_cycle by lia.
    destruct (Z.eqb_spec c 24); [lia|]. simpl. split; [apply andb_true_iff; split; [|reflexivity] | ]; 
      unfold MINYEAR, MAXYEAR; repeat (apply andb_true_iff; split); try apply Z.leb_le; lia.
  - (* last day of a 400-year cycle *)
    destruct (Hb4 B4) as (-> & -> & ->). subst b.
    replace (400 * a + 100 * 4 + 4 * 0 + 0 + 1 - 1) with (400 * a + 100 * 3 + 4 * 24 + 3 + 1) by lia.
    unfold valid_of, ymd_of, valid_date. rewrite ymd2ord_cycle by lia.
    rewrite days_in_month_leap, is_leap_cycle by lia. simpl.
    split; unfold MINYEAR, MAXYEAR; [repeat (apply andb_true_iff; split); try apply Z.leb_le|]; lia.
  - (* any other day *)
    set (L := (e =? 3) && (negb (c =? 24) || (b =? 3))).
    pose proof (md_ok_all L f Hf) as Hmd. unfold md_ok in Hmd.
    destruct (ord2md f L) as [m d].
    unfold valid_of, ymd_of, valid_date. rewrite ymd2ord_cycle by lia.
    rewrite days_in_month_leap, is_leap_cycle by lia. fold L.
    repeat rewrite andb_true_iff in Hmd. rewrite !Z.leb_le, Z.eqb_eq in Hmd.
    split; unfold MINYEAR, MAXYEAR; [repeat (apply andb_true_iff; split); try apply Z.leb_le|]; lia.
Qed.
