(* ===== verification/DateFormat.v ===== *)
(** * Writing and reading timestamps: [isoformat] and [strptime]

    google-auth persists a token expiry as [expiry.isoformat() + "Z"] and
    reads it back with
    [datetime.strptime(expiry.rstrip("Z").split(".")[0], "%Y-%m-%dT%H:%M:%S")];
    the analytics probes send [start_date.isoformat()] and
    [end_date.isoformat()] to the API.  This file models:
    - the [%0Nd] formatting of a non-negative integer ([fmt0]);
    - a naive UTC datetime as the number of microseconds since
      1970-01-01T00:00:00 ([Z]), its fields, and [date.isoformat],
      [datetime.isoformat] ([isoformat_date], [isoformat_dt]);
    - CPython's [_strptime] for this one format: the regular expression it
      compiles (one alternation per directive, in CPython's order, matched
      with backtracking by [re.match] under [IGNORECASE]), the
      "unconverted data remains" check, [int] of each group, and the range
      checks of the [datetime] constructor ([strptime_iso]). *)

From S2P Require Import Prelude PyString PyValue Dates.
From stdpp Require Import base list.
From Stdlib Require Import Ascii String ZArith Lia.

Local Open Scope Z_scope.

(** ** [%0Nd] *)

Definition digit_char (k : Z) : ascii := ascii_of_N (48 + Z.to_N k).

(** The [w] last decimal digits of [n]. *)
Fixpoint fixed_digits (w : nat) (n : Z) : string :=
  match w with
  | O => EmptyString
  | S w' => (fixed_digits w' (n / 10) ++ String (digit_char (n mod 10)) EmptyString)%string
  end.

Fixpoint ndigits_fuel (fuel : nat) (n : Z) : nat :=
  match fuel with
  | O => 1
  | S f => if n <? 10 then 1 else S (ndigits_fuel f (n / 10))
  end.

(** The number of decimal digits of [n >= 0] ([n] has at most as many
    digits as bits). *)
Definition ndigits (n : Z) : nat := ndigits_fuel (S (Z.to_nat (Z.log2 n))) n.

(** ["%0{w}d" % n] for [n >= 0]: the digits of [n], padded with zeros to
    the width [w]. *)
Definition fmt0 (w : nat) (n : Z) : string := fixed_digits (Nat.max w (ndigits n)) n.

(** ** Timestamps *)

Definition US_PER_SEC : Z := 1000000.
Definition US_PER_MIN : Z := 60 * US_PER_SEC.
Definition US_PER_HOUR : Z := 60 * US_PER_MIN.
Definition US_PER_DAY : Z := 24 * US_PER_HOUR.

(** [date(1970, 1, 1).toordinal()] *)
Definition EPOCH_ORD : Z := 719163.

(** The ordinal of the date of a timestamp ([dt.date().toordinal()]). *)
Definition date_ord (t : Z) : Z := t / US_PER_DAY + EPOCH_ORD.

(** A timestamp is a [datetime] when its date is in [1 .. 9999]. *)
Definition dt_in_range (t : Z) : Prop := 1 <= date_ord t <= MAXORDINAL.

(** [date.isoformat()]: ["%04d-%02d-%02d" % (year, month, day)] *)
Definition isoformat_date (o : Z) : string :=
  let '(y, m, d) := ord2ymd o in
  (fmt0 4 y ++ "-" ++ fmt0 2 m ++ "-" ++ fmt0 2 d)%string.

(** [datetime.isoformat()] up to the seconds: ["%04d-%02d-%02dT%02d:%02d:%02d"]. *)
Definition iso_seconds (t : Z) : string :=
  let tod := t mod US_PER_DAY in
  (isoformat_date (date_ord t) ++ "T" ++ fmt0 2 (tod / US_PER_HOUR) ++ ":" ++
   fmt0 2 (tod mod US_PER_HOUR / US_PER_MIN) ++ ":" ++ fmt0 2 (tod mod US_PER_MIN / US_PER_SEC))%string.

(** [datetime.isoformat()] with the default [timespec='auto']: the
    microseconds are written, as [".%06d"], only when they are not zero. *)
Definition isoformat_dt (t : Z) : string :=
  let us := t mod US_PER_DAY mod US_PER_SEC in
  (iso_seconds t ++ (if Z.eqb us 0 then "" else "." ++ fmt0 6 us))%string.

(** ** The regular expression of [_strptime] *)

(** A character class, and a sequence of classes (one alternative). *)
Definition cls := ascii -> bool.

Definition chr_in (lo hi : ascii) : cls :=
  fun c => (N_of_ascii lo <=? N_of_ascii c)%N && (N_of_ascii c <=? N_of_ascii hi)%N.
Definition chr (a : ascii) : cls := fun c => Ascii.eqb c a.
Definition dig : cls := chr_in "0" "9".

(** The directives of [_strptime.TimeRE], alternatives in CPython's order. *)
Definition re_Y : list (list cls) := [[dig; dig; dig; dig]].
Definition re_m : list (list cls) :=
  [[chr "1"; chr_in "0" "2"]; [chr "0"; chr_in "1" "9"]; [chr_in "1" "9"]].
Definition re_d : list (list cls) :=
  [[chr "3"; chr_in "0" "1"]; [chr_in "1" "2"; dig]; [chr "0"; chr_in "1" "9"];
   [chr_in "1" "9"]; [chr " "; chr_in "1" "9"]].
Definition re_H : list (list cls) := [[chr "2"; chr_in "0" "3"]; [chr_in "0" "1"; dig]; [dig]].
Definition re_M : list (list cls) := [[chr_in "0" "5"; dig]; [dig]].
Definition re_S : list (list cls) := [[chr "6"; chr_in "0" "1"]; [chr_in "0" "5"; dig]; [dig]].

(** The literal [T] of the format, matched under [re.IGNORECASE]. *)
Definition lit_T : cls := fun c => Ascii.eqb c "T" || Ascii.eqb c "t".

Fixpoint match_seq (p : list cls) (s : string) : option (string * string) :=
  match p, s with
  | [], _ => Some (EmptyString, s)
  | k :: p', String c r =>
      if k c then
        match match_seq p' r with
        | Some (t, r') => Some (String c t, r')
        | None => None
        end
      else None
  | _ :: _, EmptyString => None
  end.

(** An alternation followed by the rest of the pattern [k]: the first
    alternative, in order, with which the rest matches (backtracking). *)
Fixpoint alt_then {X} (alts : list (list cls)) (s : string)
    (k : string -> string -> option X) : option X :=
  match alts with
  | [] => None
  | p :: alts' =>
      match match_seq p s with
      | Some (t, r) =>
          match k t r with
          | Some x => Some x
          | None => alt_then alts' s k
          end
      | None => alt_then alts' s k
      end
  end.

Definition lit_then {X} (c : cls) (s : string) (k : string -> option X) : option X :=
  match s with
  | String a r => if c a then k r else None
  | EmptyString => None
  end.

Definition iso_groups : Type := (string * string * string * string * string * string * string)%type.

(** [re.match] of the compiled ["%Y-%m-%dT%H:%M:%S"]: the six groups and
    the unmatched rest. *)
Definition match_iso (s : string) : option iso_groups :=
  alt_then re_Y s (fun Y r => lit_then (chr "-") r (fun r =>
  alt_then re_m r (fun m r => lit_then (chr "-") r (fun r =>
  alt_then re_d r (fun d r => lit_then lit_T r (fun r =>
  alt_then re_H r (fun H r => lit_then (chr ":") r (fun r =>
  alt_then re_M r (fun M r => lit_then (chr ":") r (fun r =>
  alt_then re_S r (fun Sec r => Some (Y, m, d, H, M, Sec, r)))))))))))).

(** [int(group)]: the groups hold digits, and [%d] may start with a space
    that [int] ignores. *)
Fixpoint dec_acc (acc : Z) (s : string) : Z :=
  match s with
  | EmptyString => acc
  | String c r => dec_acc (acc * 10 + (Z.of_N (N_of_ascii c) - 48)) r
  end.

Definition token_int (s : string) : Z := dec_acc 0 (str_strip s).

Definition dt_of_fields (y mo d h mi s : Z) : Z :=
  (ymd2ord y mo d - EPOCH_ORD) * US_PER_DAY + h * US_PER_HOUR + mi * US_PER_MIN + s * US_PER_SEC.

(** [datetime.strptime(s, "%Y-%m-%dT%H:%M:%S")]: [ValueError] when the
    text does not match, when text remains, when the date is not valid
    (year 0, day 31 of a short month, 29 February of a common year) and
    when the second is 60 or 61. *)
Definition strptime_iso (s : string) : res Z :=
  match match_iso s with
  | None => Raise ValueError
  | Some (Y, m, d, H, M, Sec, rest) =>
      if negb (String.eqb rest EmptyString) then Raise ValueError
      else
        let y := token_int Y in let mo := token_int m in let da := token_int d in
        let h := token_int H in let mi := token_int M in let se := token_int Sec in
        if negb (valid_date y mo da) then Raise ValueError
        else if 59 <? se then Raise ValueError
        else Ok (dt_of_fields y mo da h mi se)
  end.

(** ** Lemmas: digits, fields, and the round trip *)

Lemma digit_char_all (P : ascii -> bool) :
  all_upto 10 0 (fun k => P (digit_char k)) = true -> forall k, 0 <= k < 10 -> P (digit_char k) = true.
Proof. intros H k Hk. apply (all_upto_spec 10 0 (fun k => P (digit_char k))); [done | simpl; lia]. Qed.

Lemma digit_char_val k : 0 <= k < 10 -> Z.of_N (N_of_ascii (digit_char k)) - 48 = k.
Proof.
  intros Hk. unfold digit_char. rewrite N_ascii_embedding; [lia|].
  apply N.lt_le_trans with (m := (48 + 10)%N); [lia | vm_compute; discriminate].
Qed.

Lemma fixed_digits_forall (P : ascii -> bool) w n :
  all_upto 10 0 (fun k => P (digit_char k)) = true -> str_forall P (fixed_digits w n) = true.
Proof.
  intros HP. revert n; induction w as [|w IH]; intros n; simpl; [done|].
  rewrite str_forall_app, IH. simpl. rewrite (digit_char_all P HP); [done | zlia].
Qed.

Lemma dec_acc_app acc a b : dec_acc acc (a ++ b) = dec_acc (dec_acc acc a) b.
Proof. revert acc; induction a; intros acc; simpl; auto. Qed.

Lemma dec_acc_fixed w n acc :
  dec_acc acc (fixed_digits w n) = acc * 10 ^ Z.of_nat w + n mod 10 ^ Z.of_nat w.
Proof.
  revert n acc; induction w as [|w IH]; intros n acc; simpl fixed_digits.
  - simpl. zlia.
  - rewrite dec_acc_app, IH. simpl. rewrite digit_char_val by zlia.
    rewrite Nat2Z.inj_succ, Z.pow_succ_r, Z.rem_mul_r by (try apply Z.pow_pos_nonneg; lia).
    ring.
Qed.

Lemma fixed_digits_length w n : String.length (fixed_digits w n) = w.
Proof.
  revert n; induction w as [|w IH]; intros n; simpl; [done|].
  rewrite str_length_append, IH. simpl. lia.
Qed.

Lemma ndigits_fuel_le f n w :
  (1 <= w)%nat -> 0 <= n < 10 ^ Z.of_nat w -> (ndigits_fuel f n <= w)%nat.
Proof.
  revert n w; induction f as [|f IH]; intros n w Hw Hn; simpl; [lia|].
  destruct (Z.ltb_spec n 10); [lia|].
  destruct w as [|[|w]]; [lia | simpl in Hn; lia |].
  enough (ndigits_fuel f (n / 10) <= S w)%nat by lia.
  apply IH; [lia|]. rewrite Nat2Z.inj_succ, Z.pow_succ_r in Hn by lia. zlia.
Qed.

Lemma fmt0_fixed w n : (1 <= w)%nat -> 0 <= n < 10 ^ Z.of_nat w -> fmt0 w n = fixed_digits w n.
Proof.
  intros Hw Hn. unfold fmt0, ndigits. f_equal.
  pose proof (ndigits_fuel_le (S (Z.to_nat (Z.log2 n))) n w Hw Hn). lia.
Qed.

(** ** Matching the regular expression *)

Lemma match_seq_split p s u v : match_seq p s = Some (u, v) -> s = (u ++ v)%string.
Proof.
  revert s u v; induction p as [|k p IH]; intros s u v; simpl.
  - intros H. by injection H as <- <-.
  - destruct s as [|c s]; [done|]. destruct (k c); [|done].
    destruct (match_seq p s) as [[u' v']|] eqn:E; [|done].
    intros H. injection H as <- <-. simpl. f_equal. by apply IH.
Qed.

Lemma match_seq_app p t r :
  (List.length p <= String.length t)%nat ->
  match_seq p (t ++ r)%string = match match_seq p t with Some (u, v) => Some (u, (v ++ r)%string) | None => None end.
Proof.
  revert t; induction p as [|k p IH]; intros t Hl; simpl in *; [done|].
  destruct t as [|c t]; simpl in *; [lia|]. destruct (k c); [|done].
  rewrite IH by lia. by destruct (match_seq p t) as [[u v]|].
Qed.

(** The first alternative that matches a prefix of [t] matches all of [t],
    and no alternative tried before it is longer than [t]. *)
Fixpoint first_full (alts : list (list cls)) (t : string) : bool :=
  match alts with
  | [] => false
  | p :: alts' =>
      (List.length p <=? String.length t)%nat &&
      match match_seq p t with
      | Some (_, v) => String.eqb v EmptyString
      | None => first_full alts' t
      end
  end.

Lemma alt_then_full {X} alts t r (k : string -> string -> option X) x :
  first_full alts t = true -> k t r = Some x -> alt_then alts (t ++ r)%string k = Some x.
Proof.
  induction alts as [|p alts IH]; simpl; [done|].
  rewrite andb_true_iff, Nat.leb_le. intros [Hl Hm] Hk.
  rewrite match_seq_app by done.
  destruct (match_seq p t) as [[u v]|] eqn:E.
  - apply String.eqb_eq in Hm. subst v.
    apply match_seq_split in E. rewrite str_append_nil_r in E. subst u.
    simpl. by rewrite Hk.
  - by apply IH.
Qed.

Lemma alt_then_full_end {X} alts t (k : string -> string -> option X) x :
  first_full alts t = true -> k t EmptyString = Some x -> alt_then alts t k = Some x.
Proof. intros. rewrite <- (str_append_nil_r t). by apply alt_then_full. Qed.

Definition fields_table : bool :=
  all_upto 12 1 (fun v => first_full re_m (fmt0 2 v)) &&
  all_upto 31 1 (fun v => first_full re_d (fmt0 2 v)) &&
  all_upto 24 0 (fun v => first_full re_H (fmt0 2 v)) &&
  all_upto 60 0 (fun v => first_full re_M (fmt0 2 v)) &&
  all_upto 60 0 (fun v => first_full re_S (fmt0 2 v)).

Lemma fields_table_ok : fields_table = true.
Proof. vm_compute. reflexivity. Qed.

Lemma first_full_field alts lo n v :
  all_upto n lo (fun v => first_full alts (fmt0 2 v)) = true ->
  lo <= v < lo + Z.of_nat n -> first_full alts (fmt0 2 v) = true.
Proof. intros H Hv. exact (all_upto_spec n lo _ v H Hv). Qed.

Lemma dig_digit k : 0 <= k < 10 -> dig (digit_char k) = true.
Proof. apply digit_char_all. vm_compute. reflexivity. Qed.

Lemma first_full_year n : first_full re_Y (fixed_digits 4 n) = true.
Proof. simpl. rewrite !dig_digit by zlia. reflexivity. Qed.

Lemma match_iso_fields y m d hh mi ss :
  1 <= m <= 12 -> 1 <= d <= 31 -> 0 <= hh < 24 -> 0 <= mi < 60 -> 0 <= ss < 60 ->
  match_iso (fixed_digits 4 y ++ "-" ++ fmt0 2 m ++ "-" ++ fmt0 2 d ++ "T" ++ fmt0 2 hh ++ ":" ++
             fmt0 2 mi ++ ":" ++ fmt0 2 ss)%string =
  Some (fixed_digits 4 y, fmt0 2 m, fmt0 2 d, fmt0 2 hh, fmt0 2 mi, fmt0 2 ss, EmptyString).
Proof.
  intros Hm Hd Hh Hmi Hs. pose proof fields_table_ok as T. unfold fields_table in T.
  rewrite !andb_true_iff in T. destruct T as [[[[Tm Td] TH] TM] TS].
  unfold match_iso.
  apply alt_then_full; [apply first_full_year|].
  cbn [lit_then String.append chr lit_T Ascii.eqb Bool.eqb andb orb].
  apply alt_then_full; [apply (first_full_field _ 1 12); [exact Tm | lia]|].
  cbn [lit_then String.append chr lit_T Ascii.eqb Bool.eqb andb orb].
  apply alt_then_full; [apply (first_full_field _ 1 31); [exact Td | lia]|].
  cbn [lit_then String.append chr lit_T Ascii.eqb Bool.eqb andb orb].
  apply alt_then_full; [apply (first_full_field _ 0 24); [exact TH | lia]|].
  cbn [lit_then String.append chr lit_T Ascii.eqb Bool.eqb andb orb].
  apply alt_then_full; [apply (first_full_field _ 0 60); [exact TM | lia]|].
  cbn [lit_then String.append chr lit_T Ascii.eqb Bool.eqb andb orb].
  apply alt_then_full_end; [apply (first_full_field _ 0 60); [exact TS | lia]|].
  reflexivity.
Qed.

Lemma token_int_fixed w n : 0 <= n < 10 ^ Z.of_nat w -> token_int (fixed_digits w n) = n.
Proof.
  intros Hn. unfold token_int. rewrite str_strip_id.
  - rewrite dec_acc_fixed. rewrite Z.mod_small by done. lia.
  - apply fixed_digits_forall. vm_compute. reflexivity.
Qed.

Lemma days_in_month_le y m : days_in_month y m <= 31.
Proof.
  unfold days_in_month, days_in_month_common.
  destruct (_ && _); [lia|]. repeat case_match; lia.
Qed.

Lemma strptime_iso_seconds t : dt_in_range t -> strptime_iso (iso_seconds t) = Ok (t - t mod US_PER_SEC).
Proof.
  intros Hr. destruct (ord2ymd_correct _ Hr) as [Hv Ho].
  unfold iso_seconds, isoformat_date.
  destruct (ord2ymd (date_ord t)) as [[y m] d] eqn:E. simpl in Hv, Ho.
  pose proof (days_in_month_le y m) as Hdim.
  unfold valid_date, MINYEAR, MAXYEAR in Hv. rewrite !andb_true_iff, !Z.leb_le in Hv.
  assert (Ht := Z.mod_pos_bound t US_PER_DAY ltac:(done)).
  set (tod := t mod US_PER_DAY) in *.
  rewrite (fmt0_fixed 4 y) by (simpl; lia).
  unfold strptime_iso. rewrite !str_append_assoc, match_iso_fields by (unfold US_PER_DAY, US_PER_HOUR, US_PER_MIN, US_PER_SEC in *; zlia).
  cbn [String.eqb negb].
  rewrite token_int_fixed by (simpl; lia).
  rewrite !(fmt0_fixed 2), !token_int_fixed by (simpl; unfold US_PER_DAY, US_PER_HOUR, US_PER_MIN, US_PER_SEC in *; zlia).
  unfold valid_date, MINYEAR, MAXYEAR. 
  replace ((1 <=? y) && (y <=? 9999) && (1 <=? m) && (m <=? 12) && (1 <=? d) && (d <=? days_in_month y m))
    with true by (symmetry; rewrite !andb_true_iff, !Z.leb_le; lia).
  destruct (Z.ltb_spec 59 (tod mod US_PER_MIN / US_PER_SEC)); [unfold US_PER_MIN, US_PER_SEC in *; zlia|].
  simpl. f_equal. unfold dt_of_fields. rewrite Ho. unfold date_ord, tod.
  unfold US_PER_DAY, US_PER_HOUR, US_PER_MIN, US_PER_SEC, EPOCH_ORD. zlia.
Qed.

Lemma fmt0_snoc w n :
  (1 <= w)%nat -> exists p, fmt0 w n = (p ++ String (digit_char (n mod 10)) EmptyString)%string.
Proof.
  intros Hw. unfold fmt0. destruct (Nat.max w (ndigits n)) as [|j] eqn:E; [lia|].
  simpl. eauto.
Qed.

Lemma str_last_app_fmt0 s w n :
  (1 <= w)%nat -> str_last (s ++ fmt0 w n) = Some (digit_char (n mod 10)).
Proof.
  intros Hw. destruct (fmt0_snoc w n Hw) as [p ->].
  rewrite <- str_append_assoc. apply str_last_app_snoc.
Qed.

Lemma fmt0_forall (P : ascii -> bool) w n :
  all_upto 10 0 (fun k => P (digit_char k)) = true -> str_forall P (fmt0 w n) = true.
Proof. apply fixed_digits_forall. Qed.

Lemma digit_not_Z k : 0 <= k < 10 -> Ascii.eqb (digit_char k) "Z" = false.
Proof.
  intros Hk. apply negb_true_iff.
  apply (digit_char_all (fun c => negb (Ascii.eqb c "Z"))); [vm_compute; reflexivity | done].
Qed.

(** What google-auth reads back of a written expiry is its text up to the
    seconds. *)
Lemma isoformat_dt_suffix t :
  str_split_first "." (str_rstrip_char "Z" (isoformat_dt t ++ "Z")) = iso_seconds t.
Proof.
  assert (Hlast : exists p, iso_seconds t = (p ++ fmt0 2 (t mod US_PER_DAY mod US_PER_MIN / US_PER_SEC))%string).
  { eexists. unfold iso_seconds. rewrite <- !str_append_assoc. reflexivity. }
  assert (Hnodot : str_forall (fun c => negb (Ascii.eqb c ".")) (iso_seconds t) = true).
  { unfold iso_seconds, isoformat_date. destruct (ord2ymd (date_ord t)) as [[y m] d].
    rewrite !str_forall_app, !fmt0_forall; [reflexivity | vm_compute; reflexivity ..]. }
  rewrite str_rstrip_char_snoc. unfold isoformat_dt.
  destruct (Z.eqb_spec (t mod US_PER_DAY mod US_PER_SEC) 0).
  - rewrite str_append_nil_r. destruct Hlast as [p Hp].
    rewrite (str_rstrip_char_last _ _ (digit_char ((t mod US_PER_DAY mod US_PER_MIN / US_PER_SEC) mod 10))).
    + by apply str_split_first_id.
    + rewrite Hp. apply str_last_app_fmt0. lia.
    + apply digit_not_Z. zlia.
  - rewrite (str_rstrip_char_last _ _ (digit_char ((t mod US_PER_DAY mod US_PER_SEC) mod 10))).
    + rewrite str_split_first_app by done. simpl. apply str_append_nil_r.
    + change ("." ++ ?x)%string with (String "." "" ++ x)%string.
      rewrite <- str_append_assoc. apply str_last_app_fmt0. lia.
    + apply digit_not_Z. zlia.
Qed.
