(* ===== verification/Credentials.v ===== *)
(** * The credential object and the persisted token record

    Both scripts keep their OAuth2 state in a
    [google.oauth2.credentials.Credentials] object and persist it in
    [token.json].  The scripts only call the library, so this file models
    the library's behaviour that they rely on (google-auth 2.x):
    - [creds]: the fields the scripts observe or persist;
    - [expired_at], [valid_at]: the properties [expired] and [valid], with
      [_helpers.REFRESH_THRESHOLD] (3 min 45 s) of clock skew;
    - [to_json]: [Credentials.to_json()], the dict written to the token
      file (entries that are [None] dropped, expiry written with
      [isoformat() + "Z"]);
    - [from_authorized_user_info]: what [Credentials.from_authorized_user_file]
      builds from the parsed file: the three required keys, the expiry
      parsed back with [strptime], the scopes taken from the caller (the
      scripts pass [SCOPES]), the token URI always the Google endpoint.

    Times are microseconds since 1970-01-01 UTC, as in [DateFormat]. *)

From S2P Require Import Prelude PyString PyValue Dates DateFormat.
From stdpp Require Import base list.
From Stdlib Require Import Ascii String ZArith Lia.

Local Open Scope string_scope.
Local Open Scope Z_scope.

(** [SCOPES] of both scripts. *)
Definition SCOPES : list string :=
  ["https://www.googleapis.com/auth/youtube.readonly";
   "https://www.googleapis.com/auth/yt-analytics.readonly"].

Definition SCOPES_val : pyval := PList (map PStr SCOPES).

(** [_GOOGLE_OAUTH2_TOKEN_ENDPOINT] *)
Definition TOKEN_ENDPOINT : string := "https://oauth2.googleapis.com/token".

(** [credentials.DEFAULT_UNIVERSE_DOMAIN] *)
Definition DEFAULT_UNIVERSE_DOMAIN : string := "googleapis.com".

(** [_helpers.REFRESH_THRESHOLD = timedelta(minutes=3, seconds=45)] *)
Definition REFRESH_THRESHOLD : Z := 225 * US_PER_SEC.

(** The observable fields of a [Credentials] object; a field that Python
    holds as [None] is [PNone]. *)
Record creds := mk_creds {
  token : pyval;
  refresh_token : pyval;
  token_uri : pyval;
  client_id : pyval;
  client_secret : pyval;
  scopes : pyval;
  rapt_token : pyval;
  universe_domain : pyval;
  account : pyval;
  expiry : option Z;
}.

Definition is_none (v : pyval) : bool := match v with PNone => true | _ => false end.

(** [creds.expired] read at the time [now]. *)
Definition expired_at (now : Z) (c : creds) : bool :=
  match expiry c with
  | None => false
  | Some e => e - REFRESH_THRESHOLD <=? now
  end.

(** [creds.valid] read at the time [now]. *)
Definition valid_at (now : Z) (c : creds) : bool :=
  negb (is_none (token c)) && negb (expired_at now c).

(** [Credentials.to_json()]: the dict that [json.dumps] writes. *)
Definition to_json (c : creds) : pyval :=
  let prep :=
    ([("token", token c); ("refresh_token", refresh_token c); ("token_uri", token_uri c);
     ("client_id", client_id c); ("client_secret", client_secret c); ("scopes", scopes c);
     ("rapt_token", rapt_token c); ("universe_domain", universe_domain c);
     ("account", account c)] ++
    match expiry c with
    | Some e => [("expiry", PStr (isoformat_dt e ++ "Z")%string)]
    | None => []
    end)%list in
  PDict (List.filter (fun kv => negb (is_none kv.2)) prep).

(** The expiry as google-auth reads it:
    [datetime.strptime(expiry.rstrip("Z").split(".")[0], "%Y-%m-%dT%H:%M:%S")]. *)
Definition parse_expiry (v : pyval) : res Z :=
  match v with
  | PStr s => strptime_iso (str_split_first "." (str_rstrip_char "Z" s))
  | _ => Raise AttributeError
  end.

Definition dict_has (k : string) (kvs : list (string * pyval)) : bool :=
  match dict_lookup k kvs with Some _ => true | None => false end.

(** [Credentials.from_authorized_user_info(info, scopes)] with the
    scopes of the scripts, at the time [now] (read when the expiry is
    missing). *)
Definition from_authorized_user_info (now : Z) (info : pyval) (scps : pyval) : res creds :=
  match info with
  | PDict kvs =>
      if negb (dict_has "refresh_token" kvs && dict_has "client_id" kvs && dict_has "client_secret" kvs)
      then Raise ValueError
      else
        let get k := default PNone (dict_lookup k kvs) in
        exp ← (if truthy (get "expiry") then parse_expiry (get "expiry")
               else mret (now - REFRESH_THRESHOLD));
        mret {| token := get "token"; refresh_token := get "refresh_token";
                token_uri := PStr TOKEN_ENDPOINT; client_id := get "client_id";
                client_secret := get "client_secret"; scopes := scps;
                rapt_token := get "rapt_token";
                universe_domain :=
                  (if truthy (get "universe_domain") then get "universe_domain"
                   else PStr DEFAULT_UNIVERSE_DOMAIN);
                account := default (PStr "") (dict_lookup "account" kvs);
                expiry := Some exp |}
  | _ => Raise AttributeError
  end.

(** ** Lemmas on the record *)

Lemma strptime_iso_exn s : raises_exception (strptime_iso s).
Proof. intros e. unfold strptime_iso. repeat case_match; intros Hr; inv Hr; reflexivity. Qed.

Lemma parse_expiry_exn v : raises_exception (parse_expiry v).
Proof. intros e. destruct v; try (intros Hr; inv Hr; reflexivity). apply strptime_iso_exn. Qed.

Lemma from_info_exn now v scps : raises_exception (from_authorized_user_info now v scps).
Proof.
  intros e. unfold from_authorized_user_info. destruct v as [| | | | |kvs]; try (intros Hr; inv Hr; reflexivity).
  case_match; [intros Hr; inv Hr; reflexivity|].
  destruct (if truthy _ then parse_expiry _ else mret _) as [a|e'] eqn:Hp; simpl; intros Hr; inv Hr.
  destruct (truthy _); [apply (parse_expiry_exn _ _ Hp) | discriminate].
Qed.


Definition not_none_entry (kv : string * pyval) : bool := negb (is_none kv.2).

Lemma dict_lookup_notin k (l : list (string * pyval)) :
  k ∉ map fst l -> dict_lookup k l = None.
Proof.
  induction l as [|[k' v] l IH]; simpl; [done|].
  rewrite not_elem_of_cons. intros [Hk Hl].
  destruct (String.eqb_spec k k'); [congruence | auto].
Qed.

Lemma dict_lookup_notin_filter k (l : list (string * pyval)) :
  k ∉ map fst l -> dict_lookup k (List.filter not_none_entry l) = None.
Proof.
  intros H. apply dict_lookup_notin. intros Hin. apply H.
  rewrite list_elem_of_In, in_map_iff in Hin. destruct Hin as [kv [<- Hkv]].
  apply filter_In in Hkv. rewrite list_elem_of_In. apply in_map. tauto.
Qed.

Lemma lookup_filter_not_none k (l : list (string * pyval)) :
  NoDup (map fst l) ->
  default PNone (dict_lookup k (List.filter not_none_entry l)) = default PNone (dict_lookup k l).
Proof.
  induction l as [|[k' v] l IH]; [done|]. simpl. rewrite NoDup_cons. intros [Hn Hd].
  unfold not_none_entry at 1. simpl.
  destruct (String.eqb_spec k k') as [->|Hne]; destruct (is_none v) eqn:Hv; simpl.
  - rewrite IH, dict_lookup_notin by done. by destruct v.
  - by rewrite String.eqb_refl.
  - by apply IH.
  - apply String.eqb_neq in Hne. rewrite Hne. by apply IH.
Qed.

Lemma dict_has_filter_not_none k (l : list (string * pyval)) v :
  dict_lookup k l = Some v -> is_none v = false -> dict_has k (List.filter not_none_entry l) = true.
Proof.
  unfold dict_has. induction l as [|[k' v'] l IH]; [done|].
  unfold not_none_entry at 1. simpl.
  destruct (String.eqb k k') eqn:E.
  - intros H Hv. injection H as ->. rewrite Hv. simpl. by rewrite E.
  - intros H Hv. destruct (negb (is_none v')); simpl; rewrite ?E; auto.
Qed.

Lemma dict_has_filter_none k (l : list (string * pyval)) v :
  dict_lookup k l = Some v -> is_none v = true -> NoDup (map fst l) ->
  dict_has k (List.filter not_none_entry l) = false.
Proof.
  unfold dict_has. induction l as [|[k' v'] l IH]; [done|]. simpl. rewrite NoDup_cons.
  intros H Hv [Hn Hd]. unfold not_none_entry at 1. simpl.
  destruct (String.eqb_spec k k') as [->|Hne].
  - injection H as ->. rewrite Hv. simpl. by rewrite dict_lookup_notin_filter.
  - destruct (negb (is_none v')); simpl; [apply String.eqb_neq in Hne; rewrite Hne|]; auto.
Qed.

Lemma is_none_false v : v <> PNone -> is_none v = false.
Proof. by destruct v. Qed.

Lemma truthy_str_snoc s a : truthy (PStr (s ++ String a EmptyString)) = true.
Proof. by destruct s. Qed.

Lemma expiry_roundtrip e :
  dt_in_range e -> parse_expiry (PStr (isoformat_dt e ++ "Z")) = Ok (e - e mod US_PER_SEC).
Proof. intros He. simpl. rewrite isoformat_dt_suffix. by apply strptime_iso_seconds. Qed.

(** The token record round trip: reading back what [to_json] wrote gives
    the same token, refresh token, client id and secret and RAPT token,
    the scopes the script asks for, and the expiry truncated to the
    second (the fraction that [isoformat] writes is cut by
    [split(".")[0]]). *)
Theorem token_record_roundtrip now c e :
  expiry c = Some e -> dt_in_range e ->
  refresh_token c <> PNone -> client_id c <> PNone -> client_secret c <> PNone ->
  exists c', from_authorized_user_info now (to_json c) SCOPES_val = Ok c' /\
    token c' = token c /\ refresh_token c' = refresh_token c /\
    client_id c' = client_id c /\ client_secret c' = client_secret c /\
    rapt_token c' = rapt_token c /\ scopes c' = SCOPES_val /\
    expiry c' = Some (e - e mod US_PER_SEC).
Proof.
  intros He Hr Hrt Hid Hsec. unfold to_json. rewrite He. fold not_none_entry.
  set (l := ([("token", token c); _; _; _; _; _; _; _; _] ++ _)%list).
  unfold from_authorized_user_info.
  rewrite (dict_has_filter_not_none _ l (refresh_token c)), (dict_has_filter_not_none _ l (client_id c)),
    (dict_has_filter_not_none _ l (client_secret c)) by (reflexivity || by apply is_none_false).
  simpl negb. cbv iota. rewrite !lookup_filter_not_none by (apply keys_distinct_NoDup; reflexivity).
  cbn [l dict_lookup String.eqb Ascii.eqb Bool.eqb andb default from_option id app].
  rewrite truthy_str_snoc, expiry_roundtrip by done. simpl. eexists; repeat split.
Qed.

(** A credential without a refresh token is written without the key, and
    the file cannot be read back: [from_authorized_user_info] raises
    [ValueError]. *)
Theorem token_record_no_refresh_token now c scps :
  refresh_token c = PNone -> from_authorized_user_info now (to_json c) scps = Raise ValueError.
Proof.
  intros H. unfold to_json, from_authorized_user_info. fold not_none_entry.
  rewrite dict_has_filter_none with (v := refresh_token c);
    [done | by destruct (expiry c) | by rewrite H | apply keys_distinct_NoDup; by destruct (expiry c)].
Qed.

