(* ===== verification/Effects.v ===== *)
(** * The boundary between the scripts and the outside world

    The scripts are single-threaded and synchronous; everything they do to
    the outside world is one of: reading the clock, reading or writing
    [token.json], calling the token endpoint, running the interactive
    flow, building an API client, executing an API request, printing.

    - [world] is what those effects change: the token file, and the
      trace of the effects in the order they happened (the newest last).
    - [env] is what the outside world answers, as functions of the
      number [n] of effects that happened before: the clock, the token
      endpoint, the browser flow, the discovery of an API, the API
      server, whether the token file can be opened for writing.  Any
      behaviour of the services (a stateful server, a clock that moves)
      is such a function.
    - [M A] is a state-and-exception monad over [world], reading [env]:
      a Python statement either returns or raises, and the effects done
      before the raise stay done.  [try_except] is [try: ... except
      Exception:], which lets [SystemExit] through; [try_catch] takes
      the test of the [except] clause; [for_until] is a [for] loop whose
      body may [return] from the function. *)

From S2P Require Import Prelude PyString PyValue Credentials.
From stdpp Require Import base list.
From Stdlib Require Import Ascii String ZArith Lia.

Local Open Scope Z_scope.

(** The answer of the token endpoint to a refresh ([reauth.refresh_grant]):
    the new access token, the refresh token if one is returned, and
    [expires_in] in seconds if present. *)
Record grant := mk_grant {
  g_access_token : pyval;
  g_refresh_token : option pyval;
  g_expires_in : option Z;
}.

(** An API request [client.<resource>().<method>(params).execute()], the
    keyword arguments in [call_params]. *)
Record api_call := mk_call {
  call_service : string;
  call_resource : string;
  call_method : string;
  call_params : list (string * pyval);
}.

Inductive event : Type :=
| EvPrint (tag : string) (args : list pyval)
| EvClock
| EvReadToken
| EvWriteToken (v : pyval)
| EvRefresh (c : creds)
| EvFlow
| EvBuild (service version : string)
| EvApi (call : api_call).

Inductive file_state : Type :=
| FAbsent
| FJson (v : pyval)
| FUnparsable.

Record world := mk_world {
  w_token_file : file_state;
  w_trace : list event;
}.

Record env := mk_env {
  env_clock : nat -> Z;
  env_token_endpoint : nat -> creds -> res grant;
  env_flow : nat -> res creds;
  env_build : nat -> string -> string -> res unit;
  env_api : nat -> api_call -> res pyval;
  env_writable : nat -> bool;
}.

(** What the scripts assume of the outside world: the services raise
    ordinary exceptions ([HttpError], [RefreshError], [OSError], ...),
    never [SystemExit] ([raises_exception]). *)
Record env_wf (E : env) : Prop := {
  wf_token_endpoint : forall i c, raises_exception (env_token_endpoint E i c);
  wf_flow : forall i, raises_exception (env_flow E i);
  wf_build : forall i s v, raises_exception (env_build E i s v);
  wf_api : forall i call, raises_exception (env_api E i call);
}.

Definition M (A : Type) : Type := env -> world -> res A * world.

#[export] Instance M_ret : MRet M := fun _ a _ w => (Ok a, w).
#[export] Instance M_bind : MBind M := fun _ _ f c E w =>
  match c E w with
  | (Ok a, w') => f a E w'
  | (Raise e, w') => (Raise e, w')
  end.

(** [let! x := c in k] runs [c], then [k] with its result: the Python
    assignment [x = c] followed by the rest of the block.  Unlike
    [x ← c; k], the computation is elaborated before the continuation, so
    that [k] may branch on [x]. *)
Definition bind_m {A B} (c : M A) (f : A -> M B) : M B := mbind f c.

Notation "'let!' x ':=' c 'in' k" := (bind_m c (fun x => k))
  (at level 10, x name, c at level 100, k at level 200) : py_scope.
Open Scope py_scope.

(** The number of effects so far: the index at which [env] is consulted. *)
Definition idx (w : world) : nat := List.length (w_trace w).

Definition record (ev : event) (w : world) : world :=
  {| w_token_file := w_token_file w; w_trace := w_trace w ++ [ev] |}.

(** ** Primitive effects *)

Definition raise {A} (e : exn) : M A := fun _ w => (Raise e, w).

Definition lift {A} (r : res A) : M A := fun _ w => (r, w).

Definition sys_exit {A} (code : Z) : M A := raise (SystemExit code).

Definition print (tag : string) (args : list pyval) : M unit :=
  fun _ w => (Ok tt, record (EvPrint tag args) w).

(** [datetime.utcnow()] *)
Definition utcnow : M Z := fun E w => (Ok (env_clock E (idx w)), record EvClock w).

(** [os.path.exists(TOKEN_FILE)] *)
Definition token_file_exists : M bool :=
  fun _ w => (Ok (match w_token_file w with FAbsent => false | _ => true end), w).

(** [json.load(open(TOKEN_FILE))]: [FileNotFoundError] (an [OSError]) or
    [JSONDecodeError] (a [ValueError]). *)
Definition read_token_file : M pyval := fun _ w =>
  let w' := record EvReadToken w in
  match w_token_file w with
  | FAbsent => (Raise OSError, w')
  | FUnparsable => (Raise ValueError, w')
  | FJson v => (Ok v, w')
  end.

(** [with open(TOKEN_FILE, "w") as f: f.write(json.dumps(v))]: when the
    file cannot be opened, [OSError] and nothing changes. *)
Definition write_token_file (v : pyval) : M unit := fun E w =>
  if env_writable E (idx w) then
    (Ok tt, {| w_token_file := FJson v; w_trace := w_trace w ++ [EvWriteToken v] |})
  else (Raise OSError, w).

Definition call_token_endpoint (c : creds) : M grant :=
  fun E w => (env_token_endpoint E (idx w) c, record (EvRefresh c) w).

Definition run_flow : M creds := fun E w => (env_flow E (idx w), record EvFlow w).

(** [build(service, version, credentials=creds)] *)
Definition build (service version : string) : M unit :=
  fun E w => (env_build E (idx w) service version, record (EvBuild service version) w).

Definition execute (call : api_call) : M pyval :=
  fun E w => (env_api E (idx w) call, record (EvApi call) w).

(** ** Control *)

(** [try: c  except <p>: h]: an exception that the clause does not match
    goes through with the effects done so far. *)
Definition try_catch {A} (p : exn -> bool) (c : M A) (h : exn -> M A) : M A := fun E w =>
  match c E w with
  | (Raise e, w') => if p e then h e E w' else (Raise e, w')
  | r => r
  end.

(** [try: c  except Exception: h] *)
Definition try_except {A} (c : M A) (h : exn -> M A) : M A := try_catch is_Exception c h.

(** The [except] clauses of a [try] statement, tried in order: each is
    the test of its exception class and its handler. *)
Definition clause (A : Type) : Type := (exn -> bool) * (exn -> M A).

Fixpoint handler {A} (cls : list (clause A)) (e : exn) : option (M A) :=
  match cls with
  | [] => None
  | (p, h) :: r => if p e then Some (h e) else handler r e
  end.

(** [try: c  except C1: h1  except C2: h2 ...]: the first clause whose
    class matches handles the exception; an exception raised by a handler
    is not caught by the later clauses. *)
Definition try_clauses {A} (c : M A) (cls : list (clause A)) : M A := fun E w =>
  match c E w with
  | (Raise e, w') => match handler cls e with Some k => k E w' | None => (Raise e, w') end
  | r => r
  end.

(** A [for] loop whose body may [return] a value ([Some]) from the
    enclosing function. *)
Fixpoint for_until {A B} (xs : list A) (body : A -> M (option B)) : M (option B) :=
  match xs with
  | [] => mret None
  | x :: r => let! o := body x in match o with Some b => mret (Some b) | None => for_until r body end
  end.

(** A [for] loop without [return]. *)
Fixpoint for_each {A} (xs : list A) (body : A -> M unit) : M unit :=
  match xs with
  | [] => mret tt
  | x :: r => body x;; for_each r body
  end.

(** ** Running a computation *)

Definition run {A} (c : M A) (E : env) (w : world) : res A * world := c E w.

Definition count_ev (p : event -> bool) (w : world) : nat := List.length (List.filter p (w_trace w)).

Definition is_refresh (ev : event) : bool := match ev with EvRefresh _ => true | _ => false end.
Definition is_flow (ev : event) : bool := match ev with EvFlow => true | _ => false end.
Definition is_write (ev : event) : bool := match ev with EvWriteToken _ => true | _ => false end.
Definition is_api (ev : event) : bool := match ev with EvApi _ => true | _ => false end.

(** [build("youtubeAnalytics", ...)]: the first statement of an
    analytics probe. *)
Definition is_analytics_build (ev : event) : bool :=
  match ev with EvBuild s _ => String.eqb s "youtubeAnalytics" | _ => false end.

(** The API requests of the trace, in the order they were made. *)
Definition api_calls (w : world) : list api_call :=
  omap (fun ev => match ev with EvApi call => Some call | _ => None end) (w_trace w).

(** ** Lemmas *)

Lemma bind_run {A B} (c : M A) (f : A -> M B) E w :
  (c ≫= f) E w = match c E w with (Ok a, w') => f a E w' | (Raise e, w') => (Raise e, w') end.
Proof. reflexivity. Qed.

Lemma bind_m_run {A B} (c : M A) (f : A -> M B) E w :
  bind_m c f E w = match c E w with (Ok a, w') => f a E w' | (Raise e, w') => (Raise e, w') end.
Proof. reflexivity. Qed.

Lemma ret_run {A} (a : A) E w : (mret a : M A) E w = (Ok a, w).
Proof. reflexivity. Qed.

Lemma try_except_ok {A} (c : M A) h E w a w' :
  c E w = (Ok a, w') -> try_except c h E w = (Ok a, w').
Proof. intros H. unfold try_except, try_catch. by rewrite H. Qed.

(** A goal [exists a w', try_except c h E w = (Ok a, w') /\ P a w']
    reduces to the same goal on [c]. *)
Lemma try_except_ok_ex {A} (c : M A) h E w (P : A -> world -> Prop) :
  (exists a w', c E w = (Ok a, w') /\ P a w') -> exists a w', try_except c h E w = (Ok a, w') /\ P a w'.
Proof. intros (a & w' & H & HP). exists a, w'. split; [by apply try_except_ok | done]. Qed.

Lemma try_except_exit {A} (c : M A) h E w code w' :
  c E w = (Raise (SystemExit code), w') -> try_except c h E w = (Raise (SystemExit code), w').
Proof. intros H. unfold try_except, try_catch. by rewrite H. Qed.

Lemma try_except_exn {A} (c : M A) h E w e w' :
  c E w = (Raise e, w') -> is_Exception e = true -> try_except c h E w = h e E w'.
Proof. intros H He. unfold try_except, try_catch. by rewrite H, He. Qed.

Lemma count_ev_record p ev w :
  count_ev p (record ev w) = (count_ev p w + if p ev then 1 else 0)%nat.
Proof. unfold count_ev, record. simpl. rewrite List.filter_app, length_app. simpl. by destruct (p ev). Qed.

(** Clauses after an [except Exception] clause are never used when
    their classes are exceptions too: they are dead code. *)
Lemma handler_after_catch_all {A} (cls1 cls2 : list (clause A)) h e :
  Forall (fun cl => forall e, cl.1 e = true -> is_Exception e = true) cls2 ->
  handler (cls1 ++ (is_Exception, h) :: cls2) e = handler (cls1 ++ [(is_Exception, h)]) e.
Proof.
  intros H2. induction cls1 as [|[p k] r IH]; simpl.
  - destruct (is_Exception e) eqn:He; [done|].
    induction H2 as [|[p k] r Hp _ IH]; simpl; [done|].
    destruct (p e) eqn:Hpe; [by rewrite (Hp e Hpe) in He | done].
  - by rewrite IH.
Qed.

Lemma execute_run call E w : execute call E w = (env_api E (idx w) call, record (EvApi call) w).
Proof. reflexivity. Qed.

Lemma print_run tag args E w : print tag args E w = (Ok tt, record (EvPrint tag args) w).
Proof. reflexivity. Qed.

Lemma lift_run {A} (r : res A) E w : lift r E w = (r, w).
Proof. reflexivity. Qed.

Lemma api_calls_record ev w :
  api_calls (record ev w) = api_calls w ++ match ev with EvApi call => [call] | _ => [] end.
Proof. unfold api_calls, record. simpl. rewrite omap_app. by destruct ev. Qed.

#[export] Hint Rewrite @bind_run @bind_m_run @ret_run count_ev_record api_calls_record : yt_rw.

(** [run_m]: run a computation in the goal as far as its steps are
    known: unfold the binds and reduce the matches on their results. *)
Ltac run_m := repeat (progress (rewrite ?bind_m_run, ?bind_run, ?ret_run, ?execute_run, ?print_run, ?lift_run;
  cbn [w_token_file w_trace])).

(** [count_solve]: an arithmetic goal on event counts of recorded worlds. *)
Ltac count_solve :=
  autorewrite with yt_rw; unfold count_ev; simpl; rewrite ?List.filter_app, ?length_app; simpl; lia.
