(* ===== verification/Hoare.v ===== *)
(** * A program logic for the scripts' computations

    [spec P R c]: in every well-formed environment (the services raise
    only ordinary exceptions, [env_wf]), [c] either returns a value that
    satisfies [P] or raises an exception that satisfies [R].  The rules
    follow the statements of the scripts: sequencing ([bind_m], [;;]),
    [if], [raise]/[sys.exit], [try ... except Exception], and the [for]
    loops with an early [return].

    [frame p c]: [c] adds no event that [p] selects to the trace (it
    refreshes no token, runs no browser flow, writes no file, ...);
    [at_most p n c]: it adds at most [n] of them; [keeps_file c]: it
    leaves the token file as it was; [runs E I c P]: in the one
    environment [E], it returns.

    The component files prove the specifications of each function from
    these rules and the hint database [yt]. *)

From S2P Require Import Prelude PyValue Credentials Effects.
From stdpp Require Import base list.
From Stdlib Require Import String ZArith Lia.

Definition spec {A} (P : A -> Prop) (R : exn -> Prop) (c : M A) : Prop :=
  forall E w, env_wf E -> match fst (c E w) with Ok a => P a | Raise e => R e end.

Definition is_exn (e : exn) : Prop := is_Exception e = true.

Section Rules.
Context {A B : Type}.

Lemma spec_weaken (P P' : A -> Prop) (R R' : exn -> Prop) c :
  spec P R c -> (forall a, P a -> P' a) -> (forall e, R e -> R' e) -> spec P' R' c.
Proof. intros H HP HR E w HE. specialize (H E w HE). destruct (fst (c E w)); auto. Qed.

Lemma spec_ret (P : A -> Prop) R a : P a -> spec P R (mret a).
Proof. intros H E w _. exact H. Qed.

Lemma spec_raise (P : A -> Prop) (R : exn -> Prop) e : R e -> spec P R (raise e).
Proof. intros H E w _. exact H. Qed.

Lemma spec_lift (P : A -> Prop) (R : exn -> Prop) r :
  (forall a, r = Ok a -> P a) -> (forall e, r = Raise e -> R e) -> spec P R (lift r).
Proof. intros HP HR E w _. simpl. destruct r; auto. Qed.

Lemma spec_bind (Q : A -> Prop) (P : B -> Prop) R (c : M A) (f : A -> M B) :
  spec Q R c -> (forall a, Q a -> spec P R (f a)) -> spec P R (bind_m c f).
Proof.
  intros Hc Hf E w HE. specialize (Hc E w HE). rewrite bind_m_run.
  destruct (c E w) as [[a|e] w']; simpl in *; [by apply Hf | done].
Qed.

Lemma spec_mbind (Q : A -> Prop) (P : B -> Prop) R (c : M A) (f : A -> M B) :
  spec Q R c -> (forall a, Q a -> spec P R (f a)) -> spec P R (c ≫= f).
Proof. apply spec_bind. Qed.

Lemma spec_if (P : A -> Prop) R (b : bool) c1 c2 :
  (b = true -> spec P R c1) -> (b = false -> spec P R c2) -> spec P R (if b then c1 else c2).
Proof. destruct b; auto. Qed.

(** [try: c  except Exception: h] *)
Lemma spec_try_except (P : A -> Prop) (R1 R : exn -> Prop) c h :
  spec P R1 c ->
  (forall e, R1 e -> is_Exception e = true -> spec P R (h e)) ->
  (forall e, R1 e -> is_Exception e = false -> R e) ->
  spec P R (try_except c h).
Proof.
  intros Hc Hh Hx E w HE. specialize (Hc E w HE). unfold try_except, try_catch.
  destruct (c E w) as [[a|e] w'] eqn:Ec; simpl in *; [done|].
  destruct (is_Exception e) eqn:He; [by apply Hh | by apply Hx].
Qed.

(** [try: c  except C1: h1 ...] *)
Lemma spec_try_clauses (P : A -> Prop) (R1 R : exn -> Prop) c cls :
  spec P R1 c ->
  (forall e k, R1 e -> handler cls e = Some k -> spec P R k) ->
  (forall e, R1 e -> handler cls e = None -> R e) ->
  spec P R (try_clauses c cls).
Proof.
  intros Hc Hh Hx E w HE. specialize (Hc E w HE). unfold try_clauses.
  destruct (c E w) as [[a|e] w'] eqn:Ec; simpl in *; [done|].
  destruct (handler cls e) eqn:Hk; [by eapply Hh | by apply Hx].
Qed.

End Rules.

(** A [for] loop whose body returns [Some b] with [Q b] or continues. *)
Lemma spec_for_until {A B} (Q : B -> Prop) R (xs : list A) (body : A -> M (option B)) :
  (forall x, x ∈ xs -> spec (fun o => match o with Some b => Q b | None => True end) R (body x)) ->
  spec (fun o => match o with Some b => Q b | None => True end) R (for_until xs body).
Proof.
  induction xs as [|x xs IH]; intros Hb; cbn [for_until]; [by apply spec_ret|].
  apply (spec_bind (fun o => match o with Some b => Q b | None => True end)).
  - apply Hb. by left.
  - intros [b|] Hq; [by apply spec_ret|]. apply IH. intros y Hy. apply Hb. by right.
Qed.

(** ** The primitives *)

Lemma spec_print {R : exn -> Prop} tag args : spec (fun _ => True) R (print tag args).
Proof. by intros E w _. Qed.

Lemma spec_utcnow {R : exn -> Prop} : spec (fun _ => True) R utcnow.
Proof. by intros E w _. Qed.

Lemma spec_token_file_exists {R : exn -> Prop} : spec (fun _ => True) R token_file_exists.
Proof. by intros E w _. Qed.

Lemma spec_read_token_file : spec (fun _ => True) is_exn read_token_file.
Proof. intros E w _. unfold read_token_file. by destruct (w_token_file w). Qed.

Lemma spec_write_token_file v : spec (fun _ => True) is_exn (write_token_file v).
Proof. intros E w _. unfold write_token_file. by destruct (env_writable E (idx w)). Qed.

Lemma spec_call_token_endpoint c : spec (fun _ => True) is_exn (call_token_endpoint c).
Proof.
  intros E w HE. unfold call_token_endpoint. simpl.
  destruct (env_token_endpoint E (idx w) c) eqn:Hr; [done|]. by apply (wf_token_endpoint E HE _ _ _ Hr).
Qed.

Lemma spec_run_flow : spec (fun _ => True) is_exn run_flow.
Proof.
  intros E w HE. unfold run_flow. simpl.
  destruct (env_flow E (idx w)) eqn:Hr; [done|]. by apply (wf_flow E HE _ _ Hr).
Qed.

Lemma spec_build s v : spec (fun _ => True) is_exn (build s v).
Proof.
  intros E w HE. unfold build. simpl.
  destruct (env_build E (idx w) s v) eqn:Hr; [done|]. by apply (wf_build E HE _ _ _ _ Hr).
Qed.

Lemma spec_execute call : spec (fun _ => True) is_exn (execute call).
Proof.
  intros E w HE. unfold execute. simpl.
  destruct (env_api E (idx w) call) eqn:Hr; [done|]. by apply (wf_api E HE _ _ _ Hr).
Qed.

Lemma spec_lift_exn {A} (r : res A) : raises_exception r -> spec (fun _ => True) is_exn (lift r).
Proof. intros H. apply spec_lift; [done | exact H]. Qed.

Lemma spec_for_until_any {A B} R (xs : list A) (body : A -> M (option B)) :
  (forall x, spec (fun _ => True) R (body x)) -> spec (fun _ => True) R (for_until xs body).
Proof.
  intros Hb. eapply spec_weaken; [apply (spec_for_until (fun _ => True)) | done | done].
  intros x _. eapply spec_weaken; [apply Hb | by intros [] | done].
Qed.

Lemma spec_for_each {A} R (xs : list A) (body : A -> M unit) :
  (forall x, spec (fun _ => True) R (body x)) -> spec (fun _ => True) R (for_each xs body).
Proof.
  intros Hb. induction xs as [|x xs IH]; simpl; [by apply spec_ret|].
  apply (spec_mbind (fun _ => True)); [apply Hb | intros; apply IH].
Qed.

(** A [try] whose clauses handle every [Exception] without raising does
    not raise, when its body raises only [Exception]s. *)
Lemma spec_try_never_raises {A} (c : M A) (cls : list (clause A)) :
  spec (fun _ => True) is_exn c ->
  (forall e k, is_Exception e = true -> handler cls e = Some k -> spec (fun _ => True) (fun _ => False) k) ->
  (forall e, is_Exception e = true -> handler cls e <> None) ->
  spec (fun _ => True) (fun _ => False) (try_clauses c cls).
Proof.
  intros Hc Hk Hn. apply (spec_try_clauses _ is_exn _ _ _ Hc).
  - intros e k He. by apply Hk.
  - intros e He Hnone. by apply (Hn e He).
Qed.

(** [spec_exn]: a computation built from the statements of [Effects] and
    these primitives returns or raises an ordinary exception (never
    [SystemExit]). *)
Ltac spec_exn_step :=
  match goal with
  | |- spec _ _ (bind_m _ _) => apply (spec_bind (fun _ => True)); [|intros ? _]
  | |- spec _ _ (mbind _ _) => apply (spec_mbind (fun _ => True)); [|intros ? _]
  | |- spec _ _ (if _ then _ else _) => apply spec_if; intros _
  | |- spec _ _ (match ?x with _ => _ end) => destruct x
  | |- spec _ _ (try_except _ _) => apply (spec_try_except _ is_exn); [| intros ? _ _ | intros ? He _; exact He]
  | |- spec _ _ (for_until _ _) => apply spec_for_until_any; intros ?; cbv beta
  | |- spec _ _ (for_each _ _) => apply spec_for_each; intros ?
  | |- spec _ _ (mret _) => by apply spec_ret
  | |- spec _ _ (lift _) => apply spec_lift_exn; eauto with yt
  | |- spec _ _ (print _ _) => apply spec_print
  | |- spec _ _ (execute _) => apply spec_execute
  | |- spec _ _ (build _ _) => apply spec_build
  | |- spec _ _ utcnow => apply spec_utcnow
  | |- spec _ _ _ => solve [eauto with yt]
  end.

Ltac spec_exn := repeat spec_exn_step.

(** ** Frames: events a computation does not add *)

Definition frame {A} (p : event -> bool) (c : M A) : Prop :=
  forall E w, count_ev p (snd (c E w)) = count_ev p w.

Section Frames.
Context (p : event -> bool).

Lemma frame_ret {A} (a : A) : frame p (mret a).
Proof. by intros E w. Qed.

Lemma frame_raise {A} e : frame p (raise (A:=A) e).
Proof. by intros E w. Qed.

Lemma frame_lift {A} (r : res A) : frame p (lift r).
Proof. by intros E w. Qed.

Lemma frame_record {A} (c : M A) ev :
  p ev = false ->
  (forall E w, w_trace (snd (c E w)) = w_trace w ++ [ev] \/ w_trace (snd (c E w)) = w_trace w) ->
  frame p c.
Proof.
  intros Hp Hc E w. unfold count_ev. destruct (Hc E w) as [-> | ->]; [|done].
  rewrite List.filter_app, length_app. simpl. rewrite Hp. simpl. lia.
Qed.

Lemma frame_bind {A B} (c : M A) (f : A -> M B) :
  frame p c -> (forall a, frame p (f a)) -> frame p (bind_m c f).
Proof.
  intros Hc Hf E w. rewrite bind_m_run. specialize (Hc E w).
  destruct (c E w) as [[a|e] w'] eqn:Ec; simpl in *; [by rewrite Hf | done].
Qed.

Lemma frame_mbind {A B} (c : M A) (f : A -> M B) :
  frame p c -> (forall a, frame p (f a)) -> frame p (c ≫= f).
Proof. apply frame_bind. Qed.

Lemma frame_if {A} (b : bool) (c1 c2 : M A) : frame p c1 -> frame p c2 -> frame p (if b then c1 else c2).
Proof. by destruct b. Qed.

Lemma frame_try_except {A} (c : M A) h : frame p c -> (forall e, frame p (h e)) -> frame p (try_except c h).
Proof.
  intros Hc Hh E w. unfold try_except, try_catch. specialize (Hc E w).
  destruct (c E w) as [[a|e] w'] eqn:Ec; simpl in *; [done|].
  destruct (is_Exception e); simpl; [by rewrite Hh | done].
Qed.

Lemma frame_try_clauses {A} (c : M A) cls :
  frame p c -> Forall (fun cl => forall e, frame p (cl.2 e)) cls -> frame p (try_clauses c cls).
Proof.
  intros Hc Hcl E w. unfold try_clauses. specialize (Hc E w).
  destruct (c E w) as [[a|e] w'] eqn:Ec; simpl in *; [done|].
  induction Hcl as [|[q h] r Hh _ IH]; simpl; [done|].
  destruct (q e); [by rewrite Hh | done].
Qed.

Lemma frame_for_each {A} (xs : list A) (body : A -> M unit) :
  (forall x, frame p (body x)) -> frame p (for_each xs body).
Proof.
  intros Hb. induction xs as [|x xs IH]; simpl; [apply frame_ret|].
  apply frame_mbind; [done | intros; exact IH].
Qed.

Lemma frame_for_until {A B} (xs : list A) (body : A -> M (option B)) :
  (forall x, frame p (body x)) -> frame p (for_until xs body).
Proof.
  intros Hb. induction xs as [|x xs IH]; simpl; [apply frame_ret|].
  apply frame_mbind; [done|]. intros [b|]; [apply frame_ret | done].
Qed.
End Frames.

(** [frame_comb]: one step of a frame proof through the statements of a
    computation; the component files add the leaves ([frame_leaf]). *)
Ltac frame_comb :=
  match goal with
  | |- frame _ (bind_m _ _) => apply frame_bind
  | |- frame _ (mbind _ _) => apply frame_mbind
  | |- frame _ (if _ then _ else _) => apply frame_if
  | |- frame _ (try_except _ _) => apply frame_try_except
  | |- frame _ (for_until _ _) => apply frame_for_until
  | |- frame _ (try_clauses _ _) => apply frame_try_clauses
  | |- frame _ (for_each _ _) => apply frame_for_each
  | |- Forall _ (_ :: _) => constructor; [cbv beta; intros; cbn [snd] |]
  | |- Forall _ [] => constructor
  | |- frame _ (mret _) => apply frame_ret
  | |- frame _ (raise _) => apply frame_raise
  | |- frame _ (sys_exit _) => apply frame_raise
  | |- frame _ (lift _) => apply frame_lift
  | |- frame _ (match ?x with _ => _ end) => destruct x
  | |- forall _, _ => intros
  end.

(** ** Runs in a given environment

    [runs E I c P]: in the environment [E], from every world that
    satisfies [I], [c] returns a value that satisfies [P], in a world
    that satisfies [I] again.  Unlike [spec], which holds in every
    environment, this describes one outside world (a server that answers
    in a certain way), and it asserts that [c] returns. *)
Definition runs {A} (E : env) (I : world -> Prop) (c : M A) (P : A -> Prop) : Prop :=
  forall w, I w -> exists a w', c E w = (Ok a, w') /\ P a /\ I w'.

Section Runs.
Context (E : env) (I : world -> Prop).

Lemma runs_ret {A} (P : A -> Prop) a : P a -> runs E I (mret a) P.
Proof. intros Ha w Hw. by exists a, w. Qed.

Lemma runs_bind {A B} (Q : A -> Prop) (P : B -> Prop) (c : M A) (f : A -> M B) :
  runs E I c Q -> (forall a, Q a -> runs E I (f a) P) -> runs E I (bind_m c f) P.
Proof.
  intros Hc Hf w Hw. destruct (Hc w Hw) as (a & w1 & Hr & Ha & Hw1).
  destruct (Hf a Ha w1 Hw1) as (b & w2 & Hr2 & Hb & Hw2).
  exists b, w2. rewrite bind_m_run, Hr. auto.
Qed.

Lemma runs_mbind {A B} (Q : A -> Prop) (P : B -> Prop) (c : M A) (f : A -> M B) :
  runs E I c Q -> (forall a, Q a -> runs E I (f a) P) -> runs E I (c ≫= f) P.
Proof. apply runs_bind. Qed.

Lemma runs_print tag args :
  (forall ev w, I w -> I (record ev w)) -> runs E I (print tag args) (fun _ => True).
Proof. intros HI w Hw. exists tt, (record (EvPrint tag args) w). auto. Qed.

Lemma runs_weaken {A} (P P' : A -> Prop) c : runs E I c P -> (forall a, P a -> P' a) -> runs E I c P'.
Proof. intros H HP w Hw. destruct (H w Hw) as (a & w' & Hr & Ha & Hw'). exists a, w'. auto. Qed.
End Runs.

(** ** Computations that leave the token file alone *)

Definition keeps_file {A} (c : M A) : Prop := forall E w, w_token_file (snd (c E w)) = w_token_file w.

Lemma keeps_ret {A} (a : A) : keeps_file (mret a).
Proof. by intros E w. Qed.

Lemma keeps_raise {A} e : keeps_file (raise (A:=A) e).
Proof. by intros E w. Qed.

Lemma keeps_lift {A} (r : res A) : keeps_file (lift r).
Proof. by intros E w. Qed.

(** A primitive that records one event, or none. *)
Lemma keeps_record {A} (c : M A) ev :
  (forall E w, snd (c E w) = record ev w \/ snd (c E w) = w) -> keeps_file c.
Proof. intros H E w. by destruct (H E w) as [-> | ->]. Qed.

Lemma keeps_bind {A B} (c : M A) (f : A -> M B) :
  keeps_file c -> (forall a, keeps_file (f a)) -> keeps_file (bind_m c f).
Proof.
  intros Hc Hf E w. rewrite bind_m_run. specialize (Hc E w).
  destruct (c E w) as [[a|e] w'] eqn:Ec; simpl in *; [by rewrite Hf | done].
Qed.

Lemma keeps_mbind {A B} (c : M A) (f : A -> M B) :
  keeps_file c -> (forall a, keeps_file (f a)) -> keeps_file (c ≫= f).
Proof. apply keeps_bind. Qed.

Lemma keeps_if {A} (b : bool) (c1 c2 : M A) : keeps_file c1 -> keeps_file c2 -> keeps_file (if b then c1 else c2).
Proof. by destruct b. Qed.

Ltac keeps_comb :=
  match goal with
  | |- keeps_file (bind_m _ _) => apply keeps_bind
  | |- keeps_file (mbind _ _) => apply keeps_mbind
  | |- keeps_file (if _ then _ else _) => apply keeps_if
  | |- keeps_file (mret _) => apply keeps_ret
  | |- keeps_file (raise _) => apply keeps_raise
  | |- keeps_file (lift _) => apply keeps_lift
  | |- keeps_file (match ?x with _ => _ end) => destruct x
  | |- keeps_file (print ?t ?a) => apply (keeps_record _ (EvPrint t a)); intros; by left
  | |- keeps_file utcnow => apply (keeps_record _ EvClock); intros; by left
  | |- keeps_file (call_token_endpoint ?c) => apply (keeps_record _ (EvRefresh c)); intros; by left
  | |- keeps_file run_flow => apply (keeps_record _ EvFlow); intros; by left
  | |- keeps_file read_token_file =>
      apply (keeps_record _ EvReadToken); intros ? w; left; unfold read_token_file; by destruct (w_token_file w)
  | |- forall _, _ => intros
  end.

(** ** Counting the events of a computation *)

(** [c] adds [n] events [p], then [f] none. *)
Lemma count_mbind {A B} p (c : M A) (f : A -> M B) n E w :
  count_ev p (snd (c E w)) = (count_ev p w + n)%nat -> (forall a, frame p (f a)) ->
  count_ev p (snd ((c ≫= f) E w)) = (count_ev p w + n)%nat.
Proof.
  intros Hc Hf. rewrite bind_run. destruct (c E w) as [[a|e] w'] eqn:Ec; simpl in *; [by rewrite Hf | done].
Qed.

(** The [except] clauses add no event [p]. *)
Lemma count_try_clauses {A} p (c : M A) cls n E w :
  count_ev p (snd (c E w)) = (count_ev p w + n)%nat -> Forall (fun cl => forall e, frame p (cl.2 e)) cls ->
  count_ev p (snd (try_clauses c cls E w)) = (count_ev p w + n)%nat.
Proof.
  intros Hc Hcl. unfold try_clauses. destruct (c E w) as [[a|e] w'] eqn:Ec; simpl in *; [done|].
  induction Hcl as [|[q h] r Hh _ IH]; simpl; [done|]. destruct (q e); [by rewrite Hh | done].
Qed.

(** ** Bounds on the events of a computation

    [at_most p n c]: whatever the environment and the world, [c] adds at
    most [n] events [p], whether it returns or raises. *)
Definition at_most {A} (p : event -> bool) (n : nat) (c : M A) : Prop :=
  forall E w, (count_ev p (snd (c E w)) <= count_ev p w + n)%nat.

Section Bounds.
Context (p : event -> bool).

Lemma at_most_frame {A} (c : M A) : frame p c -> at_most p 0 c.
Proof. intros Hc E w. rewrite Hc. lia. Qed.

Lemma at_most_weaken {A} n m (c : M A) : (n <= m)%nat -> at_most p n c -> at_most p m c.
Proof. intros Hnm Hc E w. specialize (Hc E w). lia. Qed.

Lemma at_most_execute call : at_most p 1 (execute call).
Proof. intros E w. simpl. rewrite count_ev_record. destruct (p _); lia. Qed.

Lemma at_most_bind {A B} n m (c : M A) (f : A -> M B) :
  at_most p n c -> (forall a, at_most p m (f a)) -> at_most p (n + m) (bind_m c f).
Proof.
  intros Hc Hf E w. rewrite bind_m_run. specialize (Hc E w).
  destruct (c E w) as [[a|e] w'] eqn:Ec; simpl in *; [specialize (Hf a E w'); lia | lia].
Qed.

Lemma at_most_mbind {A B} n m (c : M A) (f : A -> M B) :
  at_most p n c -> (forall a, at_most p m (f a)) -> at_most p (n + m) (c ≫= f).
Proof. apply at_most_bind. Qed.

Lemma at_most_frame_bind {A B} n (c : M A) (f : A -> M B) :
  frame p c -> (forall a, at_most p n (f a)) -> at_most p n (bind_m c f).
Proof. intros Hc Hf. apply (at_most_bind 0 n); [by apply at_most_frame | done]. Qed.

Lemma at_most_bind_frame {A B} n (c : M A) (f : A -> M B) :
  at_most p n c -> (forall a, frame p (f a)) -> at_most p n (bind_m c f).
Proof.
  intros Hc Hf. rewrite <- (Nat.add_0_r n). apply at_most_bind; [done | intros; by apply at_most_frame].
Qed.

Lemma at_most_if {A} n (b : bool) (c1 c2 : M A) :
  at_most p n c1 -> at_most p n c2 -> at_most p n (if b then c1 else c2).
Proof. by destruct b. Qed.

Lemma at_most_try_except {A} n m (c : M A) h :
  at_most p n c -> (forall e, at_most p m (h e)) -> at_most p (n + m) (try_except c h).
Proof.
  intros Hc Hh E w. unfold try_except, try_catch. specialize (Hc E w).
  destruct (c E w) as [[a|e] w'] eqn:Ec; simpl in *; [lia|].
  destruct (is_Exception e); simpl; [specialize (Hh e E w'); lia | lia].
Qed.

(** A [for] loop whose body adds at most [n] events adds at most [n]
    per element. *)
Lemma at_most_for_until {A B} n (xs : list A) (body : A -> M (option B)) :
  (forall x, at_most p n (body x)) -> at_most p (List.length xs * n) (for_until xs body).
Proof.
  intros Hb. induction xs as [|x xs IH]; simpl; [apply at_most_frame, frame_ret|].
  apply at_most_mbind; [done|]. intros [b|]; [|done].
  apply (at_most_weaken 0); [lia | apply at_most_frame, frame_ret].
Qed.
End Bounds.
