(* ===== verification/GoogleAuth.v ===== *)
(** * The google-auth calls of the scripts, as effects

    The methods of [google.oauth2.credentials.Credentials] that the
    scripts call, on top of the pure model of [Credentials]:
    - [from_authorized_user_file]: read and parse [token.json], then
      [from_authorized_user_info]; the clock is read only when the record
      has no expiry;
    - [creds_expired], [creds_valid]: the properties, each reading the
      clock ([valid] reads it only when there is a token);
    - [creds_refresh]: [Credentials.refresh(Request())]: [RefreshError]
      without a refresh token, token URI, client id or secret; otherwise
      one call of the token endpoint, then the new token, the expiry
      [utcnow() + expires_in] and the refresh token (the old one when none
      is returned).  Two paths of google-auth are left out: the
      [RefreshError] it raises first when [universe_domain] is not
      ["googleapis.com"] (the scripts' tokens are all in the default
      domain), and the reauthentication step of [refresh_grant], the
      only one that returns a new RAPT token, so [rapt_token] is kept;
    - [installed_app_flow]: [InstalledAppFlow.from_client_secrets_file(...)
      .run_local_server(port=0)], one interaction that returns fresh
      credentials or raises. *)

From S2P Require Import Prelude PyString PyValue DateFormat Credentials Effects Hoare.
From stdpp Require Import base list.
From Stdlib Require Import Ascii String ZArith Lia.

Local Open Scope string_scope.
Local Open Scope Z_scope.

(** The record lacks an expiry, so [from_authorized_user_info] reads the
    clock to expire it at once. *)
Definition needs_clock (info : pyval) : bool :=
  match info with
  | PDict kvs =>
      dict_has "refresh_token" kvs && dict_has "client_id" kvs && dict_has "client_secret" kvs &&
      negb (truthy (default PNone (dict_lookup "expiry" kvs)))
  | _ => false
  end.

Definition from_authorized_user_file (scps : pyval) : M creds :=
  let! info := read_token_file in
  let! now := (if needs_clock info then utcnow else mret 0) in
  lift (from_authorized_user_info now info scps).

Definition creds_expired (c : creds) : M bool :=
  match expiry c with
  | None => mret false
  | Some e => let! now := utcnow in mret (e - REFRESH_THRESHOLD <=? now)
  end.

Definition creds_valid (c : creds) : M bool :=
  if is_none (token c) then mret false
  else let! e := creds_expired c in mret (negb e).

Definition creds_refresh (c : creds) : M creds :=
  if is_none (refresh_token c) || is_none (token_uri c) || is_none (client_id c) || is_none (client_secret c)
  then raise RefreshError
  else
    let! g := call_token_endpoint c in
    let! exp := (match g_expires_in g with
                 | Some s => let! now := utcnow in mret (Some (now + s * US_PER_SEC))
                 | None => mret None
                 end) in
    mret {| token := g_access_token g;
            refresh_token := default (refresh_token c) (g_refresh_token g);
            token_uri := token_uri c; client_id := client_id c;
            client_secret := client_secret c; scopes := scopes c;
            rapt_token := rapt_token c; universe_domain := universe_domain c;
            account := account c; expiry := exp |}.

Definition installed_app_flow : M creds := run_flow.

(** ** Lemmas *)

Lemma creds_expired_run c E w :
  creds_expired c E w =
  match expiry c with
  | None => (Ok false, w)
  | Some _ => (Ok (expired_at (env_clock E (idx w)) c), record EvClock w)
  end.
Proof. unfold creds_expired, expired_at. by destruct (expiry c). Qed.

Lemma creds_valid_run c E w :
  creds_valid c E w =
  if is_none (token c) then (Ok false, w)
  else match expiry c with
       | None => (Ok true, w)
       | Some _ => (Ok (valid_at (env_clock E (idx w)) c), record EvClock w)
       end.
Proof.
  unfold creds_valid, valid_at. destruct (is_none (token c)); [done|].
  rewrite bind_m_run, creds_expired_run. by destruct (expiry c).
Qed.

Lemma from_authorized_user_file_run v c E w :
  w_token_file w = FJson v -> needs_clock v = false ->
  from_authorized_user_info 0 v SCOPES_val = Ok c ->
  from_authorized_user_file SCOPES_val E w = (Ok c, record EvReadToken w).
Proof.
  intros Hf Hn Hc. unfold from_authorized_user_file, read_token_file.
  rewrite bind_m_run, Hf, bind_m_run, Hn. simpl. by rewrite Hc.
Qed.

Lemma needs_clock_to_json c e : expiry c = Some e -> needs_clock (to_json c) = false.
Proof.
  intros He. unfold needs_clock, to_json. rewrite He. fold not_none_entry.
  rewrite lookup_filter_not_none by (apply keys_distinct_NoDup; reflexivity).
  cbn [dict_lookup String.eqb Ascii.eqb Bool.eqb andb default from_option app id].
  by rewrite truthy_str_snoc, andb_false_r.
Qed.

(** Without a refresh token the record lacks the key: the clock is not read. *)
Lemma needs_clock_no_refresh_token c : refresh_token c = PNone -> needs_clock (to_json c) = false.
Proof.
  intros H. unfold needs_clock, to_json. fold not_none_entry.
  rewrite dict_has_filter_none with (v := refresh_token c);
    [done | by destruct (expiry c) | by rewrite H | apply keys_distinct_NoDup; by destruct (expiry c)].
Qed.

(** ** Specifications *)

Lemma spec_from_authorized_user_file scps :
  spec (fun _ => True) is_exn (from_authorized_user_file scps).
Proof.
  unfold from_authorized_user_file.
  eapply spec_bind; [apply spec_read_token_file|]. intros info _.
  eapply spec_bind; [destruct (needs_clock info); [apply spec_utcnow | by apply spec_ret]|].
  intros now _. apply spec_lift; [done|]. intros e He. exact (from_info_exn _ _ _ e He).
Qed.

Lemma spec_creds_expired {R : exn -> Prop} c : spec (fun _ => True) R (creds_expired c).
Proof.
  unfold creds_expired. destruct (expiry c); [|by apply spec_ret].
  eapply spec_bind; [apply spec_utcnow|]. intros. by apply spec_ret.
Qed.

(** [creds.valid] holds only of a credential with a token. *)
Lemma spec_creds_valid {R : exn -> Prop} c :
  spec (fun b => b = true -> token c <> PNone) R (creds_valid c).
Proof.
  unfold creds_valid. destruct (is_none (token c)) eqn:Ht; [by apply spec_ret|].
  eapply spec_bind; [apply spec_creds_expired|]. intros e _. apply spec_ret.
  intros _ H. by rewrite H in Ht.
Qed.

Lemma spec_creds_refresh c : spec (fun _ => True) is_exn (creds_refresh c).
Proof.
  unfold creds_refresh. destruct (_ || _); [by apply spec_raise|].
  eapply spec_bind; [apply spec_call_token_endpoint|]. intros g _.
  apply (spec_bind (fun _ => True)); [|intros; by apply spec_ret].
  destruct (g_expires_in g); [|by apply spec_ret].
  apply (spec_bind (fun _ => True)); [apply spec_utcnow | intros; by apply spec_ret].
Qed.

(** ** Frames: the google-auth calls other than the flow run no flow, and
    only [creds_refresh] calls the token endpoint. *)

Lemma frame_utcnow p : p EvClock = false -> frame p utcnow.
Proof. intros Hp. apply (frame_record p _ EvClock Hp). by left. Qed.

Lemma frame_print p tag args : p (EvPrint tag args) = false -> frame p (print tag args).
Proof. intros Hp. apply (frame_record p _ _ Hp). by left. Qed.

Lemma frame_execute p call : p (EvApi call) = false -> frame p (execute call).
Proof. intros Hp. apply (frame_record p _ _ Hp). by left. Qed.

Lemma frame_build p sv ver : p (EvBuild sv ver) = false -> frame p (build sv ver).
Proof. intros Hp. apply (frame_record p _ _ Hp). by left. Qed.

Lemma frame_read_token_file p : p EvReadToken = false -> frame p read_token_file.
Proof. intros Hp. apply (frame_record p _ _ Hp). intros E w. left. unfold read_token_file. by destruct (w_token_file w). Qed.

Lemma frame_from_authorized_user_file p scps :
  p EvReadToken = false -> p EvClock = false -> frame p (from_authorized_user_file scps).
Proof.
  intros H1 H2. unfold from_authorized_user_file.
  apply frame_bind; [by apply frame_read_token_file|]. intros info.
  apply frame_bind; [destruct (needs_clock info); [by apply frame_utcnow | apply frame_ret]|].
  intros. apply frame_lift.
Qed.

Lemma frame_creds_expired p c : p EvClock = false -> frame p (creds_expired c).
Proof.
  intros H. unfold creds_expired. destruct (expiry c); [|apply frame_ret].
  apply frame_bind; [by apply frame_utcnow|]. intros; apply frame_ret.
Qed.

Lemma frame_creds_valid p c : p EvClock = false -> frame p (creds_valid c).
Proof.
  intros H. unfold creds_valid. destruct (is_none _); [apply frame_ret|].
  apply frame_bind; [by apply frame_creds_expired|]. intros; apply frame_ret.
Qed.

Lemma frame_write_token_file p v : p (EvWriteToken v) = false -> frame p (write_token_file v).
Proof.
  intros Hp. apply (frame_record p _ _ Hp). intros E w. unfold write_token_file.
  destruct (env_writable E (idx w)); [by left | by right].
Qed.

Lemma frame_creds_refresh p c : p (EvRefresh c) = false -> p EvClock = false -> frame p (creds_refresh c).
Proof.
  intros Hr Hc. unfold creds_refresh. destruct (_ || _); [apply frame_raise|].
  apply frame_bind; [apply (frame_record _ _ (EvRefresh c)); [done | by left]|]. intros g.
  apply frame_bind; [destruct (g_expires_in g); [apply frame_bind; [by apply frame_utcnow | intros; apply frame_ret] | apply frame_ret]|].
  intros; apply frame_ret.
Qed.

Lemma frame_creds_refresh_flow c : frame is_flow (creds_refresh c).
Proof. by apply frame_creds_refresh. Qed.

(** ** The token file and the number of refresh requests *)

Lemma keeps_from_authorized_user_file scps : keeps_file (from_authorized_user_file scps).
Proof. unfold from_authorized_user_file. repeat keeps_comb. Qed.

Lemma keeps_creds_valid c : keeps_file (creds_valid c).
Proof. unfold creds_valid, creds_expired. repeat keeps_comb. Qed.

Lemma keeps_creds_expired c : keeps_file (creds_expired c).
Proof. unfold creds_expired. repeat keeps_comb. Qed.

Lemma keeps_creds_refresh c : keeps_file (creds_refresh c).
Proof. unfold creds_refresh. repeat keeps_comb. Qed.

Lemma keeps_installed_app_flow : keeps_file installed_app_flow.
Proof. unfold installed_app_flow. repeat keeps_comb. Qed.

(** [creds_refresh] makes at most one request, and exactly one when it
    succeeds. *)
Lemma creds_refresh_count c E w :
  (count_ev is_refresh (snd (creds_refresh c E w)) <= S (count_ev is_refresh w))%nat /\
  (forall c' w', creds_refresh c E w = (Ok c', w') -> count_ev is_refresh w' = S (count_ev is_refresh w)).
Proof.
  unfold creds_refresh. destruct (_ || _); [split; [simpl; lia | discriminate]|].
  unfold call_token_endpoint. run_m. destruct (env_token_endpoint E (idx w) c) as [g|e]; run_m; [|split; [count_solve | discriminate]].
  destruct (g_expires_in g); unfold utcnow; run_m; split; [count_solve | intros ? ? H; simplify_eq; count_solve | count_solve | intros ? ? H; simplify_eq; count_solve].
Qed.

#[export] Hint Resolve spec_creds_expired spec_creds_valid spec_creds_refresh
  spec_from_authorized_user_file : yt.

Ltac frame_leaf :=
  match goal with
  | |- frame _ (print _ _) => apply frame_print; reflexivity
  | |- frame _ utcnow => apply frame_utcnow; reflexivity
  | |- frame _ (from_authorized_user_file _) => apply frame_from_authorized_user_file; reflexivity
  | |- frame _ (creds_expired _) => apply frame_creds_expired; reflexivity
  | |- frame _ (creds_valid _) => apply frame_creds_valid; reflexivity
  | |- frame _ (write_token_file _) => apply frame_write_token_file; reflexivity
  | |- frame _ (creds_refresh _) => apply frame_creds_refresh; reflexivity
  | |- frame _ token_file_exists => intros ? ?; reflexivity
  | |- frame _ (execute _) => apply frame_execute; reflexivity
  | |- frame _ (build _ _) => apply frame_build; reflexivity
  | |- frame _ _ => solve [eauto with yt]
  end.

Ltac frame_solve := repeat (first [frame_comb | frame_leaf]).
