(* ===== verification/TokenManager.v ===== *)
(** * The credential manager of each script

    - [YtAuth.get_credentials] is [get_credentials] of [src/yt_auth.py]
      (lines 22-47): load [token.json] when it exists; when there is no
      credential or it is not valid, refresh it if it is expired and has
      a refresh token, otherwise run the browser flow; then save it.
    - [TestApi.load_credentials] is [load_credentials] of
      [src/test_api.py] (lines 93-122): the file must exist; an expired
      credential with a refresh token is refreshed and saved; a credential
      that is still not valid, and any failure, ends the process with
      [sys.exit(1)].

    The theorems are the behaviour the spec asks of the credential
    manager (section 8): a valid token is returned untouched, an expired
    one is refreshed once and saved, and a missing one with a failing
    flow is an error that creates no file; the refinement of the spec's
    [acquire] contract ([acquire_outcome]) by [get_credentials]; the
    round trip of the token file through [save_token]; and where the code
    departs from the spec: a failed refresh is not followed by the
    browser flow, and a token saved without a refresh token cannot be
    read back.  (A record granted fewer scopes is accepted as granting
    [SCOPES]: [from_info_scopes], the loader's own behaviour.)  The [..._witness] lemmas run the theorems on [ex_creds]. *)

From S2P Require Import Prelude PyString PyValue DateFormat Credentials Effects Hoare GoogleAuth.
From stdpp Require Import base list.
From Stdlib Require Import Ascii String ZArith Lia.

Local Open Scope string_scope.
Local Open Scope Z_scope.

Definition TOKEN_FILE : string := "token.json".

Module YtAuth.

(** [with open(TOKEN_FILE, "w") as token: token.write(creds.to_json());
  print(...)] *)
Definition save_token (c : creds) : M unit :=
write_token_file (to_json c);;
print "token saved" [PStr TOKEN_FILE].

(** The branch taken when there is no valid credential. *)
Definition obtain (cr : option creds) : M creds :=
match cr with
| Some c =>
    let! e := creds_expired c in
    if e && truthy (refresh_token c) then
      print "refreshing token" [];;
      creds_refresh c
    else
      print "opening browser login" [];;
      installed_app_flow
| None =>
    print "opening browser login" [];;
    installed_app_flow
end.

Definition get_credentials : M creds :=
let! present := token_file_exists in
let! cr := (if present then let! c := from_authorized_user_file SCOPES_val in mret (Some c)
            else mret None) in
let! ok := (match cr with Some c => creds_valid c | None => mret false end) in
match cr, ok with
| Some c, true => mret c
| _, _ =>
    let! c' := obtain cr in
    save_token c';;
    mret c'
end.

End YtAuth.

Module TestApi.

(** The [try] block of [load_credentials]. *)
Definition load_body : M creds :=
let! c := from_authorized_user_file SCOPES_val in
let! e := creds_expired c in
let! c := (if e && truthy (refresh_token c) then
             print "token expired, refreshing" [];;
             try_except
               (let! c' := creds_refresh c in
                print "token refreshed" [];;
                write_token_file (to_json c');;
                mret c')
               (fun _ => print "token refresh failed" [];; sys_exit 1)
           else mret c) in
let! v := creds_valid c in
if v then mret c
else print "invalid credentials" [];; sys_exit 1.

Definition load_credentials : M creds :=
let! present := token_file_exists in
if negb present then
  print "token file missing" [PStr TOKEN_FILE];;
  sys_exit 1
else
  try_except load_body (fun _ => print "credential load failed" [];; sys_exit 1).

End TestApi.

(** ** Lemmas *)

Lemma from_info_scopes now v scps c :
  from_authorized_user_info now v scps = Ok c -> scopes c = scps.
Proof.
  unfold from_authorized_user_info. destruct v; try discriminate.
  destruct (negb _); [discriminate|].
  intros H. apply res_bind_ok in H as [a [_ H]]. cbn in H. by injection H as <-.
Qed.

Lemma from_info_token_uri now v scps c :
  from_authorized_user_info now v scps = Ok c -> token_uri c = PStr TOKEN_ENDPOINT.
Proof.
  unfold from_authorized_user_info. destruct v; try discriminate.
  destruct (negb _); [discriminate|].
  intros H. apply res_bind_ok in H as [a [_ H]]. cbn in H. by injection H as <-.
Qed.

Section Loaded.
(** The token file holds a record [v] that loads as the credential [c]
    without reading the clock. *)
Context (E : env) (w : world) (v : pyval) (c : creds).
Hypothesis Hfile : w_token_file w = FJson v.
Hypothesis Hclock : needs_clock v = false.
Hypothesis Hload : from_authorized_user_info 0 v SCOPES_val = Ok c.

Lemma get_credentials_loaded :
  YtAuth.get_credentials E w =
  match creds_valid c E (record EvReadToken w) with
  | (Ok true, w1) => (Ok c, w1)
  | (Ok false, w1) => bind_m (YtAuth.obtain (Some c)) (fun c' => YtAuth.save_token c';; mret c') E w1
  | (Raise e, w1) => (Raise e, w1)
  end.
Proof.
  unfold YtAuth.get_credentials. rewrite bind_m_run. unfold token_file_exists.
  rewrite Hfile. simpl. rewrite bind_m_run, bind_m_run, (from_authorized_user_file_run v c) by done.
  simpl. rewrite bind_m_run. by destruct (creds_valid c E (record EvReadToken w)) as [[[]|] w1].
Qed.

(** C1. A stored token that is valid whenever the clock is read is
    returned as loaded: the file is read, the clock is read once for
    [creds.valid] (when there is an expiry), and nothing is refreshed,
    no browser flow is run and the file is not rewritten. *)
Theorem get_credentials_valid_token :
  token c <> PNone -> (forall i, valid_at (env_clock E i) c = true) ->
  YtAuth.get_credentials E w =
    (Ok c, match expiry c with
           | Some _ => record EvClock (record EvReadToken w)
           | None => record EvReadToken w
           end).
Proof.
  intros Ht Hv. rewrite get_credentials_loaded, creds_valid_run, is_none_false by done.
  destruct (expiry c); [by rewrite Hv | done].
Qed.

(** Refreshing the loaded credential succeeds with the grant [g]. *)
Lemma creds_refresh_ok g w1 :
  truthy (refresh_token c) = true -> client_id c <> PNone -> client_secret c <> PNone ->
  (forall i, env_token_endpoint E i c = Ok g) ->
  exists c' w2, creds_refresh c E w1 = (Ok c', w2) /\
    token c' = g_access_token g /\ scopes c' = SCOPES_val /\
    w_token_file w2 = w_token_file w1 /\
    w_trace w2 = (w_trace w1 ++ EvRefresh c :: if g_expires_in g is Some _ then [EvClock] else [])%list.
Proof.
  intros Hrt Hid Hsec Hg. unfold creds_refresh.
  rewrite (from_info_token_uri _ _ _ _ Hload), !is_none_false by (done || by destruct (refresh_token c)).
  simpl. rewrite bind_m_run. unfold call_token_endpoint. rewrite Hg, bind_m_run.
  destruct (g_expires_in g); simpl; eexists _, _;
    (split; [reflexivity|]); simpl; rewrite ?(from_info_scopes _ _ _ _ Hload); auto.
  rewrite <- app_assoc. auto.
Qed.

(** C2. A stored token that is expired whenever the clock is read, with
    a refresh token, is refreshed by exactly one call of the token
    endpoint; the new access token is returned and written to the file,
    with the scopes [SCOPES]; the browser flow is not run. *)
Theorem get_credentials_refresh g e :
  expiry c = Some e -> (forall i, expired_at (env_clock E i) c = true) ->
  truthy (refresh_token c) = true -> client_id c <> PNone -> client_secret c <> PNone ->
  (forall i, env_token_endpoint E i c = Ok g) -> (forall i, env_writable E i = true) ->
  exists c' w', YtAuth.get_credentials E w = (Ok c', w') /\
    token c' = g_access_token g /\ scopes c' = SCOPES_val /\
    w_token_file w' = FJson (to_json c') /\
    count_ev is_refresh w' = S (count_ev is_refresh w) /\
    count_ev is_flow w' = count_ev is_flow w /\
    count_ev is_write w' = S (count_ev is_write w).
Proof.
  intros He Hexp Hrt Hid Hsec Hg Hwr. rewrite get_credentials_loaded, creds_valid_run, He.
  assert (Hobt : forall w1, w_token_file w1 = w_token_file w ->
    exists c' w', bind_m (YtAuth.obtain (Some c)) (fun c' => YtAuth.save_token c';; mret c') E w1 = (Ok c', w') /\
      token c' = g_access_token g /\ scopes c' = SCOPES_val /\ w_token_file w' = FJson (to_json c') /\
      count_ev is_refresh w' = S (count_ev is_refresh w1) /\ count_ev is_flow w' = count_ev is_flow w1 /\
      count_ev is_write w' = S (count_ev is_write w1)).
  { intros w1 Hw1. unfold YtAuth.obtain. rewrite bind_m_run, bind_m_run, creds_expired_run, He, Hexp, Hrt.
    simpl. destruct (creds_refresh_ok g (record (EvPrint "refreshing token" []) (record EvClock w1)) Hrt Hid Hsec Hg)
      as (c' & w2 & Hr & Ht & Hs & Hf & Htr).
    rewrite bind_run. simpl. rewrite Hr. unfold YtAuth.save_token. rewrite !bind_run.
    unfold write_token_file. rewrite Hwr. simpl.
    exists c'. eexists. split; [reflexivity|]. do 3 (split; [done|]).
    unfold count_ev; simpl; rewrite Htr; simpl; rewrite !List.filter_app, !length_app.
    destruct (g_expires_in g); simpl; lia. }
  destruct (is_none (token c)).
  - edestruct (Hobt (record EvReadToken w)) as (c' & w' & Hrun & ? & ? & ? & Hr & Hf & Hw); [done|].
    rewrite Hrun. exists c', w'. rewrite !count_ev_record in Hr, Hf, Hw. simpl in *.
    repeat split; auto; lia.
  - unfold valid_at. rewrite Hexp, andb_false_r.
    edestruct (Hobt (record EvClock (record EvReadToken w))) as (c' & w' & Hrun & ? & ? & ? & Hr & Hf & Hw);
      [done|].
    rewrite Hrun. exists c', w'. rewrite !count_ev_record in Hr, Hf, Hw. simpl in *.
    repeat split; auto; lia.
Qed.
(** C21. [load_credentials] of [test_api.py] on an expired stored token
    with a refresh token, when the token endpoint grants a new token
    valid for more than the 225-second threshold: one refresh request,
    the new token is written to the file and returned; no exit. *)
Theorem load_credentials_refresh now g e s :
  (forall i, env_clock E i = now) -> expiry c = Some e -> e - REFRESH_THRESHOLD <= now ->
  truthy (refresh_token c) = true -> client_id c <> PNone -> client_secret c <> PNone ->
  (forall i, env_token_endpoint E i c = Ok g) -> g_access_token g <> PNone ->
  g_expires_in g = Some s -> 225 < s -> (forall i, env_writable E i = true) ->
  exists c' w', TestApi.load_credentials E w = (Ok c', w') /\
    token c' = g_access_token g /\ w_token_file w' = FJson (to_json c') /\
    count_ev is_refresh w' = S (count_ev is_refresh w) /\ count_ev is_flow w' = count_ev is_flow w.
Proof.
  intros Hnow He Hexp Hrt Hid Hsec Hg Htok Hs Hs225 Hwr.
  unfold TestApi.load_credentials. rewrite bind_m_run. unfold token_file_exists. rewrite Hfile. simpl.
  apply try_except_ok_ex. unfold TestApi.load_body.
  rewrite bind_m_run, (from_authorized_user_file_run v c) by done. run_m.
  rewrite creds_expired_run, He. unfold expired_at. rewrite He, Hnow, (proj2 (Z.leb_le _ _) Hexp), Hrt. run_m.
  unfold try_except, try_catch, creds_refresh.
  rewrite (from_info_token_uri _ _ _ _ Hload), !is_none_false by (done || by destruct (refresh_token c)).
  simpl. unfold call_token_endpoint. run_m. rewrite Hg. run_m. rewrite Hs. unfold utcnow. run_m.
  rewrite !Hnow. unfold write_token_file. rewrite Hwr. run_m. rewrite creds_valid_run, is_none_false by done. simpl.
  unfold valid_at, expired_at. simpl. rewrite Hnow, is_none_false by done.
  rewrite (proj2 (Z.leb_gt _ _)) by (unfold REFRESH_THRESHOLD, US_PER_SEC; lia). run_m.
  eexists _, _. split; [reflexivity|]. split; [done|]. split; [done|]. split; count_solve.
Qed.

End Loaded.

(** C3. Without a token file, when the browser flow fails, the failure
    is the result ([AuthError] of the spec) and no token file is
    created. *)
Theorem get_credentials_no_file_flow_fails E w e :
  w_token_file w = FAbsent -> (forall i, env_flow E i = Raise e) ->
  exists w', YtAuth.get_credentials E w = (Raise e, w') /\ w_token_file w' = FAbsent /\
    count_ev is_write w' = count_ev is_write w.
Proof.
  intros Hf Hflow. unfold YtAuth.get_credentials, token_file_exists. run_m.
  rewrite Hf. run_m. unfold YtAuth.obtain, print. run_m.
  unfold installed_app_flow, run_flow. rewrite Hflow. run_m.
  eexists. split; [reflexivity|]. split; [exact Hf|]. count_solve.
Qed.

Section RefreshFails.
Context (E : env) (w : world) (v : pyval) (c : creds).
Hypothesis Hfile : w_token_file w = FJson v.
Hypothesis Hclock : needs_clock v = false.
Hypothesis Hload : from_authorized_user_info 0 v SCOPES_val = Ok c.

(** C4. When the refresh of an expired token fails, [get_credentials]
    raises the refresh error: it does not fall back to the browser
    flow (the spec's step 3 says it should), and the token file is
    left as it was. *)
Theorem get_credentials_refresh_error_no_fallback e er :
  expiry c = Some e -> (forall i, expired_at (env_clock E i) c = true) ->
  truthy (refresh_token c) = true -> client_id c <> PNone -> client_secret c <> PNone ->
  (forall i, env_token_endpoint E i c = Raise er) ->
  exists w', YtAuth.get_credentials E w = (Raise er, w') /\
    count_ev is_flow w' = count_ev is_flow w /\ w_token_file w' = FJson v.
Proof.
  intros He Hexp Hrt Hid Hsec Hg. rewrite (get_credentials_loaded E w v c), creds_valid_run, He by done.
  assert (Hobt : forall w1, w_token_file w1 = w_token_file w ->
    exists w', bind_m (YtAuth.obtain (Some c)) (fun c' => YtAuth.save_token c';; mret c') E w1 = (Raise er, w') /\
      count_ev is_flow w' = count_ev is_flow w1 /\ w_token_file w' = w_token_file w).
  { intros w1 Hw1. unfold YtAuth.obtain. rewrite bind_m_run, bind_m_run, creds_expired_run, He, Hexp, Hrt.
    simpl. rewrite bind_run. simpl. unfold creds_refresh.
    rewrite (from_info_token_uri _ _ _ _ Hload), !is_none_false by (done || by destruct (refresh_token c)).
    simpl. rewrite bind_m_run. unfold call_token_endpoint. rewrite Hg. simpl.
    eexists. split; [reflexivity|]. split; [count_solve | simpl; congruence]. }
  destruct (is_none (token c)).
  - destruct (Hobt (record EvReadToken w)) as (w' & Hrun & Hf & Hw); [done|].
    rewrite Hrun. exists w'. rewrite !count_ev_record in Hf. simpl in *. split; [done | split; [lia | congruence]].
  - unfold valid_at. rewrite Hexp, andb_false_r.
    destruct (Hobt (record EvClock (record EvReadToken w))) as (w' & Hrun & Hf & Hw); [done|].
    rewrite Hrun. exists w'. rewrite !count_ev_record in Hf. simpl in *. split; [done | split; [lia | congruence]].
Qed.

End RefreshFails.

(** [save_token] on a writable file writes [to_json c] and prints. *)
Lemma save_token_run c E w :
  env_writable E (idx w) = true ->
  YtAuth.save_token c E w =
    (Ok tt, record (EvPrint "token saved" [PStr TOKEN_FILE])
              {| w_token_file := FJson (to_json c); w_trace := w_trace w ++ [EvWriteToken (to_json c)] |}).
Proof. intros Hw. unfold YtAuth.save_token, write_token_file. rewrite bind_run, Hw. reflexivity. Qed.

(** C6. What [save_token] writes, the next [from_authorized_user_file]
    reads back: the same token, refresh token, client id and secret and
    RAPT token, the scopes [SCOPES], and the expiry truncated to the whole
    second ([isoformat] writes the microseconds, the reader cuts them at
    the ["."]). *)
Theorem save_token_reload E w c e :
  expiry c = Some e -> dt_in_range e ->
  refresh_token c <> PNone -> client_id c <> PNone -> client_secret c <> PNone ->
  env_writable E (idx w) = true ->
  exists w1 c', YtAuth.save_token c E w = (Ok tt, w1) /\ w_token_file w1 = FJson (to_json c) /\
    from_authorized_user_file SCOPES_val E w1 = (Ok c', record EvReadToken w1) /\
    token c' = token c /\ refresh_token c' = refresh_token c /\
    client_id c' = client_id c /\ client_secret c' = client_secret c /\
    rapt_token c' = rapt_token c /\ scopes c' = SCOPES_val /\
    expiry c' = Some (e - e mod US_PER_SEC).
Proof.
  intros He Hr Hrt Hid Hsec Hw. rewrite save_token_run by done.
  destruct (token_record_roundtrip 0 c e He Hr Hrt Hid Hsec) as (c' & Hc' & Hrest).
  eexists _, c'. split; [reflexivity|]. split; [reflexivity|]. split; [|exact Hrest].
  apply (from_authorized_user_file_run (to_json c)); [reflexivity | by eapply needs_clock_to_json | exact Hc'].
Qed.

(** C7. A credential without a refresh token (the flow may return one)
    is saved without the key, and the next run of [get_credentials]
    fails with [ValueError] while loading the file: the saved token is
    never used and the browser flow is never reached. *)
Theorem save_token_no_refresh_token_breaks_next_run E w c :
  refresh_token c = PNone -> env_writable E (idx w) = true ->
  exists w1 w2, YtAuth.save_token c E w = (Ok tt, w1) /\
    YtAuth.get_credentials E w1 = (Raise ValueError, w2) /\ count_ev is_flow w2 = count_ev is_flow w1.
Proof.
  intros Hrt Hw. rewrite save_token_run by done. eexists _, _. split; [reflexivity|].
  unfold YtAuth.get_credentials, token_file_exists, from_authorized_user_file, read_token_file, record.
  run_m. rewrite needs_clock_no_refresh_token by done. run_m.
  rewrite token_record_no_refresh_token by done. run_m.
  split; [reflexivity|]. unfold count_ev. simpl. rewrite !List.filter_app, !length_app. simpl. lia.
Qed.

(** ** The contract of the spec's [acquire] (section 4.1)

    The outcomes the spec allows a credential manager, as a relation
    between the world before, the result and the world after: the stored
    credential, returned without touching the file or asking the token
    endpoint or the user; a refreshed credential (one refresh request, no
    flow), persisted; a credential from the browser flow (one flow, no
    refresh request), persisted; or a failure that leaves the file as it
    was, after at most one refresh request or flow. *)
Inductive acquire_outcome (w : world) : res creds -> world -> Prop :=
| acq_stored c w' :
    w_token_file w' = w_token_file w -> count_ev is_write w' = count_ev is_write w ->
    count_ev is_refresh w' = count_ev is_refresh w -> count_ev is_flow w' = count_ev is_flow w ->
    acquire_outcome w (Ok c) w'
| acq_refreshed c w' :
    w_token_file w' = FJson (to_json c) -> count_ev is_refresh w' = S (count_ev is_refresh w) ->
    count_ev is_flow w' = count_ev is_flow w -> acquire_outcome w (Ok c) w'
| acq_obtained c w' :
    w_token_file w' = FJson (to_json c) -> count_ev is_flow w' = S (count_ev is_flow w) ->
    count_ev is_refresh w' = count_ev is_refresh w -> acquire_outcome w (Ok c) w'
| acq_failed e w' :
    w_token_file w' = w_token_file w ->
    (count_ev is_refresh w' + count_ev is_flow w' <= S (count_ev is_refresh w + count_ev is_flow w))%nat ->
    acquire_outcome w (Raise e) w'.

(** [w0] is [w1] up to events that are not writes, refreshes or flows. *)
Definition quiet (w1 w0 : world) : Prop :=
  w_token_file w0 = w_token_file w1 /\ count_ev is_write w0 = count_ev is_write w1 /\
  count_ev is_refresh w0 = count_ev is_refresh w1 /\ count_ev is_flow w0 = count_ev is_flow w1.

Lemma quiet_refl w : quiet w w.
Proof. done. Qed.

Lemma quiet_record w1 w0 ev :
  is_write ev = false -> is_refresh ev = false -> is_flow ev = false -> quiet w1 w0 -> quiet w1 (record ev w0).
Proof. intros Hw Hr Hf (Hfile & H1 & H2 & H3). repeat split; [done | ..]; rewrite count_ev_record; rewrite ?Hw, ?Hr, ?Hf; lia. Qed.

Lemma quiet_trans w1 w0 w2 : quiet w1 w0 -> quiet w0 w2 -> quiet w1 w2.
Proof. unfold quiet. intuition congruence. Qed.

(** A computation that keeps the file and adds no write, refresh or flow
    goes from a world to a quiet one. *)
Lemma quiet_step {A} (c : M A) E w :
  keeps_file c -> frame is_write c -> frame is_refresh c -> frame is_flow c -> quiet w (snd (c E w)).
Proof. intros Hk H1 H2 H3. repeat split; [apply Hk | apply H1 | apply H2 | apply H3]. Qed.

Lemma acquire_outcome_quiet w1 w0 r w' : quiet w1 w0 -> acquire_outcome w0 r w' -> acquire_outcome w1 r w'.
Proof.
  intros (Hfile & H1 & H2 & H3) Ho. destruct Ho.
  - apply acq_stored; congruence.
  - apply acq_refreshed; congruence.
  - apply acq_obtained; congruence.
  - apply acq_failed; [congruence | lia].
Qed.

Lemma save_ret_run c E w :
  (YtAuth.save_token c;; mret c) E w =
    if env_writable E (idx w) then
      (Ok c, record (EvPrint "token saved" [PStr TOKEN_FILE])
               {| w_token_file := FJson (to_json c); w_trace := w_trace w ++ [EvWriteToken (to_json c)] |})
    else (Raise OSError, w).
Proof. unfold YtAuth.save_token, write_token_file. rewrite !bind_run. by destruct (env_writable E (idx w)). Qed.

(** The browser-flow branch of [get_credentials], then [save_token]. *)
Lemma flow_save_outcome E w0 r w' :
  bind_m (print "opening browser login" [];; installed_app_flow) (fun c' => YtAuth.save_token c';; mret c') E w0 =
    (r, w') -> acquire_outcome w0 r w'.
Proof.
  unfold installed_app_flow, run_flow. rewrite bind_m_run, bind_run, print_run. cbv beta iota zeta.
  destruct (env_flow E _) as [c|e]; [rewrite save_ret_run; destruct (env_writable E _)|];
    intros H; simplify_eq; [apply acq_obtained | apply acq_failed | apply acq_failed]; try done; count_solve.
Qed.

(** The refresh branch of [get_credentials], then [save_token]. *)
Lemma refresh_save_outcome E w0 c r w' :
  bind_m (print "refreshing token" [];; creds_refresh c) (fun c' => YtAuth.save_token c';; mret c') E w0 =
    (r, w') -> acquire_outcome w0 r w'.
Proof.
  rewrite bind_m_run, bind_run, print_run.
  set (w1 := record (EvPrint "refreshing token" []) w0).
  pose proof (keeps_creds_refresh c E w1) as Hk. pose proof (frame_creds_refresh_flow c E w1) as Hf.
  destruct (creds_refresh_count c E w1) as [Hle Heq].
  destruct (creds_refresh c E w1) as [[c'|e] w2] eqn:Hr; simpl in *.
  - specialize (Heq c' w2 eq_refl). rewrite save_ret_run. destruct (env_writable E (idx w2)); intros H; simplify_eq.
    + apply acq_refreshed; [done | |]; revert Heq Hf; unfold w1; count_solve.
    + apply acq_failed; [done|]. revert Hle Hf; unfold w1; count_solve.
  - intros H; simplify_eq. apply acq_failed; [done|]. revert Hle Hf; unfold w1; count_solve.
Qed.

Lemma obtain_save_outcome cr E w1 r w' :
  bind_m (YtAuth.obtain cr) (fun c' => YtAuth.save_token c';; mret c') E w1 = (r, w') -> acquire_outcome w1 r w'.
Proof.
  destruct cr as [c|]; [|apply flow_save_outcome].
  unfold YtAuth.obtain. rewrite bind_m_run, bind_m_run.
  pose proof (quiet_step (creds_expired c) E w1 (keeps_creds_expired c) (frame_creds_expired _ c eq_refl)
    (frame_creds_expired _ c eq_refl) (frame_creds_expired _ c eq_refl)) as Hq.
  destruct (creds_expired c E w1) as [[b|e] w2]; simpl in *.
  - intros H. apply (acquire_outcome_quiet _ _ _ _ Hq).
    destruct (b && truthy (refresh_token c)); [eapply refresh_save_outcome | eapply flow_save_outcome];
      rewrite bind_m_run; exact H.
  - intros H; simplify_eq. destruct Hq as (? & ? & ? & ?). apply acq_failed; [done | lia].
Qed.


Lemma spec_exn_or {A} (P : A -> Prop) (Q : exn -> Prop) c :
  spec P is_exn c -> spec P (fun e => is_exn e \/ Q e) c.
Proof. intros H. apply (spec_weaken _ _ _ _ _ H); auto. Qed.

Lemma spec_print_exit {A} (P : A -> Prop) (R : exn -> Prop) tag args code :
  R (SystemExit code) -> spec P R (print tag args;; sys_exit code).
Proof. intros H. apply (spec_mbind (fun _ => True)); [apply spec_print | intros; by apply spec_raise]. Qed.

(** The [try] block of [load_credentials] returns a credential with a
    token, or raises an exception or [SystemExit(1)]. *)
Lemma spec_load_body :
  spec (fun c => token c <> PNone) (fun e => is_exn e \/ e = SystemExit 1) TestApi.load_body.
Proof.
  unfold TestApi.load_body.
  apply (spec_bind (fun _ => True)); [apply spec_exn_or, spec_from_authorized_user_file|]. intros c _.
  apply (spec_bind (fun _ => True)); [apply spec_creds_expired|]. intros e _.
  apply (spec_bind (fun _ => True)).
  - destruct (e && truthy (refresh_token c)); [|by apply spec_ret].
    apply (spec_mbind (fun _ => True)); [apply spec_print|]. intros _ _.
    apply (spec_try_except _ is_exn).
    + apply (spec_bind (fun _ => True)); [apply spec_creds_refresh|]. intros c' _.
      apply (spec_mbind (fun _ => True)); [apply spec_print|]. intros _ _.
      apply (spec_mbind (fun _ => True)); [apply spec_write_token_file|]. intros _ _. by apply spec_ret.
    + intros. apply spec_print_exit. by right.
    + intros e' He' Hn. unfold is_exn in He'. congruence.
  - intros c1 _. apply (spec_bind (fun b => b = true -> token c1 <> PNone)); [apply spec_creds_valid|].
    intros [] Hb; [apply spec_ret; by apply Hb | apply spec_print_exit; by right].
Qed.

Lemma spec_load_credentials :
  spec (fun c => token c <> PNone) (fun e => e = SystemExit 1) TestApi.load_credentials.
Proof.
  unfold TestApi.load_credentials.
  apply (spec_bind (fun _ => True)); [apply spec_token_file_exists|]. intros [] _; simpl.
  - apply (spec_try_except _ _ _ _ _ spec_load_body).
    + intros. by apply spec_print_exit.
    + intros e [He|He] Hn; [unfold is_exn in He; congruence | done].
  - by apply spec_print_exit.
Qed.

(** C5. [load_credentials] of [test_api.py] ends in one of two ways: it
    returns a credential that has a token (it was found valid), or the
    process exits with status 1 ([SystemExit(1)]); no other exception
    escapes, whatever the token endpoint or the file system do, and the
    browser flow is never run. *)
Theorem load_credentials_exits_or_valid :
  spec (fun c => token c <> PNone) (fun e => e = SystemExit 1) TestApi.load_credentials /\
  frame is_flow TestApi.load_credentials.
Proof.
  split; [apply spec_load_credentials|].
  unfold TestApi.load_credentials, TestApi.load_body. frame_solve.
Qed.

(** ** Witnesses: the theorems at a concrete token file and environment *)

(** 2023-11-14T22:13:20Z *)
Definition ex_expiry : Z := 1700000000000000.

Definition ex_creds : creds :=
  {| token := PStr "ya29.token"; refresh_token := PStr "1//refresh"; token_uri := PStr TOKEN_ENDPOINT;
     client_id := PStr "client.apps.googleusercontent.com"; client_secret := PStr "secret";
     scopes := SCOPES_val; rapt_token := PNone; universe_domain := PStr DEFAULT_UNIVERSE_DOMAIN;
     account := PStr ""; expiry := Some ex_expiry |}.

Definition ex_grant : grant :=
  {| g_access_token := PStr "ya29.fresh"; g_refresh_token := None; g_expires_in := Some 3599 |}.

Definition ex_env (now : Z) (endpoint : res grant) (flow : res creds) : env :=
  {| env_clock := fun _ => now; env_token_endpoint := fun _ _ => endpoint; env_flow := fun _ => flow;
     env_build := fun _ _ _ => Ok tt; env_api := fun _ _ => Ok (PDict []); env_writable := fun _ => true |}.

Definition ex_world : world := {| w_token_file := FJson (to_json ex_creds); w_trace := [] |}.

Lemma get_credentials_valid_token_witness :
  YtAuth.get_credentials (ex_env 1699990000000000 (Raise RefreshError) (Raise FlowError)) ex_world =
  (Ok ex_creds, record EvClock (record EvReadToken ex_world)).
Proof.
  rewrite (get_credentials_valid_token _ _ (to_json ex_creds) ex_creds).
  Unshelve. all: first [discriminate | intros; vm_compute; reflexivity].
Defined.

Lemma get_credentials_refresh_witness :
  exists c' w', YtAuth.get_credentials (ex_env 1700000000000000 (Ok ex_grant) (Raise FlowError)) ex_world = (Ok c', w') /\
    token c' = PStr "ya29.fresh" /\ scopes c' = SCOPES_val /\ w_token_file w' = FJson (to_json c') /\
    count_ev is_refresh w' = S (count_ev is_refresh ex_world) /\
    count_ev is_flow w' = count_ev is_flow ex_world /\ count_ev is_write w' = S (count_ev is_write ex_world).
Proof.
  eapply (get_credentials_refresh _ _ (to_json ex_creds) ex_creds _ _ _ ex_grant ex_expiry).
  Unshelve. all: first [discriminate | intros; vm_compute; reflexivity].
Defined.

Lemma get_credentials_no_file_flow_fails_witness :
  exists w', YtAuth.get_credentials (ex_env 0 (Raise RefreshError) (Raise FlowError))
    {| w_token_file := FAbsent; w_trace := [] |} = (Raise FlowError, w') /\
    w_token_file w' = FAbsent /\ count_ev is_write w' = 0%nat.
Proof.
  eapply (get_credentials_no_file_flow_fails _ {| w_token_file := FAbsent; w_trace := [] |} FlowError).
  Unshelve. all: first [discriminate | intros; vm_compute; reflexivity].
Defined.

Lemma get_credentials_refresh_error_no_fallback_witness :
  exists w', YtAuth.get_credentials (ex_env 1700000000000000 (Raise RefreshError) (Ok ex_creds)) ex_world =
    (Raise RefreshError, w') /\ count_ev is_flow w' = count_ev is_flow ex_world /\
    w_token_file w' = FJson (to_json ex_creds).
Proof.
  eapply (get_credentials_refresh_error_no_fallback _ _ (to_json ex_creds) ex_creds _ _ _ ex_expiry).
  Unshelve. all: first [discriminate | intros; vm_compute; reflexivity].
Defined.

(** [ex_creds] with an expiry that has a fraction of a second. *)
Definition ex_creds_frac : creds :=
  {| token := token ex_creds; refresh_token := refresh_token ex_creds; token_uri := token_uri ex_creds;
     client_id := client_id ex_creds; client_secret := client_secret ex_creds; scopes := scopes ex_creds;
     rapt_token := rapt_token ex_creds; universe_domain := universe_domain ex_creds;
     account := account ex_creds; expiry := Some 1700000000123456 |}.

Lemma save_token_reload_witness :
  exists w1 c', YtAuth.save_token ex_creds_frac (ex_env 0 (Raise RefreshError) (Raise FlowError)) ex_world = (Ok tt, w1) /\
    w_token_file w1 = FJson (to_json ex_creds_frac) /\
    from_authorized_user_file SCOPES_val (ex_env 0 (Raise RefreshError) (Raise FlowError)) w1 = (Ok c', record EvReadToken w1) /\
    token c' = token ex_creds_frac /\ refresh_token c' = refresh_token ex_creds_frac /\
    client_id c' = client_id ex_creds_frac /\ client_secret c' = client_secret ex_creds_frac /\
    rapt_token c' = rapt_token ex_creds_frac /\ scopes c' = SCOPES_val /\
    expiry c' = Some 1700000000000000.
Proof.
  eapply (save_token_reload _ _ ex_creds_frac 1700000000123456).
  Unshelve. all: first [reflexivity | discriminate | unfold dt_in_range; vm_compute; split; discriminate].
Defined.

(** The flow returned [ex_creds] without its refresh token. *)
Definition ex_creds_no_rt : creds :=
  {| token := token ex_creds; refresh_token := PNone; token_uri := token_uri ex_creds;
     client_id := client_id ex_creds; client_secret := client_secret ex_creds; scopes := scopes ex_creds;
     rapt_token := rapt_token ex_creds; universe_domain := universe_domain ex_creds;
     account := account ex_creds; expiry := expiry ex_creds |}.

Lemma save_token_no_refresh_token_breaks_next_run_witness :
  exists w1 w2, YtAuth.save_token ex_creds_no_rt (ex_env 0 (Raise RefreshError) (Ok ex_creds))
      {| w_token_file := FAbsent; w_trace := [] |} = (Ok tt, w1) /\
    YtAuth.get_credentials (ex_env 0 (Raise RefreshError) (Ok ex_creds)) w1 = (Raise ValueError, w2) /\
    count_ev is_flow w2 = count_ev is_flow w1.
Proof. apply save_token_no_refresh_token_breaks_next_run; reflexivity. Defined.


Lemma load_credentials_refresh_witness :
  exists c' w', TestApi.load_credentials (ex_env 1700000000000000 (Ok ex_grant) (Raise FlowError)) ex_world = (Ok c', w') /\
    token c' = PStr "ya29.fresh" /\ w_token_file w' = FJson (to_json c') /\
    count_ev is_refresh w' = S (count_ev is_refresh ex_world) /\ count_ev is_flow w' = count_ev is_flow ex_world.
Proof.
  eapply (load_credentials_refresh _ _ (to_json ex_creds) ex_creds _ _ _ 1700000000000000 ex_grant ex_expiry 3599).
  Unshelve. all: first [discriminate | intros; reflexivity | vm_compute; reflexivity | lia | vm_compute; discriminate].
Defined.
