(* ===== verification/ChannelResolve.v ===== *)
(** * Resolving the channel handle: [get_channel_id_from_handle]

    [get_channel_id_from_handle(youtube, handle)] of [src/test_api.py]
    (lines 26-90), statement by statement:
    - the handle is cleaned: every ["@"] removed, then [strip()];
    - method 1 ([search_by_handle]): one [search.list] for ["@" + handle];
      when it has items, each item's channel is fetched with
      [channels.list(id=...)] ([match_item]) and returned when its
      [customUrl], or else its title, contains the lower-cased handle;
      when no item matches, the first result's channel is fetched again
      and returned if it exists ([first_result]);
    - method 2 ([by_username]): [channels.list(forUsername=...)] and its
      first item's id, or [None];
    - any [Exception] on the way is printed and turned into [None].

    The API answers are those of the [env] of [Effects]; a value that is
    not shaped as the code expects raises the exception Python raises
    ([KeyError], [TypeError], [AttributeError], [IndexError]), and the
    [except Exception] clause catches it. *)

From S2P Require Import Prelude PyString PyValue Credentials Effects Hoare GoogleAuth.
From stdpp Require Import base list.
From Stdlib Require Import Ascii String ZArith Lia.

Local Open Scope string_scope.
Local Open Scope Z_scope.

Module ChannelLookup.

(** [youtube.search().list(part="snippet", q=f"@{handle_clean}",
    type="channel", maxResults=10)] *)
Definition search_call (hc : string) : api_call :=
  {| call_service := "youtube"; call_resource := "search"; call_method := "list";
     call_params := [("part", PStr "snippet"); ("q", PStr ("@" ++ hc)); ("type", PStr "channel");
                     ("maxResults", PInt 10)] |}.

(** [youtube.channels().list(part="snippet", id=channel_id)] *)
Definition channel_call (channel_id : pyval) : api_call :=
  {| call_service := "youtube"; call_resource := "channels"; call_method := "list";
     call_params := [("part", PStr "snippet"); ("id", channel_id)] |}.

(** [youtube.channels().list(part="id,snippet", forUsername=handle_clean)] *)
Definition username_call (hc : string) : api_call :=
  {| call_service := "youtube"; call_resource := "channels"; call_method := "list";
     call_params := [("part", PStr "id,snippet"); ("forUsername", PStr hc)] |}.

(** [handle.replace("@", "").strip()] *)
Definition clean_handle (handle : string) : string := str_strip (str_replace_char "@" "" handle).

(** The body of the [for item in response.get("items", [])] loop. *)
Definition match_item (hc : string) (item : pyval) : M (option pyval) :=
  let! idd := lift (py_getkey item "id") in
  let! channel_id := lift (py_getkey idd "channelId") in
  let! channel_info := execute (channel_call channel_id) in
  let! has := lift (py_get channel_info "items" PNone) in
  if truthy has then
    let! its := lift (py_getkey channel_info "items") in
    let! it0 := lift (py_getidx its 0) in
    let! snippet := lift (py_getkey it0 "snippet") in
    let! custom_url := lift (py_get snippet "customUrl" (PStr "")) in
    let! title := lift (py_get snippet "title" (PStr "")) in
    let! by_url := (if truthy custom_url then
                      let! cu := lift (py_lower custom_url) in mret (str_contains (str_lower hc) cu)
                    else mret false) in
    if by_url then
      print "channel found" [title; custom_url];;
      mret (Some channel_id)
    else
      let! tl := lift (py_lower title) in
      if str_contains (str_lower hc) tl then
        print "channel found" [title];;
        mret (Some channel_id)
      else mret None
  else mret None.

(** The fallback after the loop: the first search result. *)
Definition first_result (response : pyval) : M (option pyval) :=
  let! has := lift (py_get response "items" PNone) in
  if truthy has then
    let! its := lift (py_getkey response "items") in
    let! it0 := lift (py_getidx its 0) in
    let! idd := lift (py_getkey it0 "id") in
    let! channel_id := lift (py_getkey idd "channelId") in
    let! channel_info := execute (channel_call channel_id) in
    let! has2 := lift (py_get channel_info "items" PNone) in
    if truthy has2 then
      let! its2 := lift (py_getkey channel_info "items") in
      let! it := lift (py_getidx its2 0) in
      let! sn := lift (py_getkey it "snippet") in
      let! title := lift (py_get sn "title" (PStr "")) in
      print "first result used" [title];;
      mret (Some channel_id)
    else mret None
  else mret None.

(** Method 1: the search by handle; [Some id] is a [return]. *)
Definition search_by_handle (hc : string) : M (option pyval) :=
  let! response := execute (search_call hc) in
  let! has := lift (py_get response "items" PNone) in
  if truthy has then
    let! items := lift (py_get response "items" (PList [])) in
    let! xs := lift (py_iter items) in
    let! o := for_until xs (match_item hc) in
    match o with
    | Some channel_id => mret (Some channel_id)
    | None => first_result response
    end
  else mret None.

(** Method 2: [forUsername]. *)
Definition by_username (hc : string) : M pyval :=
  let! response := execute (username_call hc) in
  let! has := lift (py_get response "items" PNone) in
  if truthy has then
    let! its := lift (py_getkey response "items") in
    let! it0 := lift (py_getidx its 0) in
    lift (py_getkey it0 "id")
  else mret PNone.

Definition get_channel_id_from_handle (handle : string) : M pyval :=
  try_except
    (let handle_clean := clean_handle handle in
     let! o := search_by_handle handle_clean in
     match o with
     | Some channel_id => mret channel_id
     | None => by_username handle_clean
     end)
    (fun _ => print "channel lookup error" [];; mret PNone).

End ChannelLookup.

(** ** Lemmas *)

Lemma spec_search_by_handle hc : spec (fun _ => True) is_exn (ChannelLookup.search_by_handle hc).
Proof.
  unfold ChannelLookup.search_by_handle, ChannelLookup.first_result, ChannelLookup.match_item. spec_exn.
Qed.

Lemma spec_by_username hc : spec (fun _ => True) is_exn (ChannelLookup.by_username hc).
Proof. unfold ChannelLookup.by_username. spec_exn. Qed.

#[export] Hint Resolve spec_search_by_handle spec_by_username : yt.

Lemma spec_get_channel_id_exn h : spec (fun _ => True) is_exn (ChannelLookup.get_channel_id_from_handle h).
Proof. unfold ChannelLookup.get_channel_id_from_handle. spec_exn. Qed.

#[export] Hint Resolve spec_get_channel_id_exn : yt.

(** The lookup only adds API requests and messages to the trace. *)
Lemma frame_get_channel_id p h :
  (forall call, p (EvApi call) = false) -> (forall tag args, p (EvPrint tag args) = false) ->
  frame p (ChannelLookup.get_channel_id_from_handle h).
Proof.
  intros Ha Hp. unfold ChannelLookup.get_channel_id_from_handle, ChannelLookup.search_by_handle,
    ChannelLookup.first_result, ChannelLookup.match_item, ChannelLookup.by_username.
  repeat (first [frame_comb | apply frame_execute, Ha | apply frame_print, Hp]).
Qed.

#[export] Hint Resolve frame_get_channel_id : yt.

(** C8. [get_channel_id_from_handle] never raises: every failure of the
    search, of the channel lookups or of the shape of an answer is caught
    and turned into [None]; and it only reads the API and prints: it
    refreshes no token, runs no browser flow and writes no file. *)
Theorem get_channel_id_never_raises h :
  spec (fun _ => True) (fun _ => False) (ChannelLookup.get_channel_id_from_handle h) /\
  frame is_refresh (ChannelLookup.get_channel_id_from_handle h) /\
  frame is_flow (ChannelLookup.get_channel_id_from_handle h) /\
  frame is_write (ChannelLookup.get_channel_id_from_handle h).
Proof.
  split; [|repeat split; apply frame_get_channel_id; done].
  apply (spec_try_except _ is_exn).
  - apply (spec_bind (fun _ => True)); [apply spec_search_by_handle|]. intros [] _; [by apply spec_ret | apply spec_by_username].
  - intros. apply (spec_mbind (fun _ => True)); [apply spec_print | intros; by apply spec_ret].
  - intros e He Hn. unfold is_exn in He. congruence.
Qed.

Section FirstItemMatches.
(** The search for the cleaned handle [hc] answers with items whose first
    one names the channel [cid]; the channel's first item has a
    [customUrl] [cu] that contains the lower-cased handle. *)
Context (E : env) (w : world) (h : string).
Context (resp_kvs : list (string * pyval)) (item idd cid : pyval) (rest : list pyval).
Context (ckvs skvs : list (string * pyval)) (it0 : pyval) (crest : list pyval) (cu : string).
Hypothesis Hsearch : forall i, env_api E i (ChannelLookup.search_call (ChannelLookup.clean_handle h)) = Ok (PDict resp_kvs).
Hypothesis Hitems : dict_lookup "items" resp_kvs = Some (PList (item :: rest)).
Hypothesis Hid : py_getkey item "id" = Ok idd.
Hypothesis Hcid : py_getkey idd "channelId" = Ok cid.
Hypothesis Hchan : forall i, env_api E i (ChannelLookup.channel_call cid) = Ok (PDict ckvs).
Hypothesis Hcitems : dict_lookup "items" ckvs = Some (PList (it0 :: crest)).
Hypothesis Hsnip : py_getkey it0 "snippet" = Ok (PDict skvs).
Hypothesis Hurl : dict_lookup "customUrl" skvs = Some (PStr cu).
Hypothesis Hne : cu <> "".
Hypothesis Hmatch : str_contains (str_lower (ChannelLookup.clean_handle h)) (str_lower cu) = true.

(** C9. When the first search result's channel has a [customUrl]
    containing the handle, [get_channel_id_from_handle] returns that
    channel's id after exactly two API requests (the search and the
    channel lookup) and one message. *)
Theorem get_channel_id_first_item_custom_url :
  ChannelLookup.get_channel_id_from_handle h E w =
    (Ok cid, {| w_token_file := w_token_file w;
                w_trace := w_trace w ++ [EvApi (ChannelLookup.search_call (ChannelLookup.clean_handle h));
                                         EvApi (ChannelLookup.channel_call cid);
                                         EvPrint "channel found" [default (PStr "") (dict_lookup "title" skvs); PStr cu]] |}).
Proof.
  unfold ChannelLookup.get_channel_id_from_handle. apply try_except_ok.
  unfold ChannelLookup.search_by_handle, ChannelLookup.match_item.
  repeat (progress (run_m; rewrite ?py_get_dict, ?Hsearch, ?Hitems, ?Hid, ?Hcid, ?Hchan, ?Hcitems, ?Hsnip, ?Hurl; simpl)).
  rewrite (proj2 (String.eqb_neq cu "") Hne). simpl. run_m. rewrite Hmatch. run_m.
  unfold record. simpl. by rewrite <- !app_assoc.
Qed.
End FirstItemMatches.

(** C10. When the search finds no items, [get_channel_id_from_handle]
    makes one more request, [channels.list(forUsername=...)], and when
    that finds nothing either it returns [None]: two requests, no
    exception. *)
Theorem get_channel_id_no_items_none E w h skvs ukvs :
  (forall i, env_api E i (ChannelLookup.search_call (ChannelLookup.clean_handle h)) = Ok (PDict skvs)) ->
  truthy (default PNone (dict_lookup "items" skvs)) = false ->
  (forall i, env_api E i (ChannelLookup.username_call (ChannelLookup.clean_handle h)) = Ok (PDict ukvs)) ->
  truthy (default PNone (dict_lookup "items" ukvs)) = false ->
  ChannelLookup.get_channel_id_from_handle h E w =
    (Ok PNone, {| w_token_file := w_token_file w;
                  w_trace := w_trace w ++ [EvApi (ChannelLookup.search_call (ChannelLookup.clean_handle h));
                                           EvApi (ChannelLookup.username_call (ChannelLookup.clean_handle h))] |}).
Proof.
  intros Hs Hsi Hu Hui. unfold ChannelLookup.get_channel_id_from_handle. apply try_except_ok.
  unfold ChannelLookup.search_by_handle, ChannelLookup.by_username.
  run_m. rewrite Hs. run_m. rewrite py_get_dict, Hsi. run_m. rewrite Hu. run_m. rewrite py_get_dict, Hui. run_m.
  unfold record. simpl. by rewrite <- !app_assoc.
Qed.

Lemma clean_handle_idem h : ChannelLookup.clean_handle (ChannelLookup.clean_handle h) = ChannelLookup.clean_handle h.
Proof.
  unfold ChannelLookup.clean_handle.
  rewrite (str_replace_char_id "@" "") by (apply str_forall_strip, str_replace_char_no_old).
  apply str_strip_idem.
Qed.

(** C11. Looking up a handle is looking up its cleaned form: cleaning
    (every ["@"] removed, then [strip()]) is idempotent, so
    ["@Daepa_ai"], [" Daepa_ai "] and ["Daepa_ai"] lead to the same
    requests and the same answer. *)
Theorem get_channel_id_clean_handle h :
  ChannelLookup.get_channel_id_from_handle (ChannelLookup.clean_handle h) = ChannelLookup.get_channel_id_from_handle h.
Proof. unfold ChannelLookup.get_channel_id_from_handle. by rewrite clean_handle_idem. Qed.

(** ** How many requests the lookup makes *)

Lemma match_item_calls hc item : at_most is_api 1 (ChannelLookup.match_item hc item).
Proof.
  unfold ChannelLookup.match_item.
  do 2 (apply at_most_frame_bind; [frame_solve | intros]).
  apply at_most_bind_frame; [apply at_most_execute | frame_solve].
Qed.

Lemma first_result_calls resp : at_most is_api 1 (ChannelLookup.first_result resp).
Proof.
  unfold ChannelLookup.first_result. apply at_most_frame_bind; [frame_solve | intros has].
  apply at_most_if; [|apply (at_most_weaken _ 0); [lia | apply at_most_frame; frame_solve]].
  do 4 (apply at_most_frame_bind; [frame_solve | intros]).
  apply at_most_bind_frame; [apply at_most_execute | frame_solve].
Qed.

Lemma by_username_calls hc : at_most is_api 1 (ChannelLookup.by_username hc).
Proof. unfold ChannelLookup.by_username. apply at_most_bind_frame; [apply at_most_execute | frame_solve]. Qed.

(** The search, one request per item, and the first-result fallback. *)
Lemma search_by_handle_calls hc resp items E w :
  env_api E (idx w) (ChannelLookup.search_call hc) = Ok resp ->
  py_get resp "items" (PList []) = Ok (PList items) ->
  (count_ev is_api (snd (ChannelLookup.search_by_handle hc E w)) <= count_ev is_api w + List.length items + 2)%nat.
Proof.
  intros Hs Hi. unfold ChannelLookup.search_by_handle. rewrite bind_m_run, execute_run, Hs. cbn iota beta.
  destruct resp as [| | | | |kvs]; try discriminate. run_m. simpl.
  destruct (truthy _); [|simpl; rewrite count_ev_record; simpl; lia].
  simpl in Hi. rewrite Hi. run_m. simpl.
  eapply Nat.le_trans; [apply (at_most_bind _ (List.length items * 1) 1)|].
  - by apply at_most_for_until, match_item_calls.
  - intros [cid|]; [apply (at_most_weaken _ 0); [lia | apply at_most_frame, frame_ret] | apply first_result_calls].
  - rewrite count_ev_record. simpl. lia.
Qed.


(** C28. The lookup makes at most [n + 3] API requests when the search
    answers [n] items: the search itself, one [channels.list] per item
    until one matches (the code does not stop at [maxResults=10] if the
    server sends more), one for the first-result fallback, and one
    [forUsername] request. *)
Theorem get_channel_id_request_bound h resp items E w :
  env_api E (idx w) (ChannelLookup.search_call (ChannelLookup.clean_handle h)) = Ok resp ->
  py_get resp "items" (PList []) = Ok (PList items) ->
  (count_ev is_api (snd (ChannelLookup.get_channel_id_from_handle h E w)) <=
    count_ev is_api w + List.length items + 3)%nat.
Proof.
  intros Hs Hi. unfold ChannelLookup.get_channel_id_from_handle, try_except, try_catch.
  pose proof (search_by_handle_calls _ _ _ E w Hs Hi) as Hb.
  match goal with |- context [match ?body E w with _ => _ end] =>
    assert (Hbody : (count_ev is_api (snd (body E w)) <= count_ev is_api w + List.length items + 3)%nat);
    [|destruct (body E w) as [[a|e] w1]] end.
  { rewrite bind_m_run. destruct (ChannelLookup.search_by_handle _ E w) as [[[cid|]|e] w1]; simpl in *; [lia | |lia].
    pose proof (by_username_calls (ChannelLookup.clean_handle h) E w1). lia. }
  { simpl in *; lia. }
  simpl in *.
  destruct (is_Exception e); simpl; [|lia]. run_m. rewrite count_ev_record. simpl. lia.
Qed.

(** ** Witnesses *)

Definition ex_lookup_env (api : api_call -> res pyval) : env :=
  {| env_clock := fun _ => 0; env_token_endpoint := fun _ _ => Raise RefreshError;
     env_flow := fun _ => Raise FlowError; env_build := fun _ _ _ => Ok tt;
     env_api := fun _ => api; env_writable := fun _ => true |}.

(** The example of the spec: the handle ["foo"], the first search result's
    channel has the custom URL ["@foo_ai"]. *)
Definition ex_foo_api (call : api_call) : res pyval :=
  if String.eqb (call_resource call) "search" then
    Ok (PDict [("kind", PStr "youtube#searchListResponse");
               ("items", PList [PDict [("id", PDict [("kind", PStr "youtube#channel"); ("channelId", PStr "UCfoo")])];
                                PDict [("id", PDict [("channelId", PStr "UCother")])]])])
  else Ok (PDict [("items", PList [PDict [("snippet", PDict [("title", PStr "Foo AI"); ("customUrl", PStr "@foo_ai")])]])]).

Lemma get_channel_id_first_item_custom_url_witness :
  ChannelLookup.get_channel_id_from_handle "foo" (ex_lookup_env ex_foo_api) {| w_token_file := FAbsent; w_trace := [] |} =
    (Ok (PStr "UCfoo"), {| w_token_file := FAbsent;
       w_trace := [EvApi (ChannelLookup.search_call "foo"); EvApi (ChannelLookup.channel_call (PStr "UCfoo"));
                   EvPrint "channel found" [PStr "Foo AI"; PStr "@foo_ai"]] |}).
Proof.
  rewrite (get_channel_id_first_item_custom_url _ _ "foo"
    [("kind", PStr "youtube#searchListResponse");
     ("items", PList [PDict [("id", PDict [("kind", PStr "youtube#channel"); ("channelId", PStr "UCfoo")])];
                      PDict [("id", PDict [("channelId", PStr "UCother")])]])]
    (PDict [("id", PDict [("kind", PStr "youtube#channel"); ("channelId", PStr "UCfoo")])])
    (PDict [("kind", PStr "youtube#channel"); ("channelId", PStr "UCfoo")]) (PStr "UCfoo")
    [PDict [("id", PDict [("channelId", PStr "UCother")])]]
    [("items", PList [PDict [("snippet", PDict [("title", PStr "Foo AI"); ("customUrl", PStr "@foo_ai")])]])]
    [("title", PStr "Foo AI"); ("customUrl", PStr "@foo_ai")]
    (PDict [("snippet", PDict [("title", PStr "Foo AI"); ("customUrl", PStr "@foo_ai")])]) [] "@foo_ai");
    first [discriminate | intros; vm_compute; reflexivity].
Defined.

Lemma get_channel_id_no_items_none_witness :
  ChannelLookup.get_channel_id_from_handle "Daepa_ai" (ex_lookup_env (fun _ => Ok (PDict [("items", PList [])])))
    {| w_token_file := FAbsent; w_trace := [] |} =
    (Ok PNone, {| w_token_file := FAbsent;
       w_trace := [EvApi (ChannelLookup.search_call "Daepa_ai"); EvApi (ChannelLookup.username_call "Daepa_ai")] |}).
Proof.
  rewrite (get_channel_id_no_items_none _ _ "Daepa_ai" [("items", PList [])] [("items", PList [])]);
    first [reflexivity | intros; vm_compute; reflexivity].
Defined.

(** A search whose two results are other channels: every request of the
    lookup is made, five in all. *)
Definition ex_other_api (call : api_call) : res pyval :=
  if String.eqb (call_resource call) "search" then
    Ok (PDict [("items", PList [PDict [("id", PDict [("channelId", PStr "UCa")])];
                                PDict [("id", PDict [("channelId", PStr "UCb")])]])])
  else Ok (PDict [("items", PList [PDict [("id", PStr "UCa");
                                          ("snippet", PDict [("title", PStr "Other"); ("customUrl", PStr "@other")])]])]).

Lemma get_channel_id_request_bound_witness :
  (count_ev is_api (snd (ChannelLookup.get_channel_id_from_handle "foo" (ex_lookup_env ex_other_api)
     {| w_token_file := FAbsent; w_trace := [] |})) <= 0 + 2 + 3)%nat.
Proof.
  apply (get_channel_id_request_bound "foo" (PDict [("items", PList [PDict [("id", PDict [("channelId", PStr "UCa")])];
                                PDict [("id", PDict [("channelId", PStr "UCb")])]])])
    [PDict [("id", PDict [("channelId", PStr "UCa")])]; PDict [("id", PDict [("channelId", PStr "UCb")])]]);
    vm_compute; reflexivity.
Defined.
