(* ===== verification/Probes.v ===== *)
(** * The API probes of both scripts

    - [TestApiProbes.test_youtube_data_api] is [test_youtube_data_api] of
      [src/test_api.py] (lines 125-209): resolve the channel
      ([resolve_channel]: the handle lookup of [ChannelResolve], then
      [mine=True]), fetch its statistics, list its recent videos; the
      [except] clauses turn an [HttpError] or any other [Exception] into
      [None] (the two clauses after them are never reached);
    - [TestApiProbes.test_youtube_analytics_api] is
      [test_youtube_analytics_api] (lines 212-280): the daily report over
      the last seven days and the overall report, [True] on success,
      [False] on any [Exception];
    - [YtAuthProbes.test_youtube_data_api] and
      [YtAuthProbes.test_youtube_analytics_api] are the probes of
      [src/yt_auth.py] (lines 50-90), which catch nothing.

    Printing is an event [EvPrint tag args]: the tag names the message,
    [args] are the values the f-string interpolates; a message whose
    formatting can fail ([" | ".join], [f"{v:,}"], [v / 60]) computes the
    text first, with the exception Python raises. *)

From S2P Require Import Prelude PyString PyValue Dates DateFormat Credentials Effects Hoare GoogleAuth ChannelResolve.
From stdpp Require Import base list.
From Stdlib Require Import Ascii String ZArith Lia.

Local Open Scope string_scope.
Local Open Scope Z_scope.

(** [date - timedelta(days=n)] as [date + timedelta(days=-n)] on
    ordinals: [OverflowError] outside [1 .. MAXORDINAL]. *)
Definition date_add_days (o days : Z) : res Z :=
  let o' := o + days in
  if (0 <? o') && (o' <=? MAXORDINAL) then Ok o' else Raise OverflowError.

(** [if e.resp.status == 403: ... elif e.resp.status == 401: ...] *)
Definition http_hint (e : exn) : M unit :=
  match e with
  | HttpError st =>
      if Z.eqb st 403 then print "forbidden or quota exceeded" []
      else if Z.eqb st 401 then print "authentication failed" []
      else mret tt
  | _ => mret tt
  end.

Module TestApiProbes.

(** [CHANNEL_HANDLE] *)
Definition CHANNEL_HANDLE : string := "Daepa_ai".

Definition youtube_call (resource : string) (params : list (string * pyval)) : api_call :=
  {| call_service := "youtube"; call_resource := resource; call_method := "list"; call_params := params |}.

(** [youtube.channels().list(part="snippet,statistics", mine=True)] *)
Definition mine_call : api_call :=
  youtube_call "channels" [("part", PStr "snippet,statistics"); ("mine", PBool true)].

(** [youtube.channels().list(part="snippet,statistics", id=channel_id)] *)
Definition stats_call (channel_id : pyval) : api_call :=
  youtube_call "channels" [("part", PStr "snippet,statistics"); ("id", channel_id)].

(** [youtube.search().list(part="snippet", channelId=channel_id,
    type="video", maxResults=5, order="date")] *)
Definition videos_call (channel_id : pyval) : api_call :=
  youtube_call "search" [("part", PStr "snippet"); ("channelId", channel_id); ("type", PStr "video");
                         ("maxResults", PInt 5); ("order", PStr "date")].

(** Lines 135-151: [inl id] goes on with the channel [id], [inr v] is the
    [return v] of line 149. *)
Definition resolve_channel (channel_id : pyval) : M (pyval + pyval) :=
  if negb (truthy channel_id) then
    print "resolving channel handle" [PStr CHANNEL_HANDLE];;
    let! cid := ChannelLookup.get_channel_id_from_handle CHANNEL_HANDLE in
    if negb (truthy cid) then
      print "no channel id, trying mine" [];;
      let! response := execute mine_call in
      let! has := lift (py_get response "items" PNone) in
      if truthy has then
        let! its := lift (py_getkey response "items") in
        let! it0 := lift (py_getidx its 0) in
        let! mine := lift (py_getkey it0 "id") in
        mret (inl mine)
      else
        print "no channel info" [];;
        mret (inr (PBool false))
    else
      print "channel id" [cid];;
      mret (inl cid)
  else mret (inl channel_id).

(** The body of [for item in response.get("items", [])], lines 166-171. *)
Definition print_stats (item : pyval) : M unit :=
  let! sn := lift (py_getkey item "snippet") in
  let! title := lift (py_getkey sn "title") in
  let! stats := lift (py_getkey item "statistics") in
  print "channel name" [title];;
  let! subs := lift (py_get stats "subscriberCount" (PStr "N/A")) in
  print "subscribers" [subs];;
  let! views := lift (py_get stats "viewCount" (PStr "N/A")) in
  print "views" [views];;
  let! videos := lift (py_get stats "videoCount" (PStr "N/A")) in
  print "videos" [videos].

(** The [try] block, lines 132-187. *)
Definition data_body (channel_id : pyval) : M pyval :=
  build "youtube" "v3";;
  let! r := resolve_channel channel_id in
  match r with
  | inr v => mret v
  | inl cid =>
      print "channel info test" [];;
      let! response := execute (stats_call cid) in
      let! has := lift (py_get response "items" PNone) in
      if negb (truthy has) then
        print "no channel info" [];;
        mret (PBool false)
      else
        let! items := lift (py_get response "items" (PList [])) in
        let! xs := lift (py_iter items) in
        for_each xs print_stats;;
        print "recent videos test" [];;
        let! videos_response := execute (videos_call cid) in
        let! vitems := lift (py_get videos_response "items" (PList [])) in
        let! video_count := lift (py_len vitems) in
        print "recent videos found" [PInt video_count];;
        print "data api ok" [];;
        mret cid
  end.

(** The four [except] clauses, lines 189-209, in order. *)
Definition data_handlers : list (clause pyval) :=
  [(is_HttpError, fun e => print "data api error" [];; http_hint e;; mret PNone);
   (is_Exception, fun _ => print "unexpected error" [];; mret PNone);
   (is_HttpError, fun e => print "data api error" [];; http_hint e;; mret (PBool false));
   (is_Exception, fun _ => print "unexpected error" [];; mret (PBool false))].

Definition test_youtube_data_api (channel_id : pyval) : M pyval :=
  print "rule" [];;
  print "data api test" [];;
  print "rule" [];;
  try_clauses (data_body channel_id) data_handlers.

(** [analytics.reports().query(ids=channel_param, startDate=...,
    endDate=..., metrics=..., dimensions="day", sort="day")] *)
Definition daily_call (channel_param start_date end_date : string) : api_call :=
  {| call_service := "youtubeAnalytics"; call_resource := "reports"; call_method := "query";
     call_params := [("ids", PStr channel_param); ("startDate", PStr start_date); ("endDate", PStr end_date);
                     ("metrics", PStr "views,estimatedMinutesWatched,averageViewDuration");
                     ("dimensions", PStr "day"); ("sort", PStr "day")] |}.

(** The overall report, lines 254-259. *)
Definition overall_call (channel_param start_date end_date : string) : api_call :=
  {| call_service := "youtubeAnalytics"; call_resource := "reports"; call_method := "query";
     call_params := [("ids", PStr channel_param); ("startDate", PStr start_date); ("endDate", PStr end_date);
                     ("metrics", PStr "views,estimatedMinutesWatched,subscribersGained")] |}.

(** [f"channel=={channel_id}" if channel_id else "channel==MINE"] *)
Definition channel_param (channel_id : pyval) : string :=
  if truthy channel_id then "channel==" ++ py_str channel_id else "channel==MINE".

(** The daily rows, lines 238-250. *)
Definition print_daily (response : pyval) : M unit :=
  let! ch := lift (py_get response "columnHeaders" (PList [])) in
  let! hs := lift (py_iter ch) in
  let! column_headers := lift (mapM (fun hd => py_getkey hd "name") hs) in
  let! rows := lift (py_get response "rows" (PList [])) in
  if negb (truthy rows) then print "no data" []
  else
    let! n := lift (py_len rows) in
    print "days of data" [PInt n];;
    let! cols := lift (py_join " | " column_headers) in
    print "columns" [PStr cols];;
    print "rule" [];;
    let! first5 := lift (py_take 5 rows) in
    let! rs := lift (py_iter first5) in
    for_each rs (fun row => let! vs := lift (py_iter row) in print "row" vs);;
    let! n' := lift (py_len rows) in
    if 5 <? n' then print "more rows" [PInt (n' - 5)] else mret tt.

(** The overall figures, lines 261-266. *)
Definition print_overall (overall_response : pyval) : M unit :=
  let! has := lift (py_get overall_response "rows" PNone) in
  if truthy has then
    let! rws := lift (py_getkey overall_response "rows") in
    let! overall_data := lift (py_getidx rws 0) in
    let! v0 := lift (py_getidx overall_data 0) in
    let! total := lift (py_format_comma v0) in
    print "total views" [PStr total];;
    let! l := lift (py_len overall_data) in
    let! minutes := (if 1 <? l then
                       let! v1 := lift (py_getidx overall_data 1) in
                       let! _ := lift (py_number v1) in
                       mret v1
                     else mret (PInt 0)) in
    print "watch time" [minutes];;
    let! l2 := lift (py_len overall_data) in
    let! subs := (if 2 <? l2 then lift (py_getidx overall_data 2) else mret (PStr "N/A")) in
    print "new subscribers" [subs]
  else mret tt.

(** The [try] block, lines 219-269. *)
Definition analytics_body (channel_id : pyval) : M bool :=
  build "youtubeAnalytics" "v2";;
  let cp := channel_param channel_id in
  print "last 7 days test" [];;
  let! now := utcnow in
  let end_date := date_ord now in
  let! start_date := lift (date_add_days end_date (-7)) in
  let! response := execute (daily_call cp (isoformat_date start_date) (isoformat_date end_date)) in
  print_daily response;;
  print "overall stats test" [];;
  let! overall_response := execute (overall_call cp (isoformat_date start_date) (isoformat_date end_date)) in
  print_overall overall_response;;
  print "analytics api ok" [];;
  mret true.

Definition analytics_handlers : list (clause bool) :=
  [(is_HttpError, fun e => print "analytics api error" [];; http_hint e;; mret false);
   (is_Exception, fun _ => print "unexpected error" [];; mret false)].

Definition test_youtube_analytics_api (channel_id : pyval) : M bool :=
  print "rule" [];;
  print "analytics api test" [];;
  print "rule" [];;
  try_clauses (analytics_body channel_id) analytics_handlers.

End TestApiProbes.

Module YtAuthProbes.

(** [youtube.channels().list(part="snippet,statistics", mine=True)] *)
Definition mine_call : api_call :=
  {| call_service := "youtube"; call_resource := "channels"; call_method := "list";
     call_params := [("part", PStr "snippet,statistics"); ("mine", PBool true)] |}.

(** The body of the loop, lines 61-67. *)
Definition print_item (item : pyval) : M unit :=
  let! sn := lift (py_getkey item "snippet") in
  let! title := lift (py_getkey sn "title") in
  let! stats := lift (py_getkey item "statistics") in
  print "channel name" [title];;
  let! subs := lift (py_get stats "subscriberCount" PNone) in
  print "subscribers" [subs];;
  let! views := lift (py_get stats "viewCount" PNone) in
  print "views" [views];;
  let! videos := lift (py_get stats "videoCount" PNone) in
  print "videos" [videos];;
  print "rule" [].

Definition test_youtube_data_api : M unit :=
  build "youtube" "v3";;
  let! response := execute mine_call in
  let! items := lift (py_get response "items" (PList [])) in
  let! xs := lift (py_iter items) in
  for_each xs print_item.

(** [analytics.reports().query(ids="channel==MINE", ...)], lines 77-84. *)
Definition report_call (start_date end_date : string) : api_call :=
  {| call_service := "youtubeAnalytics"; call_resource := "reports"; call_method := "query";
     call_params := [("ids", PStr "channel==MINE"); ("startDate", PStr start_date); ("endDate", PStr end_date);
                     ("metrics", PStr "views,estimatedMinutesWatched,averageViewDuration");
                     ("dimensions", PStr "day"); ("sort", PStr "day")] |}.

Definition test_youtube_analytics_api : M unit :=
  build "youtubeAnalytics" "v2";;
  let! now := utcnow in
  let end_date := date_ord now in
  let! start_date := lift (date_add_days end_date (-7)) in
  let! response := execute (report_call (isoformat_date start_date) (isoformat_date end_date)) in
  print "last 7 days" [];;
  let! ch := lift (py_get response "columnHeaders" (PList [])) in
  let! hs := lift (py_iter ch) in
  let! column_headers := lift (mapM (fun hd => py_getkey hd "name") hs) in
  let! cols := lift (py_join " | " column_headers) in
  print "columns" [PStr cols];;
  let! rows := lift (py_get response "rows" (PList [])) in
  let! rs := lift (py_iter rows) in
  for_each rs (fun row => let! vs := lift (py_iter row) in print "row" vs).

End YtAuthProbes.

(** ** Lemmas *)

Lemma mapM_exn {A B} (f : A -> res B) l :
  (forall x, raises_exception (f x)) -> raises_exception (mapM f l).
Proof.
  intros Hf e. induction l as [|x r IH]; cbn; [discriminate|].
  destruct (f x) eqn:Hx; cbn; [|intros H; simplify_eq; by apply (Hf x)].
  destruct (mapM f r); cbn; [discriminate | intros H; simplify_eq; auto].
Qed.

Lemma date_add_days_exn o d : raises_exception (date_add_days o d).
Proof. intros e. unfold date_add_days. case_match; intros Hr; simplify_eq; done. Qed.

Lemma spec_http_hint {R : exn -> Prop} e : spec (fun _ => True) R (http_hint e).
Proof.
  unfold http_hint. destruct e; try by apply spec_ret.
  repeat case_match; first [apply spec_print | by apply spec_ret].
Qed.

#[export] Hint Resolve date_add_days_exn spec_http_hint : yt.
#[export] Hint Extern 2 (raises_exception (mapM _ _)) => apply mapM_exn; intros : yt.

Lemma spec_resolve_channel c : spec (fun _ => True) is_exn (TestApiProbes.resolve_channel c).
Proof. unfold TestApiProbes.resolve_channel. spec_exn. Qed.

#[export] Hint Resolve spec_resolve_channel : yt.

Lemma spec_data_body c : spec (fun _ => True) is_exn (TestApiProbes.data_body c).
Proof. unfold TestApiProbes.data_body, TestApiProbes.print_stats. spec_exn. Qed.

Lemma spec_analytics_body c : spec (fun _ => True) is_exn (TestApiProbes.analytics_body c).
Proof. unfold TestApiProbes.analytics_body, TestApiProbes.print_daily, TestApiProbes.print_overall. spec_exn. Qed.

(** The [except] clauses of both probes of [test_api.py] handle every
    [Exception] without raising. *)
Ltac probe_handlers :=
  match goal with
  | |- forall e k, is_Exception e = true -> handler _ e = Some k -> _ =>
      intros e k He; simpl; destruct (is_HttpError e); rewrite ?He; intros Hk; simplify_eq; spec_exn
  | |- forall e, is_Exception e = true -> handler _ e <> None =>
      intros e He; simpl; destruct (is_HttpError e); rewrite ?He; discriminate
  end.

Lemma spec_test_youtube_data_api c :
  spec (fun _ => True) (fun _ => False) (TestApiProbes.test_youtube_data_api c).
Proof.
  unfold TestApiProbes.test_youtube_data_api. spec_exn.
  apply spec_try_never_raises; [apply spec_data_body | probe_handlers | probe_handlers].
Qed.

Lemma spec_test_youtube_analytics_api c :
  spec (fun _ => True) (fun _ => False) (TestApiProbes.test_youtube_analytics_api c).
Proof.
  unfold TestApiProbes.test_youtube_analytics_api. spec_exn.
  apply spec_try_never_raises; [apply spec_analytics_body | probe_handlers | probe_handlers].
Qed.

(** The data probe adds only API requests, messages and the build of the
    YouTube client to the trace. *)
Lemma frame_test_youtube_data_api p c :
  (forall call, p (EvApi call) = false) -> (forall t a, p (EvPrint t a) = false) -> p (EvBuild "youtube" "v3") = false ->
  frame p (TestApiProbes.test_youtube_data_api c).
Proof.
  intros Ha Hp Hb. unfold TestApiProbes.test_youtube_data_api, TestApiProbes.data_body, TestApiProbes.resolve_channel,
    TestApiProbes.print_stats, TestApiProbes.data_handlers, http_hint.
  repeat first [frame_comb | apply frame_print, Hp | apply frame_execute, Ha | apply frame_build, Hb
    | apply frame_get_channel_id; [exact Ha | exact Hp]].
Qed.

(** C12. [test_youtube_data_api] of [test_api.py] never raises: each
    failure is caught and reported (as [None]); it refreshes no token,
    runs no browser flow and writes no file. *)
Theorem data_probe_never_raises c :
  spec (fun _ => True) (fun _ => False) (TestApiProbes.test_youtube_data_api c) /\
  frame is_refresh (TestApiProbes.test_youtube_data_api c) /\
  frame is_flow (TestApiProbes.test_youtube_data_api c) /\
  frame is_write (TestApiProbes.test_youtube_data_api c).
Proof.
  split; [apply spec_test_youtube_data_api|].
  repeat split; apply frame_test_youtube_data_api; intros; reflexivity.
Qed.

(** C13. [test_youtube_analytics_api] never raises: it returns [True]
    when both reports were fetched and printed, and [False] after any
    [Exception] (an [HttpError], a malformed report, a date out of
    range); it refreshes no token, runs no flow and writes no file. *)
Theorem analytics_probe_never_raises c :
  spec (fun _ => True) (fun _ => False) (TestApiProbes.test_youtube_analytics_api c) /\
  frame is_refresh (TestApiProbes.test_youtube_analytics_api c) /\
  frame is_flow (TestApiProbes.test_youtube_analytics_api c) /\
  frame is_write (TestApiProbes.test_youtube_analytics_api c).
Proof.
  split; [apply spec_test_youtube_analytics_api|].
  - unfold TestApiProbes.test_youtube_analytics_api, TestApiProbes.analytics_body, TestApiProbes.print_daily,
      TestApiProbes.print_overall, TestApiProbes.analytics_handlers, http_hint.
    repeat split; frame_solve.
Qed.

(** C14. The last two [except] clauses of [test_youtube_data_api]
    (lines 200-209, which would return [False]) are dead code: every
    exception they could catch is caught by the two clauses before them,
    which return [None]. *)
Theorem data_probe_dead_handlers e :
  handler TestApiProbes.data_handlers e = handler (take 2 TestApiProbes.data_handlers) e.
Proof.
  apply (handler_after_catch_all [_]).
  repeat constructor; simpl; intros e' H; [by destruct e' | done].
Qed.

(** C26. An [HttpError] anywhere in the data probe's [try] block is
    handled by the first [except] clause: the probe returns [None] (not
    [False]), after printing the error and, for the statuses 403 and 401,
    the matching hint, and it does nothing else. *)
Theorem data_probe_http_error_none c E w st w1 :
  TestApiProbes.data_body c E
    (record (EvPrint "rule" []) (record (EvPrint "data api test" []) (record (EvPrint "rule" []) w))) =
    (Raise (HttpError st), w1) ->
  TestApiProbes.test_youtube_data_api c E w =
    (Ok PNone, {| w_token_file := w_token_file w1;
                  w_trace := (w_trace w1 ++ [EvPrint "data api error" []] ++
                    (if st =? 403 then [EvPrint "forbidden or quota exceeded" []]
                     else if st =? 401 then [EvPrint "authentication failed" []] else []))%list |}).
Proof.
  intros Hb. unfold TestApiProbes.test_youtube_data_api, try_clauses. run_m. rewrite Hb. simpl.
  unfold http_hint. destruct (st =? 403), (st =? 401); simpl; run_m; unfold record; simpl;
    by rewrite <- ?app_assoc, ?app_nil_r; destruct w1.
Qed.

(** An item of a [channels.list] answer that [print_stats] prints without
    an exception: a snippet with a title, and statistics that are a dict. *)
Definition stats_item_ok (item : pyval) : bool :=
  match py_getkey item "snippet" ≫= fun sn => py_getkey sn "title" with Ok _ => true | Raise _ => false end &&
  match py_getkey item "statistics" with Ok (PDict _) => true | _ => false end.

Lemma print_stats_ok item E w :
  stats_item_ok item = true ->
  exists w', TestApiProbes.print_stats item E w = (Ok tt, w') /\ api_calls w' = api_calls w /\
    w_token_file w' = w_token_file w.
Proof.
  unfold stats_item_ok, TestApiProbes.print_stats. intros Hok.
  destruct (py_getkey item "snippet") as [sn|] eqn:Hsn; [|done]. cbn in Hok.
  destruct (py_getkey sn "title") as [t|] eqn:Ht; [|done].
  destruct (py_getkey item "statistics") as [[| | | | |skvs]|] eqn:Hst; try done.
  repeat (progress (run_m; rewrite ?Hsn, ?Ht, ?Hst)).
  eexists. split; [reflexivity|]. rewrite !api_calls_record. simpl. by rewrite !app_nil_r.
Qed.

Lemma for_each_print_stats_ok its E w :
  Forall (fun it => stats_item_ok it = true) its ->
  exists w', for_each its TestApiProbes.print_stats E w = (Ok tt, w') /\ api_calls w' = api_calls w /\
    w_token_file w' = w_token_file w.
Proof.
  intros Hall. revert w. induction Hall as [|it r Hit _ IH]; intros w; [by eexists|].
  destruct (print_stats_ok it E w Hit) as (w1 & H1 & Ha1 & Hf1). destruct (IH w1) as (w2 & H2 & Ha2 & Hf2).
  exists w2. cbn [for_each]. rewrite bind_run, H1. split; [exact H2 | split; congruence].
Qed.

Lemma clean_channel_handle : ChannelLookup.clean_handle TestApiProbes.CHANNEL_HANDLE = "Daepa_ai".
Proof. vm_compute. reflexivity. Qed.

Section MineFallback.
(** The API answers the same whatever was asked before ([api]); the
    search for the handle and [forUsername] find nothing; [mine=True]
    finds the channel [cid], whose statistics and videos are then
    fetched. *)
Context (E : env) (w : world) (api : api_call -> res pyval).
Hypothesis Hbuild : forall i s v, env_build E i s v = Ok tt.
Hypothesis Hapi : forall i call, env_api E i call = api call.
Context (skvs ukvs mkvs ikvs stkvs vkvs : list (string * pyval)) (cid : pyval) (mrest its : list pyval) (n : Z).
Hypothesis Hs : api (ChannelLookup.search_call "Daepa_ai") = Ok (PDict skvs).
Hypothesis Hsi : truthy (default PNone (dict_lookup "items" skvs)) = false.
Hypothesis Hu : api (ChannelLookup.username_call "Daepa_ai") = Ok (PDict ukvs).
Hypothesis Hui : truthy (default PNone (dict_lookup "items" ukvs)) = false.
Hypothesis Hm : api TestApiProbes.mine_call = Ok (PDict mkvs).
Hypothesis Hmi : dict_lookup "items" mkvs = Some (PList (PDict ikvs :: mrest)).
Hypothesis Hid : dict_lookup "id" ikvs = Some cid.
Hypothesis Hst : api (TestApiProbes.stats_call cid) = Ok (PDict stkvs).
Hypothesis Hsti : dict_lookup "items" stkvs = Some (PList its).
Hypothesis Hne : its <> [].
Hypothesis Hok : Forall (fun it => stats_item_ok it = true) its.
Hypothesis Hv : api (TestApiProbes.videos_call cid) = Ok (PDict vkvs).
Hypothesis Hvn : py_len (default (PList []) (dict_lookup "items" vkvs)) = Ok n.

(** C15. When the handle search and [forUsername] find nothing, the data
    probe falls back to the caller's own channel ([mine=True]) without
    raising and reports it: it returns that channel's id, after exactly
    five requests in this order: the search, [forUsername], [mine], the
    channel's statistics, its recent videos. *)
Theorem data_probe_mine_fallback :
  exists w', TestApiProbes.test_youtube_data_api PNone E w = (Ok cid, w') /\
    api_calls w' = (api_calls w ++ [ChannelLookup.search_call "Daepa_ai"; ChannelLookup.username_call "Daepa_ai";
                                    TestApiProbes.mine_call; TestApiProbes.stats_call cid; TestApiProbes.videos_call cid])%list /\
    w_token_file w' = w_token_file w.
Proof.
  unfold TestApiProbes.test_youtube_data_api, try_clauses, TestApiProbes.data_body, TestApiProbes.resolve_channel,
    ChannelLookup.get_channel_id_from_handle, ChannelLookup.search_by_handle, ChannelLookup.by_username, build,
    try_except, try_catch.
  rewrite clean_channel_handle.
  repeat (progress (run_m; rewrite ?Hapi, ?Hbuild, ?Hs, ?Hu, ?Hm, ?Hst, ?py_get_dict, ?Hsi, ?Hui, ?Hmi, ?Hid, ?Hsti; simpl)).
  rewrite (bool_decide_eq_false_2 _ Hne). simpl. run_m. simpl. run_m.
  match goal with |- context [for_each its TestApiProbes.print_stats E ?w1] =>
    destruct (for_each_print_stats_ok its E w1 Hok) as (w2 & Hfe & Ha2 & Hf2); rewrite Hfe end.
  repeat (progress (run_m; rewrite ?Hapi, ?Hv, ?py_get_dict, ?Hvn; simpl)).
  eexists. split; [reflexivity|]. rewrite !api_calls_record, Ha2, !api_calls_record. simpl.
  split; [by rewrite <- !app_assoc | done].
Qed.
End MineFallback.

(** ** Witnesses *)

(** An API whose handle search and [forUsername] find nothing, and whose
    [mine=True] finds the channel ["UCmine"]. *)
Definition ex_mine_api (call : api_call) : res pyval :=
  let ps := call_params call in
  if dict_has "q" ps then Ok (PDict [("items", PList [])])
  else if dict_has "forUsername" ps then Ok (PDict [("kind", PStr "youtube#channelListResponse")])
  else if dict_has "mine" ps then Ok (PDict [("items", PList [PDict [("id", PStr "UCmine")]])])
  else if dict_has "channelId" ps then Ok (PDict [("items", PList [PDict []; PDict []])])
  else Ok (PDict [("items", PList [PDict [("snippet", PDict [("title", PStr "Mine")]);
                                         ("statistics", PDict [("viewCount", PStr "10")])]])]).

Definition ex_probe_world : world := {| w_token_file := FAbsent; w_trace := [] |}.

Lemma data_probe_mine_fallback_witness :
  exists w', TestApiProbes.test_youtube_data_api PNone (ex_lookup_env ex_mine_api) ex_probe_world = (Ok (PStr "UCmine"), w') /\
    api_calls w' = [ChannelLookup.search_call "Daepa_ai"; ChannelLookup.username_call "Daepa_ai";
                    TestApiProbes.mine_call; TestApiProbes.stats_call (PStr "UCmine"); TestApiProbes.videos_call (PStr "UCmine")] /\
    w_token_file w' = FAbsent.
Proof.
  eapply (data_probe_mine_fallback (ex_lookup_env ex_mine_api) ex_probe_world ex_mine_api _ _
    [("items", PList [])] [("kind", PStr "youtube#channelListResponse")] [("items", PList [PDict [("id", PStr "UCmine")]])]
    [("id", PStr "UCmine")]
    [("items", PList [PDict [("snippet", PDict [("title", PStr "Mine")]); ("statistics", PDict [("viewCount", PStr "10")])]])]
    [("items", PList [PDict []; PDict []])] (PStr "UCmine") []
    [PDict [("snippet", PDict [("title", PStr "Mine")]); ("statistics", PDict [("viewCount", PStr "10")])]] 2).
  Unshelve. all: first [intros; reflexivity | discriminate | repeat constructor].
Defined.

Lemma date_add_days_ok o d : 0 < o + d <= MAXORDINAL -> date_add_days o d = Ok (o + d).
Proof. intros H. unfold date_add_days. by rewrite (proj2 (Z.ltb_lt 0 _)), (proj2 (Z.leb_le _ MAXORDINAL)) by lia. Qed.

Section AnalyticsRun.
(** The API answers the same whatever was asked before; the clock reads
    [now], whose date is at least the 8th day of year 1; the daily report
    over the window has headers with names and no rows; the overall
    report is the dict [okvs]. *)
Context (E : env) (w : world) (api : api_call -> res pyval) (c : pyval) (now : Z).
Hypothesis Hbuild : forall i s v, env_build E i s v = Ok tt.
Hypothesis Hapi : forall i call, env_api E i call = api call.
Hypothesis Hclock : forall i, env_clock E i = now.
Hypothesis Hrange : 8 <= date_ord now <= MAXORDINAL.
Let cp := TestApiProbes.channel_param c.
Let sd := isoformat_date (date_ord now - 7).
Let ed := isoformat_date (date_ord now).
Context (dkvs okvs : list (string * pyval)) (hs : list pyval) (names : list pyval).
Hypothesis Hd : api (TestApiProbes.daily_call cp sd ed) = Ok (PDict dkvs).
Hypothesis Hhs : py_iter (default (PList []) (dict_lookup "columnHeaders" dkvs)) = Ok hs.
Hypothesis Hnames : mapM (fun hd => py_getkey hd "name") hs = Ok names.
Hypothesis Hrows : truthy (default (PList []) (dict_lookup "rows" dkvs)) = false.
Hypothesis Ho : api (TestApiProbes.overall_call cp sd ed) = Ok (PDict okvs).

(** C16. An analytics report with no data is not a failure: when the
    overall report has no rows either, the probe prints the warning and
    returns [True], after querying the daily and the overall report, both
    over the seven days before today. *)
Theorem analytics_empty_rows_ok :
  truthy (default PNone (dict_lookup "rows" okvs)) = false ->
  exists w', TestApiProbes.test_youtube_analytics_api c E w = (Ok true, w') /\
    api_calls w' = (api_calls w ++ [TestApiProbes.daily_call cp sd ed; TestApiProbes.overall_call cp sd ed])%list /\
    EvPrint "no data" [] ∈ w_trace w' /\ w_token_file w' = w_token_file w.
Proof.
  intros Horows.
  unfold TestApiProbes.test_youtube_analytics_api, try_clauses, TestApiProbes.analytics_body,
    TestApiProbes.print_daily, TestApiProbes.print_overall, build, utcnow.
  repeat (progress (run_m; rewrite ?Hapi, ?Hbuild, ?Hclock; simpl)).
  rewrite date_add_days_ok by lia. run_m. rewrite Hapi. replace (date_ord now + -7) with (date_ord now - 7) by lia.
  fold sd ed cp. rewrite Hd. run_m.
  repeat (progress (run_m; rewrite ?py_get_dict, ?Hhs, ?Hnames, ?Hrows, ?Hapi, ?Ho, ?Horows; simpl)).
  eexists. split; [reflexivity|]. rewrite !api_calls_record. simpl. split; [by rewrite <- !app_assoc|].
  split; [|done]. unfold record. simpl. rewrite list_elem_of_In, !in_app_iff. simpl. tauto.
Qed.
(** C24. A malformed overall report is a failure of the probe, not a
    crash of the script: when the first overall row starts with a string,
    [f"{overall_data[0]:,}"] (line 263) raises [ValueError], which the
    [except Exception] clause catches; the probe prints the unexpected
    error and returns [False], having printed no total, leaving the token
    file alone. *)
Theorem analytics_malformed_total_false x r0 rest :
  dict_lookup "rows" okvs = Some (PList (PList (PStr x :: r0) :: rest)) ->
  exists w', TestApiProbes.test_youtube_analytics_api c E w = (Ok false, w') /\
    w_trace w' = (w_trace w ++ [EvPrint "rule" []; EvPrint "analytics api test" []; EvPrint "rule" [];
      EvBuild "youtubeAnalytics" "v2"; EvPrint "last 7 days test" []; EvClock;
      EvApi (TestApiProbes.daily_call cp sd ed); EvPrint "no data" []; EvPrint "overall stats test" [];
      EvApi (TestApiProbes.overall_call cp sd ed); EvPrint "unexpected error" []])%list /\
    w_token_file w' = w_token_file w.
Proof.
  intros Hmal.
  unfold TestApiProbes.test_youtube_analytics_api, try_clauses, TestApiProbes.analytics_body,
    TestApiProbes.print_daily, TestApiProbes.print_overall, build, utcnow.
  repeat (progress (run_m; rewrite ?Hapi, ?Hbuild, ?Hclock; simpl)).
  rewrite date_add_days_ok by lia. run_m. rewrite Hapi. replace (date_ord now + -7) with (date_ord now - 7) by lia.
  fold sd ed cp. rewrite Hd. run_m.
  repeat (progress (run_m; rewrite ?py_get_dict, ?Hhs, ?Hnames, ?Hrows, ?Hapi, ?Ho, ?Hmal; simpl)).
  eexists. split; [reflexivity|]. unfold record; simpl. by rewrite <- !app_assoc.
Qed.
End AnalyticsRun.

(** ** The daily table *)

Lemma for_each_print_row rls E w :
  for_each (map PList rls) (fun row => let! vs := lift (py_iter row) in print "row" vs) E w =
    (Ok tt, {| w_token_file := w_token_file w; w_trace := (w_trace w ++ map (fun vs => EvPrint "row" vs) rls)%list |}).
Proof.
  revert w. induction rls as [|r rls IH]; intros w; cbn [map for_each].
  - rewrite ret_run, app_nil_r. by destruct w.
  - run_m. simpl. rewrite IH. simpl. by rewrite <- app_assoc.
Qed.

(** C25. The daily table shows at most five rows: for a report whose
    rows are lists, [print_daily] prints the number of days, the column
    names joined by [" | "], a rule, the first five rows in order, and
    one more line with the number of rows left out exactly when there are
    more than five. *)
Theorem print_daily_first_five_rows resp hs cols rls E w :
  py_get resp "columnHeaders" (PList []) = Ok (PList hs) ->
  mapM (fun hd => py_getkey hd "name") hs = Ok (map PStr cols) ->
  py_get resp "rows" (PList []) = Ok (PList (map PList rls)) ->
  rls <> [] ->
  exists w', TestApiProbes.print_daily resp E w = (Ok tt, w') /\ w_token_file w' = w_token_file w /\
    w_trace w' = (w_trace w ++
      [EvPrint "days of data" [PInt (Z.of_nat (List.length rls))]; EvPrint "columns" [PStr (str_join " | " cols)];
       EvPrint "rule" []] ++
      map (fun vs => EvPrint "row" vs) (take 5 rls) ++
      (if Nat.ltb 5 (List.length rls) then [EvPrint "more rows" [PInt (Z.of_nat (List.length rls - 5))]] else []))%list.
Proof.
  intros Hch Hnames Hrows Hne. unfold TestApiProbes.print_daily.
  assert (Ht : truthy (PList (map PList rls)) = true) by (destruct rls; done).
  repeat (progress (run_m; rewrite ?Hch, ?Hnames, ?Hrows, ?Ht, ?py_join_strs; simpl)).
  rewrite firstn_map, for_each_print_row, length_map. run_m.
  destruct (Nat.ltb_spec 5 (List.length rls)) as [Hlt|Hge].
  - rewrite (proj2 (Z.ltb_lt _ _)) by lia. run_m. eexists. split; [reflexivity|]. split; [done|].
    simpl. rewrite <- !app_assoc. repeat f_equal. lia.
  - rewrite (proj2 (Z.ltb_ge _ _)) by lia. run_m. eexists. split; [reflexivity|]. split; [done|].
    simpl. by rewrite <- !app_assoc, app_nil_r.
Qed.
(** C27. The analytics probe of [yt_auth.py] queries [channel==MINE]
    over the seven days before today and prints the joined column names
    and then every row of the daily report, with no limit on their
    number (unlike [test_api.py]'s five); it writes nothing. *)
Theorem yt_auth_analytics_prints_all_rows E w api now resp hs cols rls :
  (forall i s v, env_build E i s v = Ok tt) -> (forall i call, env_api E i call = api call) ->
  (forall i, env_clock E i = now) -> 8 <= date_ord now <= MAXORDINAL ->
  api (YtAuthProbes.report_call (isoformat_date (date_ord now - 7)) (isoformat_date (date_ord now))) = Ok resp ->
  py_get resp "columnHeaders" (PList []) = Ok (PList hs) ->
  mapM (fun hd => py_getkey hd "name") hs = Ok (map PStr cols) ->
  py_get resp "rows" (PList []) = Ok (PList (map PList rls)) ->
  YtAuthProbes.test_youtube_analytics_api E w =
    (Ok tt, {| w_token_file := w_token_file w;
               w_trace := (w_trace w ++
                 [EvBuild "youtubeAnalytics" "v2"; EvClock;
                  EvApi (YtAuthProbes.report_call (isoformat_date (date_ord now - 7)) (isoformat_date (date_ord now)));
                  EvPrint "last 7 days" []; EvPrint "columns" [PStr (str_join " | " cols)]] ++
                 map (fun vs => EvPrint "row" vs) rls)%list |}).
Proof.
  intros Hbuild Hapi Hclock Hrange Hresp Hch Hnames Hrows.
  unfold YtAuthProbes.test_youtube_analytics_api, build, utcnow.
  run_m. rewrite Hbuild, Hclock. simpl. run_m.
  rewrite date_add_days_ok by lia. replace (date_ord now + -7) with (date_ord now - 7) by lia. run_m.
  rewrite Hapi, Hresp. repeat (progress (run_m; rewrite ?Hch, ?Hnames, ?Hrows, ?py_join_strs; simpl)).
  rewrite for_each_print_row. simpl. by rewrite <- !app_assoc.
Qed.

(** Before the 8th day of year 1, [date - timedelta(days=7)] overflows. *)
Lemma date_add_days_overflow o : o <= 7 -> date_add_days o (-7) = Raise OverflowError.
Proof. intros Ho. unfold date_add_days. by rewrite (proj2 (Z.ltb_ge _ _)) by lia. Qed.

(** C17. In the first week of year 1, [end_date - timedelta(days=7)]
    (line 227) raises [OverflowError]; the analytics probe catches it as
    an unexpected error and returns [False] before any report is
    requested. *)
Theorem analytics_window_overflow_false c E w now :
  (forall i s v, env_build E i s v = Ok tt) -> (forall i, env_clock E i = now) ->
  1 <= date_ord now <= 7 ->
  TestApiProbes.test_youtube_analytics_api c E w =
    (Ok false, {| w_token_file := w_token_file w;
                  w_trace := (w_trace w ++ [EvPrint "rule" []; EvPrint "analytics api test" []; EvPrint "rule" [];
                    EvBuild "youtubeAnalytics" "v2"; EvPrint "last 7 days test" []; EvClock;
                    EvPrint "unexpected error" []])%list |}).
Proof.
  intros Hbuild Hclock Hrange.
  unfold TestApiProbes.test_youtube_analytics_api, try_clauses, TestApiProbes.analytics_body, build, utcnow.
  repeat (progress (run_m; rewrite ?Hbuild, ?Hclock; simpl)).
  rewrite date_add_days_overflow by lia. simpl. run_m. unfold record. simpl. by rewrite <- !app_assoc.
Qed.

(** A clock on 0001-01-01, the first day [datetime] can represent. *)
Definition ex_year_one_env : env :=
  {| env_clock := fun _ => - 719162 * US_PER_DAY; env_token_endpoint := fun _ _ => Raise RefreshError;
     env_flow := fun _ => Raise FlowError; env_build := fun _ _ _ => Ok tt;
     env_api := fun _ _ => Ok (PDict []); env_writable := fun _ => true |}.

Lemma analytics_window_overflow_false_witness :
  TestApiProbes.test_youtube_analytics_api PNone ex_year_one_env ex_probe_world =
    (Ok false, {| w_token_file := FAbsent;
                  w_trace := [EvPrint "rule" []; EvPrint "analytics api test" []; EvPrint "rule" [];
                    EvBuild "youtubeAnalytics" "v2"; EvPrint "last 7 days test" []; EvClock;
                    EvPrint "unexpected error" []] |}).
Proof.
  apply (analytics_window_overflow_false PNone ex_year_one_env ex_probe_world (- 719162 * US_PER_DAY)).
  all: first [intros; reflexivity | vm_compute; split; discriminate].
Defined.

(** Reports with headers and no rows, at the epoch. *)
Definition ex_empty_report : pyval :=
  PDict [("kind", PStr "youtubeAnalytics#resultTable");
         ("columnHeaders", PList [PDict [("name", PStr "day")]; PDict [("name", PStr "views")]])].

Lemma analytics_empty_rows_ok_witness :
  exists w', TestApiProbes.test_youtube_analytics_api PNone (ex_lookup_env (fun _ => Ok ex_empty_report)) ex_probe_world =
    (Ok true, w') /\
    api_calls w' = [TestApiProbes.daily_call "channel==MINE" (isoformat_date (date_ord 0 - 7)) (isoformat_date (date_ord 0));
                    TestApiProbes.overall_call "channel==MINE" (isoformat_date (date_ord 0 - 7)) (isoformat_date (date_ord 0))] /\
    EvPrint "no data" [] ∈ w_trace w' /\ w_token_file w' = FAbsent.
Proof.
  eapply (analytics_empty_rows_ok (ex_lookup_env (fun _ => Ok ex_empty_report)) ex_probe_world
    (fun _ => Ok ex_empty_report) PNone 0 _ _ _ _
    [("kind", PStr "youtubeAnalytics#resultTable");
     ("columnHeaders", PList [PDict [("name", PStr "day")]; PDict [("name", PStr "views")]])]
    [("kind", PStr "youtubeAnalytics#resultTable");
     ("columnHeaders", PList [PDict [("name", PStr "day")]; PDict [("name", PStr "views")]])]
    [PDict [("name", PStr "day")]; PDict [("name", PStr "views")]] [PStr "day"; PStr "views"]).
  Unshelve. all: first [intros; reflexivity | vm_compute; split; discriminate].
Defined.

(** The overall report's first row holds the total as a string, as a
    proxy that re-encodes numbers would send it; the daily report is
    [ex_empty_report]. *)
Definition ex_bad_total_api (call : api_call) : res pyval :=
  if Nat.eqb (List.length (call_params call)) 4 then
    Ok (PDict [("kind", PStr "youtubeAnalytics#resultTable");
               ("rows", PList [PList [PStr "1,234"; PInt 56; PInt 7]])])
  else Ok ex_empty_report.

Lemma analytics_malformed_total_false_witness :
  exists w', TestApiProbes.test_youtube_analytics_api PNone (ex_lookup_env ex_bad_total_api) ex_probe_world =
    (Ok false, w') /\
    w_trace w' = [EvPrint "rule" []; EvPrint "analytics api test" []; EvPrint "rule" [];
      EvBuild "youtubeAnalytics" "v2"; EvPrint "last 7 days test" []; EvClock;
      EvApi (TestApiProbes.daily_call "channel==MINE" (isoformat_date (date_ord 0 - 7)) (isoformat_date (date_ord 0)));
      EvPrint "no data" []; EvPrint "overall stats test" [];
      EvApi (TestApiProbes.overall_call "channel==MINE" (isoformat_date (date_ord 0 - 7)) (isoformat_date (date_ord 0)));
      EvPrint "unexpected error" []] /\
    w_token_file w' = FAbsent.
Proof.
  eapply (analytics_malformed_total_false (ex_lookup_env ex_bad_total_api) ex_probe_world
    ex_bad_total_api PNone 0 _ _ _ _
    [("kind", PStr "youtubeAnalytics#resultTable");
     ("columnHeaders", PList [PDict [("name", PStr "day")]; PDict [("name", PStr "views")]])]
    [("kind", PStr "youtubeAnalytics#resultTable");
     ("rows", PList [PList [PStr "1,234"; PInt 56; PInt 7]])]
    [PDict [("name", PStr "day")]; PDict [("name", PStr "views")]] [PStr "day"; PStr "views"]
    _ _ _ _ _ "1,234" [PInt 56; PInt 7] []).
  Unshelve. all: first [intros; reflexivity | vm_compute; split; discriminate].
Defined.

(** A week of daily rows: seven rows, two of them left out. *)
Definition ex_week_rows : list (list pyval) :=
  map (fun d => [PStr ("2024-01-0" ++ String (ascii_of_nat (48 + d)) "")%string; PInt (Z.of_nat (10 * d))])
    [1; 2; 3; 4; 5; 6; 7]%nat.

Definition ex_week_report : pyval :=
  PDict [("columnHeaders", PList [PDict [("name", PStr "day")]; PDict [("name", PStr "views")]]);
         ("rows", PList (map PList ex_week_rows))].

Lemma print_daily_first_five_rows_witness :
  exists w', TestApiProbes.print_daily ex_week_report (ex_lookup_env (fun _ => Ok ex_week_report)) ex_probe_world =
    (Ok tt, w') /\ w_token_file w' = FAbsent /\
    w_trace w' = [EvPrint "days of data" [PInt 7]; EvPrint "columns" [PStr "day | views"]; EvPrint "rule" [];
      EvPrint "row" [PStr "2024-01-01"; PInt 10]; EvPrint "row" [PStr "2024-01-02"; PInt 20];
      EvPrint "row" [PStr "2024-01-03"; PInt 30]; EvPrint "row" [PStr "2024-01-04"; PInt 40];
      EvPrint "row" [PStr "2024-01-05"; PInt 50]; EvPrint "more rows" [PInt 2]].
Proof.
  eapply (print_daily_first_five_rows ex_week_report
    [PDict [("name", PStr "day")]; PDict [("name", PStr "views")]] ["day"; "views"] ex_week_rows).
  Unshelve. all: first [reflexivity | discriminate].
Defined.

Lemma yt_auth_analytics_prints_all_rows_witness :
  YtAuthProbes.test_youtube_analytics_api (ex_lookup_env (fun _ => Ok ex_week_report)) ex_probe_world =
    (Ok tt, {| w_token_file := FAbsent;
               w_trace := ([EvBuild "youtubeAnalytics" "v2"; EvClock;
                  EvApi (YtAuthProbes.report_call (isoformat_date (date_ord 0 - 7)) (isoformat_date (date_ord 0)));
                  EvPrint "last 7 days" []; EvPrint "columns" [PStr "day | views"]] ++
                 map (fun vs => EvPrint "row" vs) ex_week_rows)%list |}).
Proof.
  apply (yt_auth_analytics_prints_all_rows _ ex_probe_world (fun _ => Ok ex_week_report) 0 ex_week_report
    [PDict [("name", PStr "day")]; PDict [("name", PStr "views")]] ["day"; "views"] ex_week_rows).
  all: first [intros; reflexivity | vm_compute; split; discriminate].
Defined.

(** A server that refuses every client and request with the given status. *)
Definition ex_refused_env (st : Z) : env :=
  {| env_clock := fun _ => 0; env_token_endpoint := fun _ _ => Raise RefreshError;
     env_flow := fun _ => Raise FlowError; env_build := fun _ _ _ => Raise (HttpError st);
     env_api := fun _ _ => Raise (HttpError st); env_writable := fun _ => true |}.

Lemma data_probe_http_error_none_witness :
  TestApiProbes.test_youtube_data_api PNone (ex_refused_env 403) ex_probe_world =
    (Ok PNone, {| w_token_file := FAbsent;
                  w_trace := [EvPrint "rule" []; EvPrint "data api test" []; EvPrint "rule" [];
                              EvBuild "youtube" "v3"; EvPrint "data api error" [];
                              EvPrint "forbidden or quota exceeded" []] |}).
Proof.
  exact (data_probe_http_error_none PNone (ex_refused_env 403) ex_probe_world 403
    {| w_token_file := FAbsent;
       w_trace := [EvPrint "rule" []; EvPrint "data api test" []; EvPrint "rule" []; EvBuild "youtube" "v3"] |}
    eq_refl).
Defined.

(** ** The analytics probe runs once *)

(** [test_youtube_analytics_api] builds the analytics client exactly once,
    whether it then succeeds or fails. *)
Lemma analytics_builds_once c E w :
  count_ev is_analytics_build (snd (TestApiProbes.test_youtube_analytics_api c E w)) =
    S (count_ev is_analytics_build w).
Proof.
  unfold TestApiProbes.test_youtube_analytics_api. do 3 (rewrite bind_run, print_run; cbn beta iota).
  rewrite (count_try_clauses _ _ _ 1).
  - rewrite !count_ev_record. simpl. lia.
  - unfold TestApiProbes.analytics_body. apply count_mbind.
    + unfold build. simpl. rewrite count_ev_record. simpl. lia.
    + intros _. unfold TestApiProbes.print_daily, TestApiProbes.print_overall. frame_solve.
  - unfold TestApiProbes.analytics_handlers, http_hint. frame_solve.
Qed.
