(* ===== verification/Main.v ===== *)
(** * The entry points of the scripts

    - [YtAuthMain.main] is [main] of [src/yt_auth.py] (lines 93-104):
      [get_credentials], then the two probes, none of it in a [try];
    - [TestApiMain.main] is [main] of [src/test_api.py] (lines 283-311):
      [load_credentials], the data probe, the analytics probe on the
      channel the data probe returned, the summary, and the return code
      [0] when [data_api_result and analytics_api_result], else [1];
      [TestApiMain.script] is [sys.exit(main())] (line 315).

    [exit_status] is the status the process ends with: the code of
    [SystemExit], [1] after any other uncaught exception (the traceback),
    [0] when the script returns.

    The credential returned by the credential manager is what the probes
    pass to [build]; the model's API answers ([env_api]) are those the
    server gives for that credential, so the value itself is not threaded
    further. *)

From S2P Require Import Prelude PyString PyValue Dates DateFormat Credentials Effects Hoare GoogleAuth TokenManager ChannelResolve Probes.
From stdpp Require Import base list.
From Stdlib Require Import Ascii String ZArith Lia.

Local Open Scope string_scope.
Local Open Scope Z_scope.

Definition exit_status {A} (r : res A) : Z :=
  match r with
  | Ok _ => 0
  | Raise (SystemExit code) => code
  | Raise _ => 1
  end.

Module YtAuthMain.

Definition main : M unit :=
  let! creds := YtAuth.get_credentials in
  print "data api test" [];;
  YtAuthProbes.test_youtube_data_api;;
  print "analytics api test" [];;
  YtAuthProbes.test_youtube_analytics_api.

End YtAuthMain.

Module TestApiMain.

(** [channel_id is not None] *)
Definition is_not_none (v : pyval) : bool := negb (is_none v).

Definition main : M Z :=
  print "api test start" [];;
  print "loading credentials" [];;
  let! creds := TestApi.load_credentials in
  print "credentials loaded" [];;
  let! channel_id := TestApiProbes.test_youtube_data_api PNone in
  let data_api_result := is_not_none channel_id in
  (if truthy channel_id then print "channel id to query" [channel_id] else mret tt);;
  let! analytics_api_result := TestApiProbes.test_youtube_analytics_api channel_id in
  print "rule" [];;
  print "final results" [];;
  print "rule" [];;
  print "data api result" [PBool data_api_result];;
  print "analytics api result" [PBool analytics_api_result];;
  if data_api_result && analytics_api_result then
    print "all apis ok" [];;
    mret 0
  else
    print "some apis failed" [];;
    mret 1.

(** [if __name__ == "__main__": sys.exit(main())] *)
Definition script : M unit :=
  let! code := main in
  sys_exit code.

End TestApiMain.

(** ** The return code of [test_api.py] *)

(** One [print] statement in a [runs] proof. *)
Ltac runs_say := apply (runs_mbind _ _ (fun _ => True)); [by apply runs_print | intros _ _].

Section ExitCode.
(** [I] holds of the worlds the run goes through: printing keeps it. *)
Context (E : env) (I : world -> Prop).
Hypothesis HI : forall ev w, I w -> I (record ev w).

(** C18. In an environment where [load_credentials] returns, the data
    probe returns [v] and the analytics probe (given [v]) returns [b],
    [main] returns [0] exactly when [v is not None] and [b]: a data probe
    that failed with [False] (lines 149 and 162) counts as a success. *)
Theorem main_exit_code v b :
  runs E I TestApi.load_credentials (fun _ => True) ->
  runs E I (TestApiProbes.test_youtube_data_api PNone) (eq v) ->
  runs E I (TestApiProbes.test_youtube_analytics_api v) (eq b) ->
  runs E I TestApiMain.main (eq (if TestApiMain.is_not_none v && b then 0 else 1)).
Proof.
  intros Hl Hd Ha. unfold TestApiMain.main. do 2 runs_say.
  apply (runs_bind _ _ (fun _ => True)); [exact Hl | intros _ _]. runs_say.
  apply (runs_bind _ _ (eq v)); [exact Hd | intros ? <-].
  apply (runs_mbind _ _ (fun _ => True)); [destruct (truthy v); [by apply runs_print | by apply runs_ret] | intros _ _].
  apply (runs_bind _ _ (eq b)); [exact Ha | intros ? <-].
  do 5 runs_say. destruct (_ && _); runs_say; by apply runs_ret.
Qed.
End ExitCode.

Lemma spec_main : spec (fun code => code = 0 \/ code = 1) (fun e => e = SystemExit 1) TestApiMain.main.
Proof.
  unfold TestApiMain.main.
  do 2 (apply (spec_mbind (fun _ => True)); [apply spec_print | intros _ _]).
  apply (spec_bind (fun _ => True)); [eapply spec_weaken; [apply spec_load_credentials | done | done] | intros _ _].
  apply (spec_mbind (fun _ => True)); [apply spec_print | intros _ _].
  apply (spec_bind (fun _ => True)); [eapply spec_weaken; [apply spec_test_youtube_data_api | done | done] | intros v _].
  apply (spec_mbind (fun _ => True)); [destruct (truthy v); [apply spec_print | by apply spec_ret] | intros _ _].
  apply (spec_bind (fun _ => True));
    [eapply spec_weaken; [apply spec_test_youtube_analytics_api | done | done] | intros b _].
  do 5 (apply (spec_mbind (fun _ => True)); [apply spec_print | intros _ _]).
  destruct (_ && _); (apply (spec_mbind (fun _ => True)); [apply spec_print | intros _ _]); apply spec_ret; auto.
Qed.

(** [load_credentials] without a file, and with a file that is not JSON. *)
Lemma load_credentials_absent E w :
  w_token_file w = FAbsent ->
  TestApi.load_credentials E w = (Raise (SystemExit 1), record (EvPrint "token file missing" [PStr TOKEN_FILE]) w).
Proof. intros Hf. unfold TestApi.load_credentials, token_file_exists. run_m. by rewrite Hf. Qed.

Lemma load_credentials_unparsable E w :
  w_token_file w = FUnparsable ->
  TestApi.load_credentials E w =
    (Raise (SystemExit 1), record (EvPrint "credential load failed" []) (record EvReadToken w)).
Proof.
  intros Hf. unfold TestApi.load_credentials, token_file_exists. run_m. rewrite Hf. simpl.
  unfold try_except, try_catch, TestApi.load_body, from_authorized_user_file, read_token_file.
  run_m. by rewrite Hf.
Qed.

(** C19. [python test_api.py] without a usable token file ends with
    status [1] before any client is built or any request is made: with no
    file, at the existence check (line 96); with a file that is not JSON,
    through the outer [except] of [load_credentials] (line 120); and the
    file is left as it was. *)
Theorem script_unusable_token_exits_1 E w :
  (w_token_file w = FAbsent ->
     exit_status (fst (TestApiMain.script E w)) = 1 /\
     snd (TestApiMain.script E w) =
       mk_world FAbsent (w_trace w ++ [EvPrint "api test start" []; EvPrint "loading credentials" [];
                                    EvPrint "token file missing" [PStr TOKEN_FILE]])%list) /\
  (w_token_file w = FUnparsable ->
     exit_status (fst (TestApiMain.script E w)) = 1 /\
     snd (TestApiMain.script E w) =
       mk_world FUnparsable (w_trace w ++ [EvPrint "api test start" []; EvPrint "loading credentials" [];
                                    EvReadToken; EvPrint "credential load failed" []])%list).
Proof.
  unfold TestApiMain.script, TestApiMain.main. split; intros Hf; run_m; simpl.
  - rewrite load_credentials_absent by done. simpl. split; [reflexivity|].
    unfold record. simpl. by rewrite <- !app_assoc, Hf.
  - rewrite load_credentials_unparsable by done. simpl. split; [reflexivity|].
    unfold record. simpl. by rewrite <- !app_assoc, Hf.
Qed.

Lemma frame_load_credentials p :
  p EvReadToken = false -> p EvClock = false -> (forall c, p (EvRefresh c) = false) ->
  (forall v, p (EvWriteToken v) = false) -> (forall t a, p (EvPrint t a) = false) ->
  frame p TestApi.load_credentials.
Proof.
  intros H1 H2 H3 H4 H5. unfold TestApi.load_credentials, TestApi.load_body.
  repeat first [frame_comb | apply frame_print, H5 | apply frame_from_authorized_user_file; done
    | apply frame_creds_expired, H2 | apply frame_creds_valid, H2 | apply frame_write_token_file, H4
    | apply frame_creds_refresh; [apply H3 | exact H2] | intros ? ?; reflexivity].
Qed.

(** C23. The two probes of [test_api.py] are independent: whenever
    [main] returns its code, the analytics probe has run exactly once
    (it built its client), whatever the data probe returned or raised
    internally. *)
Theorem main_runs_analytics_once E w code w' :
  TestApiMain.main E w = (Ok code, w') -> count_ev is_analytics_build w' = S (count_ev is_analytics_build w).
Proof.
  unfold TestApiMain.main. do 2 (rewrite bind_run, print_run; cbn beta iota).
  rewrite bind_m_run. pose proof (frame_load_credentials is_analytics_build) as Hl.
  specialize (Hl eq_refl eq_refl (fun _ => eq_refl) (fun _ => eq_refl) (fun _ _ => eq_refl) E
    (record (EvPrint "loading credentials" []) (record (EvPrint "api test start" []) w))).
  destruct (TestApi.load_credentials E _) as [[c|e] w3]; [|discriminate]. simpl in Hl.
  rewrite bind_run, print_run. cbn beta iota. rewrite bind_m_run.
  pose proof (frame_test_youtube_data_api is_analytics_build PNone (fun _ => eq_refl) (fun _ _ => eq_refl) eq_refl E
    (record (EvPrint "credentials loaded" []) w3)) as Hd.
  destruct (TestApiProbes.test_youtube_data_api PNone E _) as [[v|e] w5]; [|discriminate]. simpl in Hd.
  rewrite bind_run. destruct (truthy v); rewrite ?print_run, ?ret_run; cbn beta iota; rewrite bind_m_run;
  match goal with |- context [TestApiProbes.test_youtube_analytics_api v E ?w6] =>
    pose proof (analytics_builds_once v E w6) as Ha;
    destruct (TestApiProbes.test_youtube_analytics_api v E w6) as [[b|e] w7]; [|discriminate] end;
  run_m; destruct (_ && _); run_m; intros H; simplify_eq; simpl in Ha; rewrite !count_ev_record in *; simpl in *; lia.
Qed.

(** ** [yt_auth.py]: no probe failure is caught *)

(** C20. In [yt_auth.py] a failing request of the data probe ends the
    script: [main] raises the error (an uncaught exception: a traceback
    and status 1) right after the [mine=True] request, and nothing
    follows it in the trace: the analytics probe is never run (the spec
    wants each probe to fail on its own). *)
Theorem yt_auth_main_data_error_aborts E w c w1 e :
  YtAuth.get_credentials E w = (Ok c, w1) ->
  (forall i s v, env_build E i s v = Ok tt) ->
  (forall i, env_api E i YtAuthProbes.mine_call = Raise e) ->
  exists w', YtAuthMain.main E w = (Raise e, w') /\
    w_trace w' = (w_trace w1 ++ [EvPrint "data api test" []; EvBuild "youtube" "v3"; EvApi YtAuthProbes.mine_call])%list.
Proof.
  intros Hgc Hb Hm. unfold YtAuthMain.main. rewrite bind_m_run, Hgc.
  unfold YtAuthProbes.test_youtube_data_api, build. run_m. rewrite Hb. run_m. rewrite Hm. run_m.
  eexists. split; [reflexivity|]. unfold record. simpl. by rewrite <- !app_assoc.
Qed.

(** ** Witnesses *)

(** A server that answers every request with no items, a clock before
    the expiry of [ex_creds], and the token file holding [ex_creds]. *)
Definition ex_main_env : env :=
  {| env_clock := fun _ => 1699990000000000; env_token_endpoint := fun _ _ => Raise RefreshError;
     env_flow := fun _ => Raise FlowError; env_build := fun _ _ _ => Ok tt;
     env_api := fun _ _ => Ok (PDict [("items", PList [])]); env_writable := fun _ => true |}.

Definition ex_main_inv (w : world) : Prop := w_token_file w = FJson (to_json ex_creds).

(** Under this server the data probe fails ([return False], line 149)
    and [main] still returns [0]. *)
Lemma main_exit_code_witness :
  runs ex_main_env ex_main_inv (TestApiProbes.test_youtube_data_api PNone) (eq (PBool false)) /\
  runs ex_main_env ex_main_inv TestApiMain.main (eq 0).
Proof.
  assert (Hd : runs ex_main_env ex_main_inv (TestApiProbes.test_youtube_data_api PNone) (eq (PBool false))).
  { intros [f tr] Hf. unfold ex_main_inv in *. simpl in Hf. subst f. vm_compute.
    eexists _, _. split; [reflexivity | split; reflexivity]. }
  split; [exact Hd|].
  apply (main_exit_code ex_main_env ex_main_inv (fun ev w Hw => Hw) (PBool false) true); [| exact Hd |].
  - intros [f tr] Hf. unfold ex_main_inv in *. simpl in Hf. subst f. vm_compute.
    eexists _, _. split; [reflexivity | split; [exact I | reflexivity]].
  - intros [f tr] Hf. unfold ex_main_inv in *. simpl in Hf. subst f. vm_compute.
    eexists _, _. split; [reflexivity | split; reflexivity].
Defined.

(** The [mine=True] request is refused with 403 after a valid token was
    loaded. *)
Definition ex_forbidden_env : env :=
  {| env_clock := fun _ => 1699990000000000; env_token_endpoint := fun _ _ => Raise RefreshError;
     env_flow := fun _ => Raise FlowError; env_build := fun _ _ _ => Ok tt;
     env_api := fun _ _ => Raise (HttpError 403); env_writable := fun _ => true |}.

Lemma yt_auth_main_data_error_aborts_witness :
  exists w', YtAuthMain.main ex_forbidden_env ex_world = (Raise (HttpError 403), w') /\
    w_trace w' = [EvReadToken; EvClock; EvPrint "data api test" []; EvBuild "youtube" "v3"; EvApi YtAuthProbes.mine_call].
Proof.
  eapply (yt_auth_main_data_error_aborts ex_forbidden_env ex_world ex_creds
    (record EvClock (record EvReadToken ex_world)) (HttpError 403)).
  Unshelve. all: first [intros; reflexivity | vm_compute; reflexivity].
Defined.


Lemma script_unusable_token_exits_1_witness :
  (exit_status (fst (TestApiMain.script ex_main_env {| w_token_file := FAbsent; w_trace := [] |})) = 1 /\
     snd (TestApiMain.script ex_main_env {| w_token_file := FAbsent; w_trace := [] |}) = mk_world FAbsent [EvPrint "api test start" []; EvPrint "loading credentials" [];
                    EvPrint "token file missing" [PStr TOKEN_FILE]]) /\
  (exit_status (fst (TestApiMain.script ex_main_env {| w_token_file := FUnparsable; w_trace := [] |})) = 1 /\
     snd (TestApiMain.script ex_main_env {| w_token_file := FUnparsable; w_trace := [] |}) = mk_world FUnparsable [EvPrint "api test start" []; EvPrint "loading credentials" [];
                    EvReadToken; EvPrint "credential load failed" []]).
Proof.
  split; [apply (proj1 (script_unusable_token_exits_1 ex_main_env {| w_token_file := FAbsent; w_trace := [] |}))
         | apply (proj2 (script_unusable_token_exits_1 ex_main_env {| w_token_file := FUnparsable; w_trace := [] |}))];
    reflexivity.
Defined.

(** Under [ex_main_env] the data probe fails, and the analytics probe
    still runs once. *)
Lemma main_runs_analytics_once_witness :
  match TestApiMain.main ex_main_env ex_world with
  | (Ok _, w') => count_ev is_analytics_build w' = S (count_ev is_analytics_build ex_world)
  | (Raise _, _) => False
  end.
Proof.
  destruct (TestApiMain.main ex_main_env ex_world) as [[code|e] w'] eqn:H;
    [exact (main_runs_analytics_once _ _ _ _ H) | vm_compute in H; discriminate].
Defined.
